(** * wget.py: a shallow embedding of the retrieval core of tumblr-utils

    The development follows [src/wget.py].  Python integers are [Z],
    [str] values are [string] (one [ascii] per character: header values
    reach the program decoded as ISO-8859-1, so every character of a header
    is a code point below 256), [bytes] values are [list byte], the
    process-wide set [unreachable_hosts] is a [gset string], and the
    destination directory is a finite map from base names to nodes.
    Mutation, exceptions and [try]/[finally] are written in a state and
    exception monad over one record holding every object the code mutates. *)

From Stdlib Require Import ZArith List Bool Strings.Ascii Strings.String Strings.Byte Lia.
From stdpp Require Import base tactics option list strings gmap pretty.

Local Open Scope Z_scope.

(** ** Exceptions *)

(** The urllib3 exceptions the code distinguishes; all of them are
    subclasses of urllib3's [HTTPError]. *)
Inductive HTTPErrorKind : Type :=
| MaxRetryError
| ConnectTimeoutError (conn_host : string) (conn_port : option Z)
| ProtocolError.

(** Message of a [WGRangeError], kept structured. *)
Inductive CRangeStatus : Type := CRNotProvided | CRInvalid | CRZero.

Inductive RangeMsg : Type :=
| UnexpectedContentRange (requested got : Z)
| PartialContentButRange (crange_status : CRangeStatus).

Inductive Exc : Type :=
| HTTPError (k : HTTPErrorKind)
| OSError
| ValueError
| TypeError
| AttributeError
| AssertionError
| WGMaxRetryError
| WGUnreachableHostError (has_logger : bool) (host : string)
| WGBadProtocolError
| WGBadResponseError
| WGWrongCodeError (statcode : Z)
| WGRangeError (msg : RangeMsg).

Inductive result (A : Type) : Type :=
| Ret (a : A)
| Raise (e : Exc).
Arguments Ret {A} a.
Arguments Raise {A} e.

(** ** Python [str] methods used by the code *)

Module PyStr.

(** [str.isdigit]: true of the decimal digits and, below code point 256,
    of the superscript digits U+00B2, U+00B3 and U+00B9. *)
Definition isdigit (c : ascii) : bool :=
  let n := N_of_ascii c in
  ((48 <=? n) && (n <=? 57) || (n =? 178) || (n =? 179) || (n =? 185))%N.

(** [int(c)] for a one-character string: only decimal digits convert,
    anything else raises [ValueError]. *)
Definition int (c : ascii) : result Z :=
  let n := N_of_ascii c in
  if ((48 <=? n) && (n <=? 57))%N then Ret (Z.of_N n - 48) else Raise ValueError.

(** [str.isspace] below code point 256. *)
Definition isspace (c : ascii) : bool :=
  let n := N_of_ascii c in
  ((9 <=? n) && (n <=? 13) || (28 <=? n) && (n <=? 32) || (n =? 133) || (n =? 160))%N.

Fixpoint lstrip (s : list ascii) : list ascii :=
  match s with
  | c :: rest => if isspace c then lstrip rest else s
  | [] => []
  end.

Definition rstrip (s : list ascii) : list ascii := rev (lstrip (rev s)).

Definition strip (s : list ascii) : list ascii := rstrip (lstrip s).

Fixpoint startswith (s p : list ascii) {struct p} : bool :=
  match p, s with
  | [], _ => true
  | a :: p', b :: s' => if Ascii.eqb a b then startswith s' p' else false
  | _ :: _, [] => false
  end.

(** [str.lower] below code point 256. *)
Definition lower_char (c : ascii) : ascii :=
  let n := N_of_ascii c in
  if ((65 <=? n) && (n <=? 90) || (192 <=? n) && (n <=? 222) && negb (n =? 215))%N
  then ascii_of_N (n + 32) else c.

Definition lower (s : list ascii) : list ascii := map lower_char s.

(** [s.split(sep)] for a one-character separator. *)
Fixpoint split (sep : ascii) (s : list ascii) : list (list ascii) :=
  match s with
  | [] => [[]]
  | c :: rest =>
      if Ascii.eqb c sep then [] :: split sep rest
      else match split sep rest with
           | piece :: pieces => (c :: piece) :: pieces
           | [] => [[c]]
           end
  end.

(** [s.split(sep, 1)[0]]: the text before the first separator. *)
Fixpoint split1_head (sep : ascii) (s : list ascii) : list ascii :=
  match s with
  | [] => []
  | c :: rest => if Ascii.eqb c sep then [] else c :: split1_head sep rest
  end.

Definition chars (s : string) : list ascii := list_ascii_of_string s.

Definition eqb (a b : list ascii) : bool := bool_decide (a = b).

End PyStr.

(** ** Content-Range parser *)

Module CRange.
Import PyStr.

(** The [while hdrc[ci].isdigit()] loop.  The tuple [hdrc] with its cursor
    [ci] is the unread suffix [hdrc[ci:]]; the empty list is the sentinel
    [''], which is no digit. *)
Fixpoint digits_loop (hdrc : list ascii) (num : Z) : result (list ascii * Z) :=
  match hdrc with
  | c :: rest =>
      if isdigit c then
        match int c with
        | Ret d => digits_loop rest (10 * num + d)
        | Raise e => Raise e
        end
      else Ret (hdrc, num)
  | [] => Ret ([], num)
  end.

(** [hdrc[ci] == c]; the sentinel equals no character. *)
Definition at_char (hdrc : list ascii) (c : ascii) : bool :=
  match hdrc with
  | c' :: _ => Ascii.eqb c' c
  | [] => false
  end.

(** [parse_crange_num(hdrc, ci, postchar)]; the result holds the unread
    suffix in place of the new [ci]. *)
Definition parse_crange_num (hdrc : list ascii) (postchar : ascii)
  : result (list ascii * Z) :=
  match hdrc with
  | c :: _ =>
      if negb (isdigit c) then Raise ValueError
      else
        match digits_loop hdrc 0 with
        | Raise e => Raise e
        | Ret (c' :: rest, num) =>
            if negb (Ascii.eqb c' postchar) then Raise ValueError
            else Ret (rest, num)
        | Ret ([], _) => Raise ValueError
        end
  | [] => Raise ValueError
  end.

Definition ContentRange : Type := Z * Z * option Z.

(** Lines 432 to 456 of [parse_content_range]: the header once its prefix
    is removed.  The [try] block covers the two calls of [parse_crange_num]
    only; a [ValueError] of the length loop is not caught. *)
Definition parse_range_spec (hdrc : list ascii) : result (option ContentRange) :=
  match parse_crange_num hdrc "-" with
  | Raise ValueError => Ret None
  | Raise e => Raise e
  | Ret (hdrc1, first_bytep) =>
      match parse_crange_num hdrc1 "/" with
      | Raise ValueError => Ret None
      | Raise e => Raise e
      | Ret (hdrc2, last_bytep) =>
          let entity :=
            if at_char hdrc2 "*" then Ret None
            else match digits_loop hdrc2 0 with
                 | Ret (_, num_) => Ret (Some num_)
                 | Raise e => Raise e
                 end in
          match entity with
          | Raise e => Raise e
          | Ret entity_length =>
              if (last_bytep <? first_bytep)
                 || match entity_length with
                    | Some len => len <=? last_bytep
                    | None => false
                    end
              then Ret None
              else Ret (Some (first_bytep, last_bytep, entity_length))
          end
      end
  end.

Definition parse_content_range (hdr : option string) : result (option ContentRange) :=
  match hdr with
  | None => Ret None
  | Some hdr =>
      let hdr := chars hdr in
      if startswith hdr (chars "bytes") then
        let hdr := skipn 5 hdr in
        let hdr := if startswith hdr (chars ":") then skipn 1 hdr else hdr in
        let hdr := lstrip hdr in
        match hdr with
        | [] => Ret None
        | _ => parse_range_spec hdr
        end
      else parse_range_spec hdr
  end.

End CRange.

(** ** Interfaces of the libraries the code calls *)

(** [urlsplit(url)]: [u_scheme] is the empty string when the URL has none. *)
Record SplitResult : Type := {
  u_scheme : string;
  u_hostname : option string;
  u_port : option Z
}.

(** What wget.py takes from urllib3, urllib.parse, email.utils and os.path.
    Their code is not part of the program; the embedding is parametric in
    it. *)
Class PyLib : Type := {
  (** state of a streaming content decoder of urllib3 *)
  Decoder : Type;
  (** [HTTPResponse._init_decoder]: the decoder for a [Content-Encoding]
      header, none for an absent or unsupported coding *)
  init_decoder : option string -> option Decoder;
  (** [decoder.decompress(data)] *)
  decompress : Decoder -> list byte -> list byte * Decoder;
  urlsplit : string -> SplitResult;
  urljoin : string -> string -> string;
  (** [mktime_tz(parsedate_tz(s))], [None] when the date does not parse *)
  parsedate : string -> option Z;
  (** [os.path.split] *)
  path_split : string -> string * string;
  (** [os.name == 'posix'] *)
  posix : bool
}.

(** ** Data model *)

Definition RETROKF : Z := 2.

Inductive UErr : Type := RETRUNNEEDED | RETRINCOMPLETE | RETRFINISHED.

Inductive LogLevel : Type := INFO | WARN | ERROR.

(** A Python value passed where the code does not fix the type: a string,
    the [HttpStat] object of the retrieval, or the [repr] of an exception. *)
Inductive PyVal : Type :=
| VStr (s : string)
| VHttpStat
| VRepr (e : Exc).

Inductive LogMsg : Type :=
| MsgGaveUp (incomplete : bool) (cause : PyVal)
| MsgRetrying (n : Z) (limit : option Z) (incomplete : bool) (cause : PyVal)
| MsgStreamError (is_read_error : bool) (at_byte : Z) (total : option Z)
| MsgLastModified (raw : option string).

(** What the program does to the outside world, in order. *)
Inductive Event : Type :=
| EvLog (level : LogLevel) (url : PyVal) (msg : LogMsg)
| EvSleep (seconds : Z)
| EvRequest (url : string) (range_from : option Z)
| EvNoInternet
| EvReleaseConn
| EvDecode (data : list byte)
| EvFsync (name : string)
| EvFdatasync (fd : Z).

(** An entry of the destination directory. *)
Inductive Node : Type :=
| File (content : list byte) (mode : Z) (mtime : option Z)
| Directory.

(** One item of a response body as the connection delivers it: a block of
    undecoded bytes, or a transport error. *)
Inductive StreamItem : Type :=
| SData (data : list byte)
| SError (k : HTTPErrorKind).

(** The immutable part of a response.  [headers] maps a header name, in the
    spelling the code asks for it, to its value; [content_length] is what
    [get_content_length('GET')] returns; [status] is [None] when
    [int(resp.status)] raises [ValueError]. *)
Record Response : Type := {
  status : option Z;
  headers : gmap string string;
  content_length : option Z;
  resp_current_url : string;
  body : list StreamItem
}.

Inductive NetOutcome : Type :=
| NetResponse (r : Response)
| NetError (k : HTTPErrorKind).

(** A request the pool manager sends when it follows a redirect: the URL
    of the redirect and the pool the manager has to construct for it, as
    scheme, host and port (none when it has one cached). *)
Record Hop : Type := {
  hop_url : string;
  hop_new_pool : option (string * string * option Z)
}.

(** The requests of one call of [poolman.request]: the pool the manager
    has to construct for the URL of the call, then the redirects it
    follows, in order.  The pool of a redirect is constructed after the
    request that was answered with the redirect. *)
Record Route : Type := {
  rt_new_pool : option (string * string * option Z);
  rt_redirects : list Hop
}.

(** What the network does at one call of [urlopen]: the calls of
    [poolman.request] that fail with a urllib3 error while DNS is down, the
    call that gets through, and the outcome of its last request. *)
Record Attempt : Type := {
  att_outages : list Route;
  att_route : Route;
  att_outcome : NetOutcome
}.

(** The outcome of a run. [NoMoreInput]: the script of network attempts is
    used up while the program still runs; no [finally] block has run. *)
Inductive outcome (A : Type) : Type :=
| Done (r : result A)
| NoMoreInput.
Arguments Done {A} r.
Arguments NoMoreInput {A}.

Section Wget.
Context `{!PyLib}.

Record HttpStat : Type := {
  current_url : option string;
  bytes_read : Z;
  bytes_written : Z;
  contlen : option Z;
  restval : Z;
  last_modified : option string;
  remote_time : option Z;
  statcode : Z;
  dest_dir : option Z;
  part_file : option string;
  remote_encoding : option string;
  enc_is_identity : option bool;
  decoder : option Decoder;
  _make_part_file : option (string * string)
}.

(** [HttpStat.__init__] *)
Definition HttpStat_init : HttpStat :=
  {| current_url := None; bytes_read := 0; bytes_written := 0; contlen := None;
     restval := 0; last_modified := None; remote_time := None; statcode := 0;
     dest_dir := None; part_file := None; remote_encoding := None;
     enc_is_identity := None; decoder := None; _make_part_file := None |}.

(** The attributes [WGHTTPResponse] adds to a response and mutates. *)
Record WGHTTPResponse : Type := {
  bytes_to_skip : Z;
  last_read_length : Z;
  r_decoder : option Decoder
}.

(** [WGHTTPResponse.__init__] *)
Definition WGHTTPResponse_init : WGHTTPResponse :=
  {| bytes_to_skip := 0; last_read_length := 0; r_decoder := None |}.

(** The destination directory and the handles of the process.
    [buffers] holds, for each open file object, the bytes written to it
    that are still in its buffer, and [buffer_size] is the size of the
    buffer of a file opened with the default buffering.  [disk_free] is the
    number of bytes that can still be written ([None]: no limit);
    [tmp_suffix] is the random part [NamedTemporaryFile] picks. *)
Record OS : Type := {
  files : gmap string Node;
  open_fds : gset Z;
  next_fd : Z;
  open_files : gset string;
  buffers : gmap string (list byte);
  buffer_size : Z;
  disk_free : option Z;
  tmp_suffix : string
}.

(** Everything the code mutates: the [HttpStat] of the retrieval, the
    [count] of its [RetryCounter], the module-level [unreachable_hosts],
    the response being processed, the operating system, and the trace of
    events. *)
Record State : Type := {
  hstat : HttpStat;
  count : Z;
  unreachable_hosts : gset string;
  resp : WGHTTPResponse;
  os : OS;
  trace : list Event
}.

Definition set_current_url (v : _) (x : HttpStat) : HttpStat :=
  {| current_url := v; bytes_read := bytes_read x; bytes_written := bytes_written x;
     contlen := contlen x; restval := restval x; last_modified := last_modified x;
     remote_time := remote_time x; statcode := statcode x; dest_dir := dest_dir x;
     part_file := part_file x; remote_encoding := remote_encoding x; enc_is_identity
     := enc_is_identity x; decoder := decoder x; _make_part_file := _make_part_file x
     |}.
Definition set_bytes_read (v : _) (x : HttpStat) : HttpStat :=
  {| current_url := current_url x; bytes_read := v; bytes_written := bytes_written x;
     contlen := contlen x; restval := restval x; last_modified := last_modified x;
     remote_time := remote_time x; statcode := statcode x; dest_dir := dest_dir x;
     part_file := part_file x; remote_encoding := remote_encoding x; enc_is_identity
     := enc_is_identity x; decoder := decoder x; _make_part_file := _make_part_file x
     |}.
Definition set_contlen (v : _) (x : HttpStat) : HttpStat :=
  {| current_url := current_url x; bytes_read := bytes_read x; bytes_written :=
     bytes_written x; contlen := v; restval := restval x; last_modified :=
     last_modified x; remote_time := remote_time x; statcode := statcode x; dest_dir
     := dest_dir x; part_file := part_file x; remote_encoding := remote_encoding x;
     enc_is_identity := enc_is_identity x; decoder := decoder x; _make_part_file :=
     _make_part_file x |}.
Definition set_restval (v : _) (x : HttpStat) : HttpStat :=
  {| current_url := current_url x; bytes_read := bytes_read x; bytes_written :=
     bytes_written x; contlen := contlen x; restval := v; last_modified :=
     last_modified x; remote_time := remote_time x; statcode := statcode x; dest_dir
     := dest_dir x; part_file := part_file x; remote_encoding := remote_encoding x;
     enc_is_identity := enc_is_identity x; decoder := decoder x; _make_part_file :=
     _make_part_file x |}.
Definition set_last_modified (v : _) (x : HttpStat) : HttpStat :=
  {| current_url := current_url x; bytes_read := bytes_read x; bytes_written :=
     bytes_written x; contlen := contlen x; restval := restval x; last_modified := v;
     remote_time := remote_time x; statcode := statcode x; dest_dir := dest_dir x;
     part_file := part_file x; remote_encoding := remote_encoding x; enc_is_identity
     := enc_is_identity x; decoder := decoder x; _make_part_file := _make_part_file x
     |}.
Definition set_remote_time (v : _) (x : HttpStat) : HttpStat :=
  {| current_url := current_url x; bytes_read := bytes_read x; bytes_written :=
     bytes_written x; contlen := contlen x; restval := restval x; last_modified :=
     last_modified x; remote_time := v; statcode := statcode x; dest_dir := dest_dir
     x; part_file := part_file x; remote_encoding := remote_encoding x;
     enc_is_identity := enc_is_identity x; decoder := decoder x; _make_part_file :=
     _make_part_file x |}.
Definition set_statcode (v : _) (x : HttpStat) : HttpStat :=
  {| current_url := current_url x; bytes_read := bytes_read x; bytes_written :=
     bytes_written x; contlen := contlen x; restval := restval x; last_modified :=
     last_modified x; remote_time := remote_time x; statcode := v; dest_dir :=
     dest_dir x; part_file := part_file x; remote_encoding := remote_encoding x;
     enc_is_identity := enc_is_identity x; decoder := decoder x; _make_part_file :=
     _make_part_file x |}.
Definition set_dest_dir (v : _) (x : HttpStat) : HttpStat :=
  {| current_url := current_url x; bytes_read := bytes_read x; bytes_written :=
     bytes_written x; contlen := contlen x; restval := restval x; last_modified :=
     last_modified x; remote_time := remote_time x; statcode := statcode x; dest_dir
     := v; part_file := part_file x; remote_encoding := remote_encoding x;
     enc_is_identity := enc_is_identity x; decoder := decoder x; _make_part_file :=
     _make_part_file x |}.
Definition set_part_file (v : _) (x : HttpStat) : HttpStat :=
  {| current_url := current_url x; bytes_read := bytes_read x; bytes_written :=
     bytes_written x; contlen := contlen x; restval := restval x; last_modified :=
     last_modified x; remote_time := remote_time x; statcode := statcode x; dest_dir
     := dest_dir x; part_file := v; remote_encoding := remote_encoding x;
     enc_is_identity := enc_is_identity x; decoder := decoder x; _make_part_file :=
     _make_part_file x |}.
Definition set_remote_encoding (v : _) (x : HttpStat) : HttpStat :=
  {| current_url := current_url x; bytes_read := bytes_read x; bytes_written :=
     bytes_written x; contlen := contlen x; restval := restval x; last_modified :=
     last_modified x; remote_time := remote_time x; statcode := statcode x; dest_dir
     := dest_dir x; part_file := part_file x; remote_encoding := v; enc_is_identity :=
     enc_is_identity x; decoder := decoder x; _make_part_file := _make_part_file x |}.
Definition set_enc_is_identity (v : _) (x : HttpStat) : HttpStat :=
  {| current_url := current_url x; bytes_read := bytes_read x; bytes_written :=
     bytes_written x; contlen := contlen x; restval := restval x; last_modified :=
     last_modified x; remote_time := remote_time x; statcode := statcode x; dest_dir
     := dest_dir x; part_file := part_file x; remote_encoding := remote_encoding x;
     enc_is_identity := v; decoder := decoder x; _make_part_file := _make_part_file x
     |}.
Definition set_decoder (v : _) (x : HttpStat) : HttpStat :=
  {| current_url := current_url x; bytes_read := bytes_read x; bytes_written :=
     bytes_written x; contlen := contlen x; restval := restval x; last_modified :=
     last_modified x; remote_time := remote_time x; statcode := statcode x; dest_dir
     := dest_dir x; part_file := part_file x; remote_encoding := remote_encoding x;
     enc_is_identity := enc_is_identity x; decoder := v; _make_part_file :=
     _make_part_file x |}.
Definition set_make_part_file (v : _) (x : HttpStat) : HttpStat :=
  {| current_url := current_url x; bytes_read := bytes_read x; bytes_written :=
     bytes_written x; contlen := contlen x; restval := restval x; last_modified :=
     last_modified x; remote_time := remote_time x; statcode := statcode x; dest_dir
     := dest_dir x; part_file := part_file x; remote_encoding := remote_encoding x;
     enc_is_identity := enc_is_identity x; decoder := decoder x; _make_part_file := v
     |}.

Definition set_bytes_to_skip (v : _) (x : WGHTTPResponse) : WGHTTPResponse :=
  {| bytes_to_skip := v; last_read_length := last_read_length x; r_decoder :=
     r_decoder x |}.
Definition set_last_read_length (v : _) (x : WGHTTPResponse) : WGHTTPResponse :=
  {| bytes_to_skip := bytes_to_skip x; last_read_length := v; r_decoder := r_decoder x
     |}.
Definition set_r_decoder (v : _) (x : WGHTTPResponse) : WGHTTPResponse :=
  {| bytes_to_skip := bytes_to_skip x; last_read_length := last_read_length x;
     r_decoder := v |}.

Definition set_files (v : _) (x : OS) : OS :=
  {| files := v; open_fds := open_fds x; next_fd := next_fd x; open_files :=
     open_files x; buffers := buffers x; buffer_size := buffer_size x; disk_free :=
     disk_free x; tmp_suffix := tmp_suffix x |}.
Definition set_open_fds (v : _) (x : OS) : OS :=
  {| files := files x; open_fds := v; next_fd := next_fd x; open_files := open_files
     x; buffers := buffers x; buffer_size := buffer_size x; disk_free := disk_free x;
     tmp_suffix := tmp_suffix x |}.
Definition set_next_fd (v : _) (x : OS) : OS :=
  {| files := files x; open_fds := open_fds x; next_fd := v; open_files := open_files
     x; buffers := buffers x; buffer_size := buffer_size x; disk_free := disk_free x;
     tmp_suffix := tmp_suffix x |}.
Definition set_open_files (v : _) (x : OS) : OS :=
  {| files := files x; open_fds := open_fds x; next_fd := next_fd x; open_files := v;
     buffers := buffers x; buffer_size := buffer_size x; disk_free := disk_free x;
     tmp_suffix := tmp_suffix x |}.
Definition set_buffers (v : _) (x : OS) : OS :=
  {| files := files x; open_fds := open_fds x; next_fd := next_fd x; open_files :=
     open_files x; buffers := v; buffer_size := buffer_size x; disk_free := disk_free
     x; tmp_suffix := tmp_suffix x |}.
Definition set_disk_free (v : _) (x : OS) : OS :=
  {| files := files x; open_fds := open_fds x; next_fd := next_fd x; open_files :=
     open_files x; buffers := buffers x; buffer_size := buffer_size x; disk_free := v;
     tmp_suffix := tmp_suffix x |}.

Definition set_hstat (v : _) (x : State) : State :=
  {| hstat := v; count := count x; unreachable_hosts := unreachable_hosts x; resp :=
     resp x; os := os x; trace := trace x |}.
Definition set_count (v : _) (x : State) : State :=
  {| hstat := hstat x; count := v; unreachable_hosts := unreachable_hosts x; resp :=
     resp x; os := os x; trace := trace x |}.
Definition set_unreachable_hosts (v : _) (x : State) : State :=
  {| hstat := hstat x; count := count x; unreachable_hosts := v; resp := resp x; os :=
     os x; trace := trace x |}.
Definition set_resp (v : _) (x : State) : State :=
  {| hstat := hstat x; count := count x; unreachable_hosts := unreachable_hosts x;
     resp := v; os := os x; trace := trace x |}.
Definition set_os (v : _) (x : State) : State :=
  {| hstat := hstat x; count := count x; unreachable_hosts := unreachable_hosts x;
     resp := resp x; os := v; trace := trace x |}.
Definition set_trace (v : _) (x : State) : State :=
  {| hstat := hstat x; count := count x; unreachable_hosts := unreachable_hosts x;
     resp := resp x; os := os x; trace := v |}.

(** ** The monad of state and exceptions *)

Definition M (A : Type) : Type := State -> outcome A * State.

Definition ret {A} (a : A) : M A := fun s => (Done (Ret a), s).
Definition raise {A} (e : Exc) : M A := fun s => (Done (Raise e), s).
Definition no_more_input {A} : M A := fun s => (NoMoreInput, s).

Definition bind {A B} (m : M A) (k : A -> M B) : M B :=
  fun s =>
    match m s with
    | (Done (Ret a), s') => k a s'
    | (Done (Raise e), s') => (Done (Raise e), s')
    | (NoMoreInput, s') => (NoMoreInput, s')
    end.

Definition get : M State := fun s => (Done (Ret s), s).
Definition modify (f : State -> State) : M unit := fun s => (Done (Ret tt), f s).

(** [try: m except Exception as e: handler e]; a handler re-raises what it
    does not catch. *)
Definition try_except {A} (m : M A) (handler : Exc -> M A) : M A :=
  fun s =>
    match m s with
    | (Done (Raise e), s') => handler e s'
    | r => r
    end.

(** [try: m finally: f] *)
Definition try_finally {A} (m : M A) (f : M unit) : M A :=
  fun s =>
    match m s with
    | (Done r, s') =>
        match f s' with
        | (Done (Ret _), s'') => (Done r, s'')
        | (Done (Raise e), s'') => (Done (Raise e), s'')
        | (NoMoreInput, s'') => (NoMoreInput, s'')
        end
    | (NoMoreInput, s') => (NoMoreInput, s')
    end.

Definition lift {A} (r : result A) : M A := fun s => (Done r, s).

Notation "x <- m ;; k" := (bind m (fun x => k))
  (at level 100, m at next level, right associativity).
Notation "m ;;; k" := (bind m (fun _ => k))
  (at level 100, right associativity).

Definition get_hstat : M HttpStat := fun s => (Done (Ret (hstat s)), s).
Definition get_resp : M WGHTTPResponse := fun s => (Done (Ret (resp s)), s).
Definition get_os : M OS := fun s => (Done (Ret (os s)), s).
Definition modify_hstat (f : HttpStat -> HttpStat) : M unit :=
  modify (fun s => set_hstat (f (hstat s)) s).
Definition modify_resp (f : WGHTTPResponse -> WGHTTPResponse) : M unit :=
  modify (fun s => set_resp (f (resp s)) s).
Definition modify_os (f : OS -> OS) : M unit :=
  modify (fun s => set_os (f (os s)) s).
Definition emit (e : Event) : M unit :=
  modify (fun s => set_trace (trace s ++ [e]) s).

(** ** Logger *)

Definition Logger_warn (url : PyVal) (msg : LogMsg) : M unit := emit (EvLog WARN url msg).
Definition Logger_info (url : PyVal) (msg : LogMsg) : M unit := emit (EvLog INFO url msg).

(** ** Host registry *)

(** ['{}:{}'.format(host, port)] *)
Definition format_host (host : string) (port : Z) : string :=
  host +:+ ":" +:+ pretty port.

Definition normalized_host (scheme : option string) (host : string) (port : option Z)
  : string :=
  let port :=
    match port with
    | None => if bool_decide (scheme = Some "http"%string) then 80 else 443
    | Some p => p
    end in
  format_host host port.

(** [urlsplit(url, 'http')] fills in the scheme of a URL that has none;
    a missing host name is formatted as [None]. *)
Definition normalized_host_from_url (url : string) : string :=
  let split := urlsplit url in
  let scheme := if bool_decide (u_scheme split = EmptyString) then "http"%string
                else u_scheme split in
  let hostname := default "None"%string (u_hostname split) in
  let port :=
    match u_port split with
    | None => if bool_decide (scheme = "http"%string) then 80 else 443
    | Some p => p
    end in
  format_host hostname port.

(** [WGHTTPConnectionPool.__init__] and [WGHTTPSConnectionPool.__init__];
    [scheme] is the class attribute of the pool class. *)
Definition WGHTTPConnectionPool_init
    (scheme : string) (host : string) (port : option Z) : M unit :=
  let norm_host := normalized_host (Some scheme) host port in
  s <- get ;;
  if bool_decide (norm_host ∈ unreachable_hosts s)
  then raise (WGUnreachableHostError false norm_host)
  else ret tt.

(** ** RetryCounter *)

Definition TRY_LIMIT : option Z := Some 20.
Definition MAX_RETRY_WAIT : Z := 10.

(** [RetryCounter.__init__] *)
Definition RetryCounter_init : M unit := modify (set_count 0).

Definition RetryCounter_should_retry : M bool :=
  s <- get ;;
  ret (match TRY_LIMIT with
       | None => true
       | Some limit => count s <? limit
       end).

(** [RetryCounter.increment(self, url, hstat, cause)], applied to the list
    of its positional arguments: a call with another number of arguments
    raises [TypeError] before the body runs, and reading [bytes_read] of
    an argument that is no [HttpStat] raises [AttributeError]. *)
Definition RetryCounter_increment (args : list PyVal) : M unit :=
  match args with
  | [url; hstat_arg; cause] =>
      modify (fun s => set_count (count s + 1) s) ;;;
      incomplete <- match hstat_arg with
                    | VHttpStat => h <- get_hstat ;; ret (bytes_read h >? restval h)
                    | _ => raise AttributeError
                    end ;;
      again <- RetryCounter_should_retry ;;
      if negb again then
        Logger_warn url (MsgGaveUp incomplete cause) ;;;
        raise WGMaxRetryError
      else
        s <- get ;;
        Logger_info url (MsgRetrying (count s) TRY_LIMIT incomplete cause) ;;;
        emit (EvSleep (Z.min (count s) MAX_RETRY_WAIT))
  | _ => raise TypeError
  end.

(** ** WGHTTPResponse *)

(** [HTTPResponse._decode] of urllib3: the data goes through the decoder
    of the response when it has one.  The trace records the data the
    method is given. *)
Definition HTTPResponse__decode (data : list byte) : M (list byte) :=
  emit (EvDecode data) ;;;
  r <- get_resp ;;
  match r_decoder r with
  | Some d =>
      let (out, d') := decompress d data in
      modify_resp (set_r_decoder (Some d')) ;;;
      ret out
  | None => ret data
  end.

(** [WGHTTPResponse._decode] *)
Definition WGHTTPResponse__decode (data : list byte) : M (list byte) :=
  r <- get_resp ;;
  let data_len := Z.of_nat (length data) in
  data <- (if bytes_to_skip r >=? data_len then
             modify_resp (set_bytes_to_skip (bytes_to_skip r - data_len)) ;;;
             ret []
           else if bytes_to_skip r >? 0 then
             modify_resp (set_bytes_to_skip 0) ;;;
             ret (skipn (Z.to_nat (bytes_to_skip r)) data)
           else ret data) ;;
  modify_resp (set_last_read_length (Z.of_nat (length data))) ;;;
  match data with
  | [] => ret []
  | _ => HTTPResponse__decode data
  end.

(** One block of [resp.stream]: urllib3 creates the decoder named by
    [Content-Encoding] unless the response already has one, then calls
    [_decode] on the block.  The flush of the decoder at the end of a body,
    which gives no data for the codings urllib3 supports, is left out. *)
Definition HTTPResponse_read (r : Response) (data : list byte) : M (list byte) :=
  rs <- get_resp ;;
  match r_decoder rs with
  | None => modify_resp (set_r_decoder (init_decoder (headers r !! "Content-Encoding"%string)))
  | Some _ => ret tt
  end ;;;
  WGHTTPResponse__decode data.

(** ** Files *)

(** [NamedTemporaryFile('wb', prefix=pfx, dir=dir_, delete=False)]: the
    file is created empty with mode 0600 and stays open, as a buffered
    writer whose buffer is empty. *)
Definition NamedTemporaryFile (pfx dir_ : string) : M string :=
  o <- get_os ;;
  let name := pfx +:+ tmp_suffix o in
  match files o !! name with
  | Some _ => raise OSError
  | None =>
      modify_os (fun o => set_files (<[name := File [] 384 None]> (files o))
                            (set_open_files ({[name]} ∪ open_files o)
                               (set_buffers (<[name := []]> (buffers o)) o))) ;;;
      ret name
  end.

(** The bytes of [n] that the disk has room for. *)
Definition room_for (o : OS) (n : Z) : Z :=
  match disk_free o with
  | Some free => Z.min free n
  | None => n
  end.

(** The raw writes of [data] to the file, repeated as [io] repeats them
    until everything is written: what the disk has room for reaches the
    file, and the result is the number of bytes written.  The caller fails
    with [OSError] when it has to write again and nothing more fits. *)
Definition raw_write (name : string) (data : list byte) : M Z :=
  o <- get_os ;;
  match files o !! name with
  | Some (File content mode mtime) =>
      let n := room_for o (Z.of_nat (length data)) in
      modify_os (fun o =>
        set_files (<[name := File (content ++ take (Z.to_nat n) data) mode mtime]> (files o))
          (set_disk_free (fmap (fun free => free - n) (disk_free o)) o)) ;;;
      ret n
  | _ => raise OSError
  end.

(** [part_file.flush()]: the buffer is written out; what did not fit stays
    in the buffer, and the call fails. *)
Definition file_flush (name : string) : M unit :=
  o <- get_os ;;
  match buffers o !! name with
  | None => raise ValueError
  | Some [] => ret tt
  | Some buf =>
      n <- raw_write name buf ;;
      modify_os (fun o => set_buffers (<[name := skipn (Z.to_nat n) buf]> (buffers o)) o) ;;;
      if n <? Z.of_nat (length buf) then raise OSError else ret tt
  end.

(** [part_file.write(chunk)] of a buffered writer, as CPython's [io]
    module does it: a chunk that fits in the buffer is kept there.
    Otherwise the buffer is written out first; then the chunk goes to the
    file while more of it is left than the buffer holds, which fails when
    the disk is full, and what is left of it goes to the buffer. *)
Definition file_write (name : string) (chunk : list byte) : M unit :=
  o <- get_os ;;
  let len := Z.of_nat (length chunk) in
  match buffers o !! name with
  | None => raise ValueError
  | Some buf =>
      if len <=? buffer_size o - Z.of_nat (length buf)
      then modify_os (fun o => set_buffers (<[name := buf ++ chunk]> (buffers o)) o)
      else
        file_flush name ;;;
        n <- (if len >? buffer_size o then raw_write name chunk else ret 0) ;;
        if len - n >? buffer_size o then raise OSError
        else modify_os (fun o =>
               set_buffers (<[name := skipn (Z.to_nat n) chunk]> (buffers o)) o)
  end.

(** [os.fchmod(fd, mode)] and [os.chmod(name, mode)] *)
Definition file_chmod (name : string) (mode : Z) : M unit :=
  o <- get_os ;;
  match files o !! name with
  | Some (File content _ mtime) =>
      modify_os (set_files (<[name := File content mode mtime]> (files o)))
  | _ => raise OSError
  end.

(** [touch(fl, mtime, dir_fd)] *)
Definition touch (fl : string) (mtime : Z) : M unit :=
  o <- get_os ;;
  match files o !! fl with
  | Some (File content mode _) =>
      modify_os (set_files (<[fl := File content mode (Some mtime)]> (files o)))
  | _ => raise OSError
  end.

(** [part_file.close()]: the buffer is flushed and the file is closed,
    also when the flush fails; closing a closed file does nothing. *)
Definition file_close (name : string) : M unit :=
  o <- get_os ;;
  match buffers o !! name with
  | None => ret tt
  | Some _ =>
      try_finally (file_flush name)
        (modify_os (fun o => set_open_files (open_files o ∖ {[name]})
                               (set_buffers (delete name (buffers o)) o)))
  end.

(** [os.replace(src, dst)] inside the destination directory: a file
    cannot replace a directory. *)
Definition os_replace (src dst : string) : M unit :=
  o <- get_os ;;
  match files o !! src, files o !! dst with
  | Some node, Some Directory => raise OSError
  | Some node, _ => modify_os (set_files (<[dst := node]> (delete src (files o))))
  | None, _ => raise OSError
  end.

(** [os.open(dest_dirname, flags)] *)
Definition os_open : M Z :=
  o <- get_os ;;
  let fd := next_fd o in
  modify_os (fun o => set_open_fds ({[fd]} ∪ open_fds o) (set_next_fd (fd + 1) o)) ;;;
  ret fd.

(** [os.close(fd)] *)
Definition os_close (fd : Z) : M unit :=
  modify_os (fun o => set_open_fds (open_fds o ∖ {[fd]}) o).

(** [try_unlink(path)]: a file that is not there is no error. *)
Definition try_unlink (path : string) : M unit :=
  modify_os (fun o => set_files (delete path (files o)) o).

(** [HttpStat.init_part_file] *)
Definition HttpStat_init_part_file : M unit :=
  h <- get_hstat ;;
  match _make_part_file h with
  | Some (pfx, dir_) =>
      name <- NamedTemporaryFile pfx dir_ ;;
      modify_hstat (set_part_file (Some name)) ;;;
      modify_hstat (set_make_part_file None)
  | None => ret tt
  end.

(** ** Response processor *)

(** [conttype.lower().split(';', 1)[0].strip() == 'multipart/byteranges'] *)
Definition is_multipart (conttype : string) : bool :=
  PyStr.eqb (PyStr.strip (PyStr.split1_head ";" (PyStr.lower (PyStr.chars conttype))))
            (PyStr.chars "multipart/byteranges").

(** [norm_enc], the local function of [process_response]. *)
Definition norm_enc (enc : option string) : option (list (list ascii)) :=
  match enc with
  | None => None
  | Some enc => Some (map PyStr.strip (PyStr.split "," (PyStr.chars enc)))
  end.

(** [remote_encoding in (None, '') or all(enc.strip() == 'identity' ...)] *)
Definition encoding_is_identity (remote_encoding : option string) : bool :=
  match remote_encoding with
  | None => true
  | Some enc =>
      bool_decide (enc = EmptyString)
      || forallb (fun e => PyStr.eqb (PyStr.strip e) (PyStr.chars "identity"))
                 (PyStr.split "," (PyStr.chars enc))
  end.

(** The [for chunk in resp.stream(...)] loop, over the blocks the connection
    delivers.  [resp.stream] of urllib3 reads a block, decodes it, and
    yields the decoded data only when it is not empty: for a block that
    decodes to nothing the body of the loop does not run, and the loop's own
    test for an empty chunk never succeeds. *)
Fixpoint stream_loop (r : Response) (items : list StreamItem) : M unit :=
  match items with
  | [] => ret tt
  | SError k :: _ => raise (HTTPError k)
  | SData data :: rest =>
      chunk <- HTTPResponse_read r data ;;
      match chunk with
      | [] => stream_loop r rest
      | _ =>
          rs <- get_resp ;;
          modify_hstat (fun h => set_bytes_read (bytes_read h + last_read_length rs) h) ;;;
          match chunk with
          | [] => ret tt
          | _ =>
              h <- get_hstat ;;
              match part_file h with
              | Some name => file_write name chunk
              | None => raise AttributeError
              end
          end ;;;
          stream_loop r rest
      end
  end.

(** The [except] clauses of the streaming loop. *)
Definition stream_error_handler (url : string) (e : Exc) : M unit :=
  match e with
  | HTTPError MaxRetryError => raise e
  | HTTPError _ | OSError =>
      let is_read_error := match e with HTTPError _ => true | _ => false end in
      h <- get_hstat ;;
      let length_known :=
        match contlen h with
        | Some _ => is_read_error || default false (enc_is_identity h)
        | None => false
        end in
      Logger_warn (VStr url)
        (MsgStreamError is_read_error
           (if is_read_error then bytes_read h else bytes_written h)
           (if length_known then contlen h else None)) ;;;
      if bytes_read h =? restval h then raise e
      else
        again <- RetryCounter_should_retry ;;
        if negb again then raise e
        else
          rs <- get_resp ;;
          match r_decoder rs with
          | Some d => modify_hstat (set_decoder (Some d))
          | None => ret tt
          end ;;;
          raise e
  | _ => raise e
  end.

(** Lines 372 to 399 of [process_response]: the streaming loop in its
    [try] statement. *)
Definition stream_body (url : string) (r : Response) : M unit :=
  try_except (stream_loop r (body r)) (stream_error_handler url).

(** Lines 358 to 370 of [process_response]: the skip strategy, the
    decoder hand-over and the creation of the part file. *)
Definition prepare_stream (contrange : Z) : M unit :=
  h <- get_hstat ;;
  (if (restval h >? 0) && (contrange =? 0)
   then modify_resp (set_bytes_to_skip (restval h))
   else modify_resp (set_bytes_to_skip 0)) ;;;
  modify_hstat (set_bytes_read (restval h)) ;;;
  rs <- get_resp ;;
  match r_decoder rs with
  | Some _ => raise AssertionError
  | None => ret tt
  end ;;;
  (if restval h >? 0 then modify_resp (set_r_decoder (decoder h)) else ret tt) ;;;
  HttpStat_init_part_file.

Definition process_response (url : string) (doctype : Z) (r : Response)
  : M (UErr * Z) :=
  let conttype := headers r !! "Content-Type"%string in
  if match conttype with Some ct => is_multipart ct | None => false end
  then raise WGBadResponseError
  else
  let contlen0 := content_length r in
  let crange_header := headers r !! "Content-Range"%string in
  crange_parsed <- lift (CRange.parse_content_range crange_header) ;;
  let contrange := match crange_parsed with
                   | Some (first_bytep, _, _) => first_bytep
                   | None => 0
                   end in
  let contlen := match crange_parsed with
                 | Some (first_bytep, last_bytep, _) => Some (last_bytep - first_bytep + 1)
                 | None => contlen0
                 end in
  let lm := match headers r !! "Last-Modified"%string with
            | Some v => Some v
            | None => headers r !! "X-Archive-Orig-last-modified"%string
            end in
  modify_hstat (set_last_modified lm) ;;;
  modify_hstat (set_remote_time (match lm with
                                 | None => None
                                 | Some v => parsedate v
                                 end)) ;;;
  let remote_enc := headers r !! "Content-Encoding"%string in
  h <- get_hstat ;;
  if (restval h >? 0)
     && negb (bool_decide (norm_enc (remote_encoding h) = norm_enc remote_enc))
  then
    modify_hstat (set_restval 0) ;;;
    RetryCounter_increment
      [VHttpStat; VStr "Inconsistent Content-Encoding, must start over"] ;;;
    ret (RETRINCOMPLETE, doctype)
  else
  modify_hstat (set_remote_encoding remote_enc) ;;;
  modify_hstat (set_enc_is_identity (Some (encoding_is_identity remote_enc))) ;;;
  let code := default 0 (status r) in
  modify_hstat (set_statcode code) ;;;
  let doctype := if (200 <=? code) && (code <? 300) && negb (code =? 207)
                 then Z.lor doctype RETROKF else doctype in
  if code =? 204 then
    modify_hstat (set_bytes_read 0) ;;;
    modify_hstat (set_restval 0) ;;;
    ret (RETRFINISHED, doctype)
  else
  if Z.land doctype RETROKF =? 0 then
    if bool_decide (headers r !! "Server"%string = Some "cloudflare"%string)
       && bool_decide (code ∈ [521; 522; 523; 525; 526])
    then
      let hostname := normalized_host_from_url url in
      modify (fun s => set_unreachable_hosts ({[hostname]} ∪ unreachable_hosts s) s) ;;;
      raise (WGUnreachableHostError true hostname)
    else raise (WGWrongCodeError code)
  else
  h <- get_hstat ;;
  let shrunk :=
    if code =? 416 then true
    else if negb (code =? 200) || bool_decide (contlen = Some 0) then false
    else match contlen with
         | Some len => (contrange =? 0) && (restval h >=? len)
         | None => false
         end in
  if shrunk then
    modify_hstat (set_restval 0) ;;;
    RetryCounter_increment
      [VHttpStat; VStr "Resume with Range failed, must start over"] ;;;
    ret (RETRINCOMPLETE, doctype)
  else
  if negb ((contrange =? 0) || (contrange =? restval h)) then
    raise (WGRangeError (UnexpectedContentRange (restval h) contrange))
  else
  if (code =? 206) && (restval h >? 0) && (contrange =? 0) then
    let crange_status :=
      match crange_header, crange_parsed with
      | None, _ => CRNotProvided
      | Some _, None => CRInvalid
      | Some _, Some _ => CRZero
      end in
    raise (WGRangeError (PartialContentButRange crange_status))
  else
  modify_hstat (set_contlen (match contlen with
                             | Some len => Some (len + contrange)
                             | None => None
                             end)) ;;;
  if Z.land doctype RETROKF =? 0 then
    modify_hstat (set_bytes_read 0) ;;;
    modify_hstat (set_restval 0) ;;;
    ret (RETRFINISHED, doctype)
  else
  prepare_stream contrange ;;;
  stream_body url r ;;;
  modify_hstat (set_decoder None) ;;;
  ret (RETRFINISHED, doctype).

(** ** One fetch *)

(** The pool manager constructs the pool it lacks for a request. *)
Definition new_pool (pool : option (string * string * option Z)) : M unit :=
  match pool with
  | Some (scheme, host, port) => WGHTTPConnectionPool_init scheme host port
  | None => ret tt
  end.

(** The redirects the pool manager follows. *)
Fixpoint follow (range_from : option Z) (hops : list Hop) : M unit :=
  match hops with
  | [] => ret tt
  | hop :: hops =>
      new_pool (hop_new_pool hop) ;;;
      emit (EvRequest (hop_url hop) range_from) ;;;
      follow range_from hops
  end.

(** The requests of one call of [poolman.request]. *)
Definition poolman_request (url : string) (range_from : option Z) (rt : Route)
  : M unit :=
  new_pool (rt_new_pool rt) ;;;
  emit (EvRequest url range_from) ;;;
  follow range_from (rt_redirects rt).

(** The [while True] loop of [urlopen]: a call that fails with a urllib3
    error while DNS is down is repeated after [no_internet.signal()]. *)
Fixpoint urlopen_loop (url : string) (range_from : option Z)
    (outages : list Route) (rt : Route) (final : NetOutcome) : M Response :=
  match outages with
  | outage :: rest =>
      poolman_request url range_from outage ;;;
      emit EvNoInternet ;;;
      urlopen_loop url range_from rest rt final
  | [] =>
      poolman_request url range_from rt ;;;
      match final with
      | NetResponse r => modify (set_resp WGHTTPResponse_init) ;;; ret r
      | NetError k => raise (HTTPError k)
      end
  end.

(** [urlopen] *)
Definition urlopen (url : string) (range_from : option Z) (att : Attempt)
  : M Response :=
  urlopen_loop url range_from (att_outages att) (att_route att) (att_outcome att).

(** [gethttp]; [att] is what the network does at its call of [urlopen]. *)
Definition gethttp (url : string) (doctype : Z) (att : Attempt) : M (UErr * Z) :=
  h <- get_hstat ;;
  let url := default url (current_url h) in
  modify_hstat (set_bytes_read 0) ;;;
  modify_hstat (set_contlen None) ;;;
  modify_hstat (set_remote_time None) ;;;
  let range_from := if restval h =? 0 then None else Some (restval h) in
  let doctype := Z.land doctype (Z.lnot RETROKF) in
  r <- urlopen url range_from att ;;
  let url := urljoin url (resp_current_url r) in
  modify_hstat (set_current_url (Some url)) ;;;
  try_finally (process_response url doctype r) (emit EvReleaseConn).

(** ** Retrieve loop *)

(** The arguments of a retrieval and the option the loop reads. *)
Record Request : Type := {
  req_url : string;
  req_file : string;
  post_timestamp : option Z;
  adjust_basename : option (string -> list byte -> Z -> string);
  use_server_timestamps : bool
}.

(** Lines 630 to 687 of [_retrieve_loop]: the normal return path.
    [os.fchmod] and [os.chmod], and the two forms of [os.replace], act alike
    on the destination directory.  [adjust_basename] is given a handle that
    reads from the descriptor of the part file: it is applied to the content
    of the file and to the position of the descriptor, which is the end of
    the file. *)
Definition finalize (url : string) (rq : Request) (dest_basename : string) : M unit :=
  h <- get_hstat ;;
  match part_file h with
  | None => raise AssertionError
  | Some pfname =>
      file_chmod pfname 420 ;;;
      (if use_server_timestamps rq && bool_decide (remote_time h = None)
       then Logger_warn (VStr url) (MsgLastModified (last_modified h))
       else ret tt) ;;;
      file_flush pfname ;;;
      (if use_server_timestamps rq
          && (bool_decide (remote_time h ≠ None) || bool_decide (post_timestamp rq ≠ None))
          && (bool_decide (contlen h = None) || bool_decide (contlen h = Some (bytes_read h)))
       then
         match remote_time h, post_timestamp rq with
         | None, Some ts => touch pfname ts
         | Some rt, None => touch pfname rt
         | Some rt, Some ts => touch pfname (Z.min rt ts)
         | None, None => ret tt
         end
       else ret tt) ;;;
      new_dest_basename <-
        match adjust_basename rq with
        | None => ret dest_basename
        | Some adjust =>
            o <- get_os ;;
            match files o !! pfname with
            | Some (File content _ _) =>
                ret (adjust dest_basename content (Z.of_nat (length content)))
            | _ => raise OSError
            end
        end ;;
      emit (EvFsync pfname) ;;;
      try_finally (file_close pfname) (modify_hstat (set_part_file None)) ;;;
      os_replace pfname new_dest_basename ;;;
      match dest_dir h with
      | Some fd => emit (EvFdatasync fd)
      | None => ret tt
      end
  end.

(** The [while True] loop of [_retrieve_loop], one iteration for each
    entry of the script of network attempts. *)
Fixpoint the_loop (script : list Attempt) (url : string) (doctype : Z)
    (rq : Request) (dest_basename : string) : M unit :=
  match script with
  | [] => no_more_input
  | att :: script =>
      modify_hstat (fun h => set_restval (bytes_read h) h) ;;;
      r <- try_except
             (v <- gethttp url doctype att ;; ret (Some v))
             (fun e =>
                match e with
                | HTTPError MaxRetryError => raise WGMaxRetryError
                | HTTPError (ConnectTimeoutError conn_host conn_port) =>
                    let hostname := normalized_host None conn_host conn_port in
                    modify (fun s =>
                      set_unreachable_hosts ({[hostname]} ∪ unreachable_hosts s) s) ;;;
                    raise (WGUnreachableHostError true hostname)
                | HTTPError _ =>
                    RetryCounter_increment [VStr url; VHttpStat; VRepr e] ;;;
                    ret None
                | WGUnreachableHostError _ host => raise (WGUnreachableHostError true host)
                | _ => raise e
                end) ;;
      h <- get_hstat ;;
      let url := default url (current_url h) in
      match r with
      | None => the_loop script url doctype rq dest_basename
      | Some (RETRINCOMPLETE, doctype) => the_loop script url doctype rq dest_basename
      | Some (RETRUNNEEDED, _) => ret tt
      | Some (RETRFINISHED, doctype) =>
          if match contlen h with Some len => bytes_read h <? len | None => false end
          then
            RetryCounter_increment
              [VStr url; VHttpStat;
               VStr "Server closed connection before Content-Length was reached."] ;;;
            the_loop script url doctype rq dest_basename
          else
            if negb (bool_decide (contlen h = None)
                     || bool_decide (contlen h = Some (bytes_read h)))
            then raise AssertionError
            else finalize url rq dest_basename
      end
  end.

(** [_retrieve_loop]; the destination directory is taken to exist, so
    [os.open] succeeds. *)
Definition _retrieve_loop (rq : Request) (script : list Attempt) : M unit :=
  let url := req_url rq in
  if negb (bool_decide (u_scheme (urlsplit url) ∈ ["http"%string; "https"%string]))
  then raise WGBadProtocolError
  else
  let hostname := normalized_host_from_url url in
  s <- get ;;
  if bool_decide (hostname ∈ unreachable_hosts s)
  then raise (WGUnreachableHostError true hostname)
  else
  let (dest_dirname, dest_basename) := path_split (req_file rq) in
  (if posix then
     fd <- os_open ;;
     modify_hstat (set_dest_dir (Some fd))
   else ret tt) ;;;
  modify_hstat (set_make_part_file (Some ("." +:+ dest_basename +:+ ".", dest_dirname))) ;;;
  RetryCounter_init ;;;
  the_loop script url 0 rq dest_basename.

(** ** Entry point *)

(** [WgetRetrieveWrapper._close_part] *)
Definition _close_part : M unit :=
  h <- get_hstat ;;
  try_finally
    (match part_file h with
     | Some name => file_close name ;;; try_unlink name
     | None => raise AttributeError
     end)
    (modify_hstat (set_part_file None)).

(** [WgetRetrieveWrapper.__call__] *)
Definition WgetRetrieveWrapper_call (rq : Request) (script : list Attempt)
  : M HttpStat :=
  modify (set_hstat HttpStat_init) ;;;
  try_finally
    (_retrieve_loop rq script)
    (h <- get_hstat ;;
     match dest_dir h with
     | Some fd => os_close fd ;;; modify_hstat (set_dest_dir None)
     | None => ret tt
     end ;;;
     h <- get_hstat ;;
     match part_file h with
     | Some _ => _close_part
     | None => ret tt
     end) ;;;
  get_hstat.

End Wget.

(** ** Vocabulary of the statements about the parser *)

Module CRangeSpec.
Import PyStr.

(** A decimal digit, ['0'] to ['9']. *)
Definition is_decimal (c : ascii) : bool :=
  let n := N_of_ascii c in ((48 <=? n) && (n <=? 57))%N.

Definition digit_value (c : ascii) : Z := Z.of_N (N_of_ascii c) - 48.

(** Base-10 value of a string of decimal digits, most significant first,
    continuing from [acc]. *)
Definition decimal_from (acc : Z) (ds : list ascii) : Z :=
  fold_left (fun num c => 10 * num + digit_value c) ds acc.

Definition decimal_value (ds : list ascii) : Z := decimal_from 0 ds.

(** A non-empty string of decimal digits. *)
Definition number (ds : list ascii) : Prop :=
  ds <> [] /\ Forall (fun c => is_decimal c = true) ds.

(** The next character, if any, is not one [str.isdigit] accepts. *)
Definition no_digit_ahead (s : list ascii) : Prop :=
  match s with
  | c :: _ => isdigit c = false
  | [] => True
  end.

(** The prefixes the parser removes: nothing, or the token [bytes] followed
    by an optional colon and by whitespace. *)
Inductive range_prefix : list ascii -> Prop :=
| prefix_none : range_prefix []
| prefix_bytes (ws : list ascii) :
    Forall (fun c => isspace c = true) ws -> range_prefix (chars "bytes" ++ ws)
| prefix_bytes_colon (ws : list ascii) :
    Forall (fun c => isspace c = true) ws -> range_prefix (chars "bytes:" ++ ws).

(** [str] of a list of characters. *)
Definition str (s : list ascii) : string := string_of_list_ascii s.

End CRangeSpec.

(** ** Vocabulary of the statements about the retrieval *)

Section WgetSpec.
Context `{!PyLib}.

(** A caller that calls [increment(url, hstat, cause)] once for each cause
    of a list and stops at the first exception. *)
Fixpoint increments (url : PyVal) (causes : list PyVal) : M unit :=
  match causes with
  | [] => ret tt
  | cause :: causes =>
      bind (RetryCounter_increment [url; VHttpStat; cause])
           (fun _ => increments url causes)
  end.

(** The same caller with a new [RetryCounter]. *)
Definition retry_run (url : PyVal) (causes : list PyVal) : M unit :=
  bind RetryCounter_init (fun _ => increments url causes).

(** The seconds slept, in order. *)
Definition sleeps (tr : list Event) : list Z :=
  omap (fun ev => match ev with EvSleep n => Some n | _ => None end) tr.

(** The requests sent, in order. *)
Definition requests (tr : list Event) : list string :=
  omap (fun ev => match ev with EvRequest url _ => Some url | _ => None end) tr.

(** The messages logged, in order. *)
Definition logs (tr : list Event) : list (LogLevel * PyVal * LogMsg) :=
  omap (fun ev => match ev with EvLog level url msg => Some (level, url, msg) | _ => None end)
       tr.

(** The bytes handed to [HTTPResponse._decode], in order. *)
Definition decoded_input (tr : list Event) : list byte :=
  concat (omap (fun ev => match ev with EvDecode data => Some data | _ => None end) tr).

(** The undecoded bytes of a body. *)
Definition raw_body (items : list StreamItem) : list byte :=
  concat (omap (fun it => match it with SData data => Some data | _ => None end) items).

(** A sequence of retrievals in one process. *)
Definition run_retrievals (calls : list (Request * list Attempt)) (s : State) : State :=
  fold_left (fun s call => snd (WgetRetrieveWrapper_call (fst call) (snd call) s)) calls s.

(** The response passed the checks that precede the status tests: it is
    not multipart, its [Content-Range] parsed to [crange_parsed], and its
    [Content-Encoding] continues the one of the previous attempt. *)
Definition passes_header_checks (r : Response) (crange_parsed : option CRange.ContentRange)
    (s : State) : Prop :=
  match headers r !! "Content-Type"%string with
  | Some ct => is_multipart ct
  | None => false
  end = false
  /\ CRange.parse_content_range (headers r !! "Content-Range"%string) = Ret crange_parsed
  /\ (restval (hstat s) >? 0)
     && negb (bool_decide (norm_enc (remote_encoding (hstat s))
                           = norm_enc (headers r !! "Content-Encoding"%string))) = false.

(** A computation never removes a host from the registry. *)
Definition grows {A} (m : M A) : Prop :=
  forall s : State, unreachable_hosts s ⊆ unreachable_hosts (snd (m s)).

(** The errors the streaming loop hands to its second [except] clause: a
    write error, or a urllib3 error other than [MaxRetryError]. *)
Definition stream_error (e : Exc) : Prop :=
  match e with
  | OSError => True
  | HTTPError MaxRetryError => False
  | HTTPError _ => True
  | _ => False
  end.

(** The state in which an iteration of the retrieve loop calls [gethttp]. *)
Definition attempt_entry (s : State) : State :=
  set_hstat (set_restval (bytes_read (hstat s)) (hstat s)) s.

End WgetSpec.

Arguments sleeps : simpl never.
Arguments requests : simpl never.
Arguments decoded_input : simpl never.
Arguments raw_body : simpl never.

(** ** A concrete library and concrete inputs *)

Module Fixture.
Local Open Scope string_scope.

(** URLs of the hosts [ex] (http) and [cf] (https). *)
Definition ex_urlsplit (url : string) : SplitResult :=
  if String.prefix "https://cf/" url
  then {| u_scheme := "https"; u_hostname := Some "cf"; u_port := None |}
  else if String.prefix "http://ex/" url
  then {| u_scheme := "http"; u_hostname := Some "ex"; u_port := None |}
  else {| u_scheme := EmptyString; u_hostname := None; u_port := None |}.

(** A library without content codings; every file goes to one directory. *)
Definition ex_lib : PyLib :=
  {| Decoder := unit;
     init_decoder := fun _ => None;
     decompress := fun d data => (data, d);
     urlsplit := ex_urlsplit;
     urljoin := fun base _ => base;
     parsedate := fun _ => None;
     path_split := fun p => ("/dl", p);
     posix := true |}.

#[local] Existing Instance ex_lib.

Definition os0 : OS :=
  {| files := ∅; open_fds := ∅; next_fd := 3; open_files := ∅; buffers := ∅;
     buffer_size := 8192; disk_free := None; tmp_suffix := "tmp0" |}.

(** A process that has not retrieved anything, with an empty directory. *)
Definition s0 : State :=
  {| hstat := HttpStat_init; count := 0; unreachable_hosts := ∅;
     resp := WGHTTPResponse_init; os := os0; trace := [] |}.

Definition rq : Request :=
  {| req_url := "http://ex/a.bin"; req_file := "a.bin"; post_timestamp := None;
     adjust_basename := None; use_server_timestamps := false |}.

Definition hello : list byte := ["h"; "e"; "l"; "l"; "o"]%byte.
Definition abcde : list byte := ["a"; "b"; "c"; "d"; "e"]%byte.

Definition response (code : Z) (len : option Z) (items : list StreamItem) : Response :=
  {| status := Some code; headers := ∅; content_length := len;
     resp_current_url := "/a.bin"; body := items |}.

Definition attempt (r : Response) : Attempt :=
  {| att_outages := []; att_route := {| rt_new_pool := None; rt_redirects := [] |};
     att_outcome := NetResponse r |}.

(** A retrieval that has read two bytes and resumes. *)
Definition s_resumed : State :=
  set_hstat (set_restval 2 (set_bytes_read 2 HttpStat_init)) s0.

(** A 206 response with the given [Content-Range]. *)
Definition partial_content (crange : string) : Response :=
  {| status := Some 206; headers := {[ "Content-Range" := crange ]};
     content_length := None; resp_current_url := "/a.bin"; body := [SData hello] |}.

(** A process in which the authority [cf:443] has been condemned. *)
Definition s_condemned : State := set_unreachable_hosts {[ "cf:443" ]} s0.

Definition rq_cf : Request :=
  {| req_url := "https://cf/e.html"; req_file := "e.html"; post_timestamp := None;
     adjust_basename := None; use_server_timestamps := false |}.

(** The state in which [_retrieve_loop] enters its loop for [rq]. *)
Definition s_armed : State :=
  set_hstat (set_make_part_file (Some (".a.bin.", "/dl")) HttpStat_init) s0.

(** A retrieval that resumes after two bytes, which are still in the
    buffer of its part file. *)
Definition s_resumed_part : State :=
  set_os (set_files {[ ".a.bin.tmp0" := File [] 384 None ]}
            (set_open_files {[ ".a.bin.tmp0" ]}
               (set_buffers {[ ".a.bin.tmp0" := ["h"; "e"]%byte ]} os0)))
    (set_hstat (set_part_file (Some ".a.bin.tmp0") (hstat s_resumed)) s_resumed).

(** A process with room for 25000 bytes on the disk. *)
Definition s_small_disk : State := set_os (set_disk_free (Some 25000) os0) s0.

(** A block of 20000 bytes, more than the buffer of a file holds. *)
Definition big_block : list byte := repeat "a"%byte (Z.to_nat 20000).

(** 40000 bytes announced and delivered in two blocks. *)
Definition two_big_blocks : Response :=
  response 200 (Some 40000) [SData big_block; SData big_block].

(** Ten bytes announced, five delivered, then the connection drops. *)
Definition dropped : Response := response 200 (Some 10) [SData abcde; SError ProtocolError].

(** Ten bytes announced and delivered in two blocks. *)
Definition two_blocks : Response := response 200 (Some 10) [SData abcde; SData hello].

(** A process whose destination [a.bin] is an existing directory. *)
Definition s_dest_is_dir : State :=
  set_os (set_files {[ "a.bin" := Directory ]} os0) s0.

(** A 200 response with a [Content-Encoding] header. *)
Definition encoded (coding : string) : Response :=
  {| status := Some 200; headers := {[ "Content-Encoding" := coding ]};
     content_length := Some 10; resp_current_url := "/a.bin"; body := [SData hello] |}.

(** A process with room for seven bytes on the disk. *)
Definition s_tiny_disk : State := set_os (set_disk_free (Some 7) os0) s0.

(** A retrieval of a URL that is neither http nor https. *)
Definition rq_ftp : Request :=
  {| req_url := "ftp://ex/a.bin"; req_file := "a.bin"; post_timestamp := None;
     adjust_basename := None; use_server_timestamps := false |}.

(** An attempt during which DNS is down for one request, and whose request
    is redirected to the host [cf], for which the pool manager constructs a
    pool. *)
Definition redirected (outcome : NetOutcome) : Attempt :=
  {| att_outages := [{| rt_new_pool := Some ("http", "ex", None); rt_redirects := [] |}];
     att_route := {| rt_new_pool := None;
                     rt_redirects := [{| hop_url := "https://cf/a.bin";
                                         hop_new_pool := Some ("https", "cf", None) |}] |};
     att_outcome := outcome |}.

(** A Cloudflare error page. *)
Definition origin_down : Response :=
  {| status := Some 522; headers := {[ "Server" := "cloudflare" ]};
     content_length := Some 0; resp_current_url := "/a.bin"; body := [] |}.

End Fixture.

(** Unfolding of the monad. *)
Ltac munfold :=
  cbv beta iota zeta delta
    [bind ret raise get modify modify_hstat modify_resp modify_os get_hstat get_resp
     get_os emit lift try_except try_finally no_more_input Logger_warn Logger_info].

Ltac msimpl := repeat (munfold; cbn).

(** Case analysis on the innermost test the goal is stuck on. *)
Ltac mcase :=
  match goal with
  | |- context [match ?x with _ => _ end] =>
      lazymatch x with
      | context [match _ with _ => _ end] => fail
      | _ => destruct x eqn:?
      end
  end.

Ltac mcases := repeat (mcase; msimpl).

(** ** Vocabulary of the further statements about the parser *)

Module CRangeMore.
Import PyStr CRangeSpec.

(** No character of the string is one [str.isdigit] accepts and [int]
    rejects. *)
Definition plain_digits (s : list ascii) : Prop :=
  Forall (fun c => isdigit c = is_decimal c) s.

(** Every character of the string is an ASCII character. *)
Definition is_ascii (s : list ascii) : Prop :=
  Forall (fun c => (N_of_ascii c < 128)%N) s.

End CRangeMore.

(** ** Vocabulary of the further statements about the retrieval *)

Section WgetMore.
Context `{!PyLib}.

(** A computation that leaves the retry counter as it is and ends without
    asking for another network attempt. *)
Definition calm {A} (m : M A) : Prop :=
  forall s : State, count (snd (m s)) = count s /\ fst (m s) <> NoMoreInput.

(** The status is one the code takes for a success: 2xx other than 207. *)
Definition status_ok (code : Z) : bool :=
  (200 <=? code) && (code <? 300) && negb (code =? 207).

(** [contrange] and [contlen] as [process_response] computes them from the
    parsed [Content-Range] and the length of the response. *)
Definition contrange_of (crange_parsed : option CRange.ContentRange) : Z :=
  match crange_parsed with
  | Some (first_bytep, _, _) => first_bytep
  | None => 0
  end.

Definition contlen_of (r : Response) (crange_parsed : option CRange.ContentRange)
  : option Z :=
  match crange_parsed with
  | Some (first_bytep, last_bytep, _) => Some (last_bytep - first_bytep + 1)
  | None => content_length r
  end.

Definition last_modified_of (r : Response) : option string :=
  match headers r !! "Last-Modified"%string with
  | Some v => Some v
  | None => headers r !! "X-Archive-Orig-last-modified"%string
  end.

(** The [HttpStat] after [process_response] has noted the headers, the
    status and the expected length of a response. *)
Definition noted (r : Response) (crange_parsed : option CRange.ContentRange)
    (h : HttpStat) : HttpStat :=
  set_contlen
    (match contlen_of r crange_parsed with
     | Some len => Some (len + contrange_of crange_parsed)
     | None => None
     end)
    (set_statcode (default 0 (status r))
       (set_enc_is_identity
          (Some (encoding_is_identity (headers r !! "Content-Encoding"%string)))
          (set_remote_encoding (headers r !! "Content-Encoding"%string)
             (set_remote_time
                (match last_modified_of r with
                 | None => None
                 | Some v => parsedate v
                 end)
                (set_last_modified (last_modified_of r) h))))).

(** The tests of [process_response] between the status test and the
    streaming: the file has not shrunk and the range is the one asked
    for. *)
Definition shrunk (r : Response) (crange_parsed : option CRange.ContentRange)
    (restval : Z) : bool :=
  let code := default 0 (status r) in
  if code =? 416 then true
  else if negb (code =? 200) || bool_decide (contlen_of r crange_parsed = Some 0)
  then false
  else match contlen_of r crange_parsed with
       | Some len => (contrange_of crange_parsed =? 0) && (restval >=? len)
       | None => false
       end.

Definition range_accepted (r : Response) (crange_parsed : option CRange.ContentRange)
    (restval : Z) : bool :=
  negb (shrunk r crange_parsed restval)
  && ((contrange_of crange_parsed =? 0) || (contrange_of crange_parsed =? restval))
  && negb ((default 0 (status r) =? 206) && (restval >? 0)
           && (contrange_of crange_parsed =? 0)).

(** The response reaches the streaming loop of [process_response]: it
    passes the header checks, its status is a success other than 204, and
    its range is accepted. *)
Definition streams (r : Response) (crange_parsed : option CRange.ContentRange)
    (s : State) : Prop :=
  passes_header_checks r crange_parsed s
  /\ status_ok (default 0 (status r)) = true
  /\ default 0 (status r) <> 204
  /\ range_accepted r crange_parsed (restval (hstat s)) = true.

(** The number of bytes [process_response] tells the response to skip:
    [restval] when the server ignored the range, none otherwise. *)
Definition skip_of (crange_parsed : option CRange.ContentRange) (restval : Z) : Z :=
  if (restval >? 0) && (contrange_of crange_parsed =? 0) then restval else 0.

(** The part file of a retrieval: [pf] is still to be created by the
    supplier, or it is open and [content] was written to it, of which a
    part may still be in its buffer; the file is as it was created, with
    mode 0600 and no time set. *)
Definition part_pending (pf : string) (s : State) : Prop :=
  exists pfx dir_,
    _make_part_file (hstat s) = Some (pfx, dir_)
    /\ pf = (pfx +:+ tmp_suffix (os s))%string
    /\ files (os s) !! pf = None.

Definition part_ready (pf : string) (content : list byte) (s : State) : Prop :=
  part_file (hstat s) = Some pf
  /\ _make_part_file (hstat s) = None
  /\ exists on_disk buf,
       files (os s) !! pf = Some (File on_disk 384 None)
       /\ buffers (os s) !! pf = Some buf
       /\ content = on_disk ++ buf.

Definition part_state (pf : string) (content : list byte) (s : State) : Prop :=
  (part_pending pf s /\ content = []) \/ part_ready pf content s.

(** A body of blocks that ends well, or with a transport error after the
    blocks. *)
Definition body_of (blocks : list (list byte)) (ending : option HTTPErrorKind)
  : list StreamItem :=
  map SData blocks ++ match ending with
                      | Some k => [SError k]
                      | None => []
                      end.

(** What [process_response] gives for a body with the given ending. *)
Definition verdict_of (doctype : Z) (ending : option HTTPErrorKind)
  : outcome (UErr * Z) :=
  match ending with
  | None => Done (Ret (RETRFINISHED, Z.lor doctype RETROKF))
  | Some k => Done (Raise (HTTPError k))
  end.

(** The undecoded bytes of blocks the response does not skip. *)
Definition unskipped (skip : Z) (blocks : list (list byte)) : list byte :=
  drop (Z.to_nat skip) (concat blocks).

(** No request, no sleep and no change of the retry counter or of the
    registry lies between two states. *)
Definition quiet (s s' : State) : Prop :=
  requests (trace s') = requests (trace s) /\ sleeps (trace s') = sleeps (trace s)
  /\ count s' = count s /\ unreachable_hosts s' = unreachable_hosts s.

(** The URLs of the requests of one call of [poolman.request]: the URL of
    the call, then the redirects. *)
Definition route_urls (url : string) (rt : Route) : list string :=
  url :: map hop_url (rt_redirects rt).

(** The pools the pool manager constructs during the call. *)
Definition pools_of (rt : Route) : list (string * string * option Z) :=
  option_list (rt_new_pool rt) ++ omap hop_new_pool (rt_redirects rt).

(** None of the pools the pool manager constructs during the attempt is
    the pool of a condemned host. *)
Definition pool_admitted (att : Attempt) (s : State) : Prop :=
  forall rt scheme host port,
    rt ∈ att_outages att ++ [att_route att] ->
    (scheme, host, port) ∈ pools_of rt ->
    normalized_host (Some scheme) host port ∉ unreachable_hosts s.

(** The events of one call of [urlopen]: the requests of each call of
    [poolman.request] that fails while DNS is down, each followed by the
    signal, then the requests of the call that gets through. *)
Definition route_events (url : string) (range_from : option Z) (rt : Route)
  : list Event :=
  map (fun u => EvRequest u range_from) (route_urls url rt).

Definition urlopen_events (url : string) (range_from : option Z) (att : Attempt)
  : list Event :=
  flat_map (fun rt => route_events url range_from rt ++ [EvNoInternet]) (att_outages att)
  ++ route_events url range_from (att_route att).

(** The [Range] header [gethttp] sends in a state. *)
Definition range_of (s : State) : option Z :=
  if restval (hstat s) =? 0 then None else Some (restval (hstat s)).

(** The state in which [gethttp] hands the response [r] of the attempt
    [att] to [process_response], and the URL it hands over with it. *)
Definition fetched_url (url : string) (r : Response) (s : State) : string :=
  urljoin (default url (current_url (hstat s))) (resp_current_url r).

Definition fetched (url : string) (att : Attempt) (r : Response) (s : State) : State :=
  set_hstat
    (set_current_url (Some (fetched_url url r s))
       (set_remote_time None (set_contlen None (set_bytes_read 0 (hstat s)))))
    (set_trace (trace s ++ urlopen_events (default url (current_url (hstat s)))
                             (range_of s) att)
       (set_resp WGHTTPResponse_init s)).

(** The response is one of the Cloudflare errors that condemn the origin. *)
Definition cloudflare_down (r : Response) : bool :=
  bool_decide (headers r !! "Server"%string = Some "cloudflare"%string)
  && bool_decide (default 0 (status r) ∈ [521; 522; 523; 525; 526]).

End WgetMore.

(** * Theorems *)

Module CRangeFacts.
Import PyStr CRange CRangeSpec.

Lemma decimal_isdigit c : is_decimal c = true -> isdigit c = true.
Proof. unfold is_decimal, isdigit. cbv zeta. intros ->. reflexivity. Qed.

Lemma decimal_int c : is_decimal c = true -> int c = Ret (digit_value c).
Proof. unfold is_decimal, int, digit_value. cbv zeta. intros ->. reflexivity. Qed.

Lemma decimal_not_space c : is_decimal c = true -> isspace c = false.
Proof.
  unfold is_decimal, isspace. cbv zeta. intros H.
  apply andb_true_iff in H as [H1 H2].
  apply N.leb_le in H1. apply N.leb_le in H2.
  repeat match goal with
         | |- context [(?a <=? ?b)%N] => destruct (N.leb_spec a b)
         | |- context [(?a =? ?b)%N] => destruct (N.eqb_spec a b)
         end; simpl; try reflexivity; lia.
Qed.

Lemma digits_loop_number ds rest acc :
  Forall (fun c => is_decimal c = true) ds ->
  no_digit_ahead rest ->
  digits_loop (ds ++ rest) acc = Ret (rest, decimal_from acc ds).
Proof.
  intros Hds Hrest. revert acc.
  induction Hds as [|c ds Hc _ IH]; intros acc; simpl.
  - destruct rest as [|c rest]; [reflexivity|].
    simpl in Hrest. simpl. rewrite Hrest. reflexivity.
  - rewrite (decimal_isdigit _ Hc), (decimal_int _ Hc). apply IH.
Qed.

Lemma digits_loop_inv l : forall acc rest n,
  digits_loop l acc = Ret (rest, n) ->
  exists ds, l = ds ++ rest /\ Forall (fun c => is_decimal c = true) ds
             /\ n = decimal_from acc ds /\ no_digit_ahead rest.
Proof.
  induction l as [|c l IH]; intros acc rest n H; simpl in H.
  - inversion H; subst. exists []. repeat split; constructor.
  - destruct (isdigit c) eqn:Hd.
    + unfold int in H. cbv zeta in H.
      destruct ((48 <=? N_of_ascii c) && (N_of_ascii c <=? 57))%N eqn:Hdec;
        [|discriminate].
      apply IH in H as (ds & -> & Hds & -> & Hno).
      exists (c :: ds). repeat split; auto.
    + inversion H; subst. exists []. repeat split; [constructor|exact Hd].
Qed.

Lemma parse_crange_num_number ds post rest :
  number ds -> isdigit post = false ->
  parse_crange_num (ds ++ post :: rest) post = Ret (rest, decimal_value ds).
Proof.
  intros [Hne Hds] Hpost. unfold parse_crange_num.
  destruct ds as [|c ds]; [congruence|].
  change ((c :: ds) ++ post :: rest) with (c :: (ds ++ post :: rest)).
  cbv iota beta.
  rewrite (decimal_isdigit c) by (inversion Hds; assumption). cbv [negb].
  change (c :: (ds ++ post :: rest)) with ((c :: ds) ++ post :: rest).
  rewrite (digits_loop_number (c :: ds) (post :: rest) 0 Hds Hpost).
  rewrite Ascii.eqb_refl. reflexivity.
Qed.

Lemma parse_crange_num_inv l post rest n :
  parse_crange_num l post = Ret (rest, n) ->
  exists ds, l = ds ++ post :: rest /\ number ds /\ n = decimal_value ds.
Proof.
  unfold parse_crange_num. destruct l as [|c l]; [discriminate|].
  destruct (isdigit c) eqn:Hc; [|discriminate]. cbv [negb].
  destruct (digits_loop (c :: l) 0) as [[[|c' rest'] num]|e] eqn:Hloop;
    try discriminate.
  destruct (Ascii.eqb c' post) eqn:Heq; [|discriminate]. cbv [negb].
  intros H; inversion H; subst. apply Ascii.eqb_eq in Heq. subst c'.
  apply digits_loop_inv in Hloop as (ds & Hl & Hds & -> & Hno).
  exists ds. repeat split; auto.
  destruct ds; [|discriminate].
  simpl in Hl. inversion Hl; subst. simpl in Hno. congruence.
Qed.

Lemma parse_range_spec_star d1 d2 tail :
  number d1 -> number d2 ->
  parse_range_spec (d1 ++ "-"%char :: d2 ++ "/"%char :: "*"%char :: tail)
  = Ret (if decimal_value d2 <? decimal_value d1 then None
         else Some (decimal_value d1, decimal_value d2, None)).
Proof.
  intros H1 H2. unfold parse_range_spec.
  rewrite (parse_crange_num_number d1 "-" _ H1 eq_refl).
  rewrite (parse_crange_num_number d2 "/" _ H2 eq_refl).
  cbn [at_char]. rewrite Ascii.eqb_refl. cbv zeta.
  rewrite orb_false_r. destruct (_ <? _); reflexivity.
Qed.

Lemma decimal_not_star c : is_decimal c = true -> Ascii.eqb c "*" = false.
Proof.
  intros H. destruct (Ascii.eqb_spec c "*"%char) as [->|]; [|reflexivity].
  vm_compute in H. discriminate.
Qed.

Lemma parse_range_spec_len d1 d2 d3 tail :
  number d1 -> number d2 ->
  Forall (fun c => is_decimal c = true) d3 ->
  no_digit_ahead tail ->
  (d3 = [] -> at_char tail "*" = false) ->
  parse_range_spec (d1 ++ "-"%char :: d2 ++ "/"%char :: d3 ++ tail)
  = Ret (if (decimal_value d2 <? decimal_value d1)
            || (decimal_value d3 <=? decimal_value d2)
         then None
         else Some (decimal_value d1, decimal_value d2, Some (decimal_value d3))).
Proof.
  intros H1 H2 H3 Htail Hstar. unfold parse_range_spec.
  rewrite (parse_crange_num_number d1 "-" _ H1 eq_refl).
  rewrite (parse_crange_num_number d2 "/" _ H2 eq_refl).
  assert (at_char (d3 ++ tail) "*" = false) as ->.
  { destruct d3 as [|c d3]; [apply Hstar; reflexivity|].
    simpl. apply decimal_not_star. inversion H3; assumption. }
  rewrite (digits_loop_number d3 tail 0 H3 Htail). cbv zeta.
  fold (decimal_value d3). destruct (_ || _); reflexivity.
Qed.

Lemma startswith_split s p :
  startswith s p = true -> s = p ++ skipn (length p) s.
Proof.
  revert s. induction p as [|a p IH]; intros s H; [reflexivity|].
  destruct s as [|b s]; simpl in H; [discriminate|].
  destruct (Ascii.eqb_spec a b) as [->|]; [|discriminate].
  simpl. f_equal. apply IH, H.
Qed.

Lemma lstrip_split s :
  exists ws, s = ws ++ lstrip s /\ Forall (fun c => isspace c = true) ws.
Proof.
  induction s as [|c s (ws & Hs & Hws)]; simpl.
  - exists []. split; [reflexivity|constructor].
  - destruct (isspace c) eqn:Hc.
    + exists (c :: ws). split; [simpl; congruence|constructor; assumption].
    + exists []. split; [reflexivity|constructor].
Qed.

Lemma lstrip_spaces ws c body :
  Forall (fun c => isspace c = true) ws -> isspace c = false ->
  lstrip (ws ++ c :: body) = c :: body.
Proof.
  intros Hws Hc. induction Hws as [|w ws Hw _ IH]; simpl.
  - rewrite Hc. reflexivity.
  - rewrite Hw. exact IH.
Qed.

Lemma chars_str l : chars (str l) = l.
Proof. apply list_ascii_of_string_of_list_ascii. Qed.

Lemma startswith_app p s : startswith (p ++ s) p = true.
Proof. induction p as [|a p IH]; [reflexivity|]. simpl. rewrite Ascii.eqb_refl. exact IH. Qed.

Lemma not_colon_ahead ws c body :
  Forall (fun c => isspace c = true) ws -> is_decimal c = true ->
  startswith (ws ++ c :: body) (chars ":") = false.
Proof.
  intros Hws Hc. change (chars ":") with [":"%char].
  destruct Hws as [|w ws Hw _]; cbn [startswith app].
  - destruct (Ascii.eqb_spec ":"%char c) as [<-|]; [|reflexivity].
    vm_compute in Hc. discriminate.
  - destruct (Ascii.eqb_spec ":"%char w) as [<-|]; [|reflexivity].
    vm_compute in Hw. discriminate.
Qed.

Lemma not_bytes_ahead c body :
  is_decimal c = true -> startswith (c :: body) (chars "bytes") = false.
Proof.
  intros Hc. change (chars "bytes") with ("b"%char :: chars "ytes").
  cbn [startswith].
  destruct (Ascii.eqb_spec "b"%char c) as [<-|]; [|reflexivity].
  vm_compute in Hc. discriminate.
Qed.

Lemma parse_content_range_prefix pre c body :
  range_prefix pre -> is_decimal c = true ->
  parse_content_range (Some (str (pre ++ c :: body))) = parse_range_spec (c :: body).
Proof.
  intros Hpre Hc. unfold parse_content_range. rewrite chars_str. cbv zeta.
  destruct Hpre as [|ws Hws|ws Hws].
  - rewrite app_nil_l, (not_bytes_ahead c body Hc). reflexivity.
  - rewrite <- app_assoc, startswith_app.
    change 5%nat with (length (chars "bytes")). rewrite drop_app_length.
    rewrite (not_colon_ahead ws c body Hws Hc).
    rewrite (lstrip_spaces ws c body Hws (decimal_not_space c Hc)). reflexivity.
  - change (chars "bytes:") with (chars "bytes" ++ chars ":").
    rewrite <- !app_assoc, startswith_app.
    change 5%nat with (length (chars "bytes")). rewrite drop_app_length.
    rewrite startswith_app.
    change 1%nat with (length (chars ":")). rewrite drop_app_length.
    rewrite (lstrip_spaces ws c body Hws (decimal_not_space c Hc)). reflexivity.
Qed.

Lemma parse_range_spec_inv hdrc first last len :
  parse_range_spec hdrc = Ret (Some (first, last, len)) ->
  exists d1 d2 rest,
    hdrc = d1 ++ "-"%char :: d2 ++ "/"%char :: rest
    /\ number d1 /\ number d2
    /\ first = decimal_value d1 /\ last = decimal_value d2 /\ first <= last
    /\ match len with
       | None => at_char rest "*" = true
       | Some n =>
           exists d3 tail, rest = d3 ++ tail
             /\ Forall (fun c => is_decimal c = true) d3
             /\ n = decimal_value d3 /\ last < n
       end.
Proof.
  unfold parse_range_spec.
  destruct (parse_crange_num hdrc "-") as [[hdrc1 f]|e] eqn:E1;
    [|destruct e; discriminate].
  destruct (parse_crange_num hdrc1 "/") as [[hdrc2 l]|e] eqn:E2;
    [|destruct e; discriminate].
  apply parse_crange_num_inv in E1 as (d1 & -> & Hd1 & ->).
  apply parse_crange_num_inv in E2 as (d2 & -> & Hd2 & ->).
  cbv zeta. intros H.
  destruct (at_char hdrc2 "*") eqn:Hstar.
  - rewrite orb_false_r in H.
    destruct (decimal_value d2 <? decimal_value d1) eqn:Hlt; [discriminate|].
    inversion H; subst. apply Z.ltb_ge in Hlt.
    exists d1, d2, hdrc2. repeat split; try apply Hd1; try apply Hd2; auto.
  - destruct (digits_loop hdrc2 0) as [[tail n]|e] eqn:E3; [|discriminate].
    destruct (decimal_value d2 <? decimal_value d1) eqn:Hlt; [discriminate|].
    destruct (n <=? decimal_value d2) eqn:Hle; [discriminate|].
    inversion H; subst. apply Z.ltb_ge in Hlt. apply Z.leb_gt in Hle.
    apply digits_loop_inv in E3 as (d3 & -> & Hd3 & -> & _).
    exists d1, d2, (d3 ++ tail). repeat split; try apply Hd1; try apply Hd2; auto.
    exists d3, tail. repeat split; auto.
Qed.

Lemma parse_content_range_inv hdr v :
  parse_content_range (Some hdr) = Ret (Some v) ->
  exists pre body, chars hdr = pre ++ body /\ range_prefix pre
                   /\ parse_range_spec body = Ret (Some v).
Proof.
  unfold parse_content_range.
  destruct (startswith (chars hdr) (chars "bytes")) eqn:Hb.
  - apply startswith_split in Hb. change (length (chars "bytes")) with 5%nat in Hb.
    set (rest := skipn 5 (chars hdr)) in *. clearbody rest.
    destruct (startswith rest (chars ":")) eqn:Hc.
    + apply startswith_split in Hc. change (length (chars ":")) with 1%nat in Hc.
      set (rest1 := skipn 1 rest) in *. clearbody rest1.
      destruct (lstrip_split rest1) as (ws & Hws & Hsp).
      destruct (lstrip rest1) as [|c body] eqn:Hl; [discriminate|].
      intros H. exists (chars "bytes:" ++ ws), (c :: body).
      split; [|split; [constructor; assumption|assumption]].
      rewrite Hb, Hc, Hws. reflexivity.
    + destruct (lstrip_split rest) as (ws & Hws & Hsp).
      destruct (lstrip rest) as [|c body] eqn:Hl; [discriminate|].
      intros H. exists (chars "bytes" ++ ws), (c :: body).
      split; [|split; [constructor; assumption|assumption]].
      rewrite Hb, Hws, <- app_assoc. reflexivity.
  - intros H. exists [], (chars hdr). repeat split; [constructor|assumption].
Qed.

(** Characters after the entity length are not looked at, unless the
    first of them is one [str.isdigit] accepts. *)
Lemma trailing_ignored pre d1 d2 d3 tail :
  range_prefix pre -> number d1 -> number d2 ->
  parse_content_range (Some (str (pre ++ d1 ++ "-"%char :: d2 ++ "/"%char :: "*"%char :: tail)))
  = parse_content_range (Some (str (pre ++ d1 ++ "-"%char :: d2 ++ ["/"%char; "*"%char])))
  /\ (number d3 -> no_digit_ahead tail ->
      parse_content_range (Some (str (pre ++ d1 ++ "-"%char :: d2 ++ "/"%char :: d3 ++ tail)))
      = parse_content_range (Some (str (pre ++ d1 ++ "-"%char :: d2 ++ "/"%char :: d3)))).
Proof.
  intros Hpre H1 H2.
  destruct d1 as [|c d1]; [destruct H1; congruence|].
  assert (Hc : is_decimal c = true) by (destruct H1 as [_ H]; inversion H; assumption).
  split.
  - change ((c :: d1) ++ ?x) with (c :: d1 ++ x).
    rewrite !(parse_content_range_prefix pre c _ Hpre Hc).
    change (c :: d1 ++ ?x) with ((c :: d1) ++ x).
    rewrite !parse_range_spec_star by assumption. reflexivity.
  - intros [Hne H3] Htail.
    change ((c :: d1) ++ ?x) with (c :: d1 ++ x).
    rewrite !(parse_content_range_prefix pre c _ Hpre Hc).
    change (c :: d1 ++ ?x) with ((c :: d1) ++ x).
    replace (parse_range_spec ((c :: d1) ++ "-"%char :: d2 ++ "/"%char :: d3))
      with (parse_range_spec ((c :: d1) ++ "-"%char :: d2 ++ "/"%char :: d3 ++ []))
      by (rewrite app_nil_r; reflexivity).
    rewrite (parse_range_spec_len (c :: d1) d2 d3 tail) by (auto; congruence).
    rewrite (parse_range_spec_len (c :: d1) d2 d3 []) by (simpl; auto; congruence).
    reflexivity.
Qed.

(** The only exception of the digit loop is the [ValueError] of [int]. *)
Lemma digits_loop_raises l : forall acc e, digits_loop l acc = Raise e -> e = ValueError.
Proof.
  induction l as [|c l IH]; intros acc e H; simpl in H; [discriminate|].
  destruct (isdigit c); [|discriminate].
  unfold int in H. cbv zeta in H.
  destruct ((48 <=? N_of_ascii c) && (N_of_ascii c <=? 57))%N.
  - eapply IH, H.
  - congruence.
Qed.

Lemma parse_crange_num_raises l post e : parse_crange_num l post = Raise e -> e = ValueError.
Proof.
  unfold parse_crange_num. destruct l as [|c l]; [congruence|].
  destruct (isdigit c); cbv [negb]; [|congruence].
  destruct (digits_loop (c :: l) 0) as [[[|c' rest] num]|e'] eqn:Hloop.
  - congruence.
  - destruct (Ascii.eqb c' post); cbv [negb]; [discriminate|congruence].
  - intros [= <-]. eapply digits_loop_raises, Hloop.
Qed.

(** Without a well-formed [FIRST-LAST/] the result is null: the [try]
    block turns the [ValueError] of [parse_crange_num] into [None]. *)
Lemma parse_range_spec_malformed hdrc :
  (forall d1 d2 rest, number d1 -> number d2 ->
     hdrc <> d1 ++ "-"%char :: d2 ++ "/"%char :: rest) ->
  parse_range_spec hdrc = Ret None.
Proof.
  intros Hbad. unfold parse_range_spec.
  destruct (parse_crange_num hdrc "-") as [[hdrc1 f]|e] eqn:E1.
  - destruct (parse_crange_num hdrc1 "/") as [[hdrc2 l]|e] eqn:E2.
    + apply parse_crange_num_inv in E1 as (d1 & -> & Hd1 & ->).
      apply parse_crange_num_inv in E2 as (d2 & -> & Hd2 & ->).
      destruct (Hbad d1 d2 hdrc2 Hd1 Hd2). reflexivity.
    + rewrite (parse_crange_num_raises _ _ _ E2). reflexivity.
  - rewrite (parse_crange_num_raises _ _ _ E1). reflexivity.
Qed.

Lemma parse_content_range_malformed hdr :
  (forall pre d1 d2 rest, range_prefix pre -> number d1 -> number d2 ->
     chars hdr <> pre ++ d1 ++ "-"%char :: d2 ++ "/"%char :: rest) ->
  parse_content_range (Some hdr) = Ret None.
Proof.
  intros Hbad. unfold parse_content_range. cbv zeta.
  destruct (startswith (chars hdr) (chars "bytes")) eqn:Hb.
  - apply startswith_split in Hb. change (length (chars "bytes")) with 5%nat in Hb.
    set (rest := skipn 5 (chars hdr)) in *. clearbody rest.
    destruct (startswith rest (chars ":")) eqn:Hc.
    + apply startswith_split in Hc. change (length (chars ":")) with 1%nat in Hc.
      set (rest1 := skipn 1 rest) in *. clearbody rest1.
      destruct (lstrip_split rest1) as (ws & Hws & Hsp).
      destruct (lstrip rest1) as [|c body] eqn:Hl; [reflexivity|].
      apply parse_range_spec_malformed. intros d1 d2 tail H1 H2 Hbody.
      apply (Hbad (chars "bytes:" ++ ws) d1 d2 tail); [constructor; assumption|auto..|].
      rewrite Hb, Hc, Hws, Hbody, <- !app_assoc. reflexivity.
    + destruct (lstrip_split rest) as (ws & Hws & Hsp).
      destruct (lstrip rest) as [|c body] eqn:Hl; [reflexivity|].
      apply parse_range_spec_malformed. intros d1 d2 tail H1 H2 Hbody.
      apply (Hbad (chars "bytes" ++ ws) d1 d2 tail); [constructor; assumption|auto..|].
      rewrite Hb, Hws, Hbody, <- !app_assoc. reflexivity.
  - apply parse_range_spec_malformed. intros d1 d2 tail H1 H2 Hbody.
    apply (Hbad [] d1 d2 tail); [constructor|auto..].
Qed.

(** The parser on a header with a well-formed [FIRST-LAST/]. *)
Lemma parse_content_range_wellformed pre d1 d2 tail :
  range_prefix pre -> number d1 -> number d2 ->
  parse_content_range
    (Some (str (pre ++ d1 ++ "-"%char :: d2 ++ "/"%char :: "*"%char :: tail)))
  = Ret (if decimal_value d2 <? decimal_value d1 then None
         else Some (decimal_value d1, decimal_value d2, None))
  /\ forall d3,
       Forall (fun c => is_decimal c = true) d3 ->
       no_digit_ahead tail -> (d3 = [] -> at_char tail "*" = false) ->
       parse_content_range
         (Some (str (pre ++ d1 ++ "-"%char :: d2 ++ "/"%char :: d3 ++ tail)))
       = Ret (if (decimal_value d2 <? decimal_value d1)
                 || (decimal_value d3 <=? decimal_value d2)
              then None
              else Some (decimal_value d1, decimal_value d2, Some (decimal_value d3))).
Proof.
  intros Hpre H1 H2.
  destruct d1 as [|c d1]; [destruct H1; congruence|].
  assert (Hc : is_decimal c = true) by (destruct H1 as [_ H]; inversion H; assumption).
  split; [|intros d3 H3 Htail Hstar];
    change ((c :: d1) ++ ?x) with (c :: d1 ++ x);
    rewrite (parse_content_range_prefix pre c _ Hpre Hc);
    change (c :: d1 ++ ?x) with ((c :: d1) ++ x).
  - apply parse_range_spec_star; assumption.
  - apply parse_range_spec_len; assumption.
Qed.

(** C8, as amended.  A missing header gives null.  The parser removes
    nothing, or the token [bytes] with an optional colon and whitespace
    after it.  When decimal FIRST, a dash, decimal LAST and a slash follow,
    and then a star, the parser returns the triple with a null length when
    FIRST <= LAST and null otherwise, whatever follows the star; when decimal
    LEN follows the slash (possibly without a digit, read as 0) and the
    character after it is not one [str.isdigit] accepts, the parser returns
    the triple when FIRST <= LAST and LAST < LEN and null otherwise,
    whatever else follows.  For every header that does not start with a
    prefix, decimal FIRST, a dash, decimal LAST and a slash, the parser
    returns null.  Whenever the parser returns a triple, the header has the
    form above and the triple holds the values of its numbers. *)
Theorem parse_content_range_grammar :
  parse_content_range None = Ret None
  /\ (forall pre d1 d2 tail,
        range_prefix pre -> number d1 -> number d2 ->
        parse_content_range
          (Some (str (pre ++ d1 ++ "-"%char :: d2 ++ "/"%char :: "*"%char :: tail)))
        = Ret (if decimal_value d2 <? decimal_value d1 then None
               else Some (decimal_value d1, decimal_value d2, None))
        /\ forall d3,
             Forall (fun c => is_decimal c = true) d3 ->
             no_digit_ahead tail -> (d3 = [] -> at_char tail "*" = false) ->
             parse_content_range
               (Some (str (pre ++ d1 ++ "-"%char :: d2 ++ "/"%char :: d3 ++ tail)))
             = Ret (if (decimal_value d2 <? decimal_value d1)
                       || (decimal_value d3 <=? decimal_value d2)
                    then None
                    else Some (decimal_value d1, decimal_value d2,
                               Some (decimal_value d3))))
  /\ (forall hdr,
        (forall pre d1 d2 rest,
           range_prefix pre -> number d1 -> number d2 ->
           chars hdr <> pre ++ d1 ++ "-"%char :: d2 ++ "/"%char :: rest) ->
        parse_content_range (Some hdr) = Ret None)
  /\ (forall hdr first last len,
        parse_content_range (Some hdr) = Ret (Some (first, last, len)) ->
        exists pre d1 d2 rest,
          chars hdr = pre ++ d1 ++ "-"%char :: d2 ++ "/"%char :: rest
          /\ range_prefix pre /\ number d1 /\ number d2
          /\ first = decimal_value d1 /\ last = decimal_value d2 /\ first <= last
          /\ match len with
             | None => at_char rest "*" = true
             | Some n =>
                 exists d3 tail, rest = d3 ++ tail
                   /\ Forall (fun c => is_decimal c = true) d3
                   /\ n = decimal_value d3 /\ last < n
             end).
Proof.
  split; [reflexivity|]. split; [exact parse_content_range_wellformed|].
  split; [exact parse_content_range_malformed|].
  intros hdr first last len H.
  apply parse_content_range_inv in H as (pre & body & Hhdr & Hpre & H).
  apply parse_range_spec_inv in H as (d1 & d2 & rest & -> & H).
  exists pre, d1, d2, rest. split; [assumption|]. split; [assumption|]. exact H.
Qed.

(** The theorem at the header [bytes 0-5/10]. *)
Lemma parse_content_range_grammar_witness :
  range_prefix (chars "bytes ") /\ number (chars "0") /\ number (chars "5")
  /\ Forall (fun c => is_decimal c = true) (chars "10")
  /\ parse_content_range (Some "bytes 0-5/10"%string) = Ret (Some (0, 5, Some 10))
  /\ parse_content_range (Some "bytes 0-5/ten"%string) = Ret None
  /\ parse_content_range (Some "bytes 0 to 5 of 10"%string) = Ret None.
Proof.
  assert (Hp : range_prefix (chars "bytes ")).
  { apply (prefix_bytes [" "%char]). repeat constructor. }
  assert (H0 : number (chars "0")) by (split; [discriminate|repeat constructor]).
  assert (H5 : number (chars "5")) by (split; [discriminate|repeat constructor]).
  assert (H10 : Forall (fun c => is_decimal c = true) (chars "10"))
    by (repeat constructor).
  split; [exact Hp|]. split; [exact H0|]. split; [exact H5|]. split; [exact H10|].
  destruct parse_content_range_grammar as (_ & H & Hbad & _).
  split; [|split].
  - destruct (H (chars "bytes ") (chars "0") (chars "5") [] Hp H0 H5) as [_ Hlen].
    exact (Hlen (chars "10") H10 I ltac:(discriminate)).
  - destruct (H (chars "bytes ") (chars "0") (chars "5") (chars "ten") Hp H0 H5)
      as [_ Hlen].
    exact (Hlen [] ltac:(constructor) ltac:(reflexivity) ltac:(reflexivity)).
  - apply Hbad. intros pre d1 d2 rest Hpre [Hne1 Hd1] _ Hhdr.
    destruct d1 as [|c d1]; [congruence|]. inversion Hd1 as [|? ? Hc _]; subst.
    destruct Hpre as [|ws Hws|ws Hws].
    + cbn in Hhdr. injection Hhdr as <- _. discriminate Hc.
    + change (chars "bytes 0 to 5 of 10")
        with (chars "bytes" ++ " "%char :: "0"%char :: " "%char :: chars "to 5 of 10")
        in Hhdr.
      rewrite <- app_assoc in Hhdr. apply app_inv_head in Hhdr.
      destruct ws as [|w [|w' ws]]; cbn in Hhdr.
      * injection Hhdr as <- _. discriminate Hc.
      * injection Hhdr as <- <- Hrest.
        destruct d1 as [|c' d1]; cbn in Hrest; [discriminate|].
        injection Hrest as <- _. inversion Hd1 as [|? ? _ Hd1']; subst.
        inversion Hd1' as [|? ? Hc' _]; subst. discriminate Hc'.
      * injection Hhdr as <- <- _. inversion Hws as [|? ? _ Hws']; subst.
        inversion Hws' as [|? ? Hw' _]; subst. discriminate Hw'.
    + change (chars "bytes 0 to 5 of 10")
        with (chars "bytes" ++ " "%char :: chars "0 to 5 of 10") in Hhdr.
      change (chars "bytes:") with (chars "bytes" ++ [":"%char]) in Hhdr.
      rewrite <- !app_assoc in Hhdr. apply app_inv_head in Hhdr.
      discriminate Hhdr.
Defined.

(** C8 as stated fails.  A colon or whitespace without the token [bytes]
    is not skipped: the parser returns null for such a header.  And text
    after the length is not looked at: the parser returns the triple for a
    header that goes on after [FIRST-LAST/LEN]. *)
Lemma lone_colon_or_trailing_text :
  parse_content_range (Some ":0-5/10"%string) = Ret None
  /\ parse_content_range (Some " 0-5/10"%string) = Ret None
  /\ parse_content_range (Some "0-5/10"%string) = Ret (Some (0, 5, Some 10))
  /\ parse_content_range (Some "bytes 0-5/10, or so"%string) = Ret (Some (0, 5, Some 10)).
Proof. repeat split; reflexivity. Qed.

(** C10.  The header [bytes 0-5/10] parses; with the one character U+00B2
    (superscript two) after it, which [str.isdigit] accepts and [int]
    rejects, the length loop raises [ValueError] instead of stopping. *)
Theorem superscript_after_length_raises :
  isdigit "178"%char = true
  /\ int "178"%char = Raise ValueError
  /\ parse_content_range (Some "bytes 0-5/10"%string) = Ret (Some (0, 5, Some 10))
  /\ parse_content_range (Some ("bytes 0-5/10" +:+ String "178"%char EmptyString))
     = Raise ValueError
  /\ parse_content_range (Some ("bytes 0-5/10" +:+ "garbage"))
     = Ret (Some (0, 5, Some 10)).
Proof. repeat split; reflexivity. Qed.

End CRangeFacts.

Section MonadFacts.
Context `{!PyLib}.

Lemma bind_ret_eq {A B} (m : M A) (k : A -> M B) s a s' :
  m s = (Done (Ret a), s') -> bind m k s = k a s'.
Proof. unfold bind. intros ->. reflexivity. Qed.

Lemma bind_raise_eq {A B} (m : M A) (k : A -> M B) s e s' :
  m s = (Done (Raise e), s') -> bind m k s = (Done (Raise e), s').
Proof. unfold bind. intros ->. reflexivity. Qed.

End MonadFacts.

Section RetryCounterFacts.
Context `{!PyLib}.

Lemma should_retry_spec (s : State) :
  RetryCounter_should_retry s = (Done (Ret (count s <? 20)), s).
Proof. reflexivity. Qed.

(** An [increment] that leaves the count below the limit logs, sleeps and
    returns. *)
Lemma increment_below url cause (s : State) :
  count s + 1 < 20 ->
  RetryCounter_increment [url; VHttpStat; cause] s
  = (Done (Ret tt),
     set_trace (trace s ++ [EvLog INFO url
                              (MsgRetrying (count s + 1) (Some 20)
                                 (bytes_read (hstat s) >? restval (hstat s)) cause);
                            EvSleep (Z.min (count s + 1) 10)])
       (set_count (count s + 1) s)).
Proof.
  intros Hlt. apply Z.ltb_lt in Hlt.
  unfold RetryCounter_increment, RetryCounter_should_retry, TRY_LIMIT, MAX_RETRY_WAIT.
  msimpl. rewrite Hlt. msimpl. rewrite <- app_assoc. reflexivity.
Qed.

(** An [increment] that reaches the limit logs and raises, without sleeping. *)
Lemma increment_exhausted url cause (s : State) :
  20 <= count s + 1 ->
  RetryCounter_increment [url; VHttpStat; cause] s
  = (Done (Raise WGMaxRetryError),
     set_trace (trace s ++ [EvLog WARN url
                              (MsgGaveUp (bytes_read (hstat s) >? restval (hstat s))
                                 cause)])
       (set_count (count s + 1) s)).
Proof.
  intros Hge. apply Z.ltb_ge in Hge.
  unfold RetryCounter_increment, RetryCounter_should_retry, TRY_LIMIT.
  msimpl. rewrite Hge. reflexivity.
Qed.

Lemma sleeps_app tr1 tr2 : sleeps (tr1 ++ tr2) = sleeps tr1 ++ sleeps tr2.
Proof. apply omap_app. Qed.

Lemma increments_bounded url causes : forall s : State,
  0 <= count s < 20 ->
  count s <= count (snd (increments url causes s)) <= 20
  /\ exists new, sleeps (trace (snd (increments url causes s))) = sleeps (trace s) ++ new
                 /\ Forall (fun n => n <= 10) new.
Proof.
  induction causes as [|cause causes IH]; intros s Hs; cbn [increments].
  - cbn. split; [lia|]. exists []. rewrite app_nil_r. split; [reflexivity|constructor].
  - destruct (Z.lt_ge_cases (count s + 1) 20) as [Hlt|Hge].
    + pose proof (increment_below url cause s Hlt) as E.
      rewrite (bind_ret_eq _ _ _ _ _ E).
      match type of E with
      | _ = (_, ?s1) => destruct (IH s1) as [Hc (new & Hnew & Hall)]; [cbn; lia|]
      end.
      cbn [count set_trace set_count trace] in Hc, Hnew. split; [lia|].
      exists (Z.min (count s + 1) 10 :: new). split.
      * rewrite Hnew, sleeps_app, <- app_assoc. reflexivity.
      * constructor; [apply Z.le_min_r|assumption].
    + rewrite (bind_raise_eq _ _ _ _ _ (increment_exhausted url cause s Hge)).
      cbn [snd count set_trace set_count trace]. split; [lia|].
      exists []. split; [|constructor]. rewrite sleeps_app. reflexivity.
Qed.

(** C3.  [should_retry] returns whether [count < 20].  A call of
    [increment(url, hstat, cause)] adds exactly 1 to [count]; when the new
    count has reached 20 it raises [WGMaxRetryError] and does not sleep,
    otherwise it returns after sleeping [min(count, 10)] seconds.  A caller
    with a new counter that stops at the first exception never sees a count
    above 20, and none of its sleeps is longer than 10 seconds. *)
Theorem retry_counter_policy :
  (forall s : State, RetryCounter_should_retry s = (Done (Ret (count s <? 20)), s))
  /\ (forall url cause (s : State),
        let run := RetryCounter_increment [url; VHttpStat; cause] s in
        count (snd run) = count s + 1
        /\ fst run = (if count s + 1 <? 20 then Done (Ret tt)
                      else Done (Raise WGMaxRetryError))
        /\ sleeps (trace (snd run))
           = sleeps (trace s)
               ++ (if count s + 1 <? 20 then [Z.min (count s + 1) 10] else []))
  /\ (forall url causes (s : State),
        let s' := snd (retry_run url causes s) in
        0 <= count s' <= 20
        /\ exists new, sleeps (trace s') = sleeps (trace s) ++ new
                       /\ Forall (fun n => n <= 10) new).
Proof.
  split; [exact should_retry_spec|]. split.
  - intros url cause s run. subst run.
    destruct (Z.ltb_spec (count s + 1) 20) as [Hlt|Hge].
    + rewrite (increment_below url cause s Hlt). cbn.
      rewrite sleeps_app. repeat split; reflexivity.
    + rewrite (increment_exhausted url cause s Hge). cbn.
      rewrite sleeps_app. repeat split; reflexivity.
  - intros url causes s s'. subst s'.
    change (retry_run url causes s) with (increments url causes (set_count 0 s)).
    destruct (increments_bounded url causes (set_count 0 s)) as [Hc Hs];
      [cbn; lia|].
    cbn [count set_count trace] in Hc, Hs. change (count (set_count 0 s)) with 0 in Hc.
    split; [lia|exact Hs].
Qed.

End RetryCounterFacts.

Section StreamFacts.
Context `{!PyLib}.

Lemma decoded_input_app tr1 tr2 :
  decoded_input (tr1 ++ tr2) = decoded_input tr1 ++ decoded_input tr2.
Proof. unfold decoded_input. rewrite omap_app, concat_app. reflexivity. Qed.

Lemma requests_app tr1 tr2 : requests (tr1 ++ tr2) = requests tr1 ++ requests tr2.
Proof. apply omap_app. Qed.

Lemma quiet_refl (s : State) : quiet s s.
Proof. repeat split. Qed.

Lemma quiet_trans (s1 s2 s3 : State) : quiet s1 s2 -> quiet s2 s3 -> quiet s1 s3.
Proof. unfold quiet. intros (A & B & C & D) (A' & B' & C' & D'). repeat split; congruence. Qed.

(** What one call of [_decode] does to the response and to the trace. *)
Lemma decode_effect (data : list byte) (s : State) :
  let run := WGHTTPResponse__decode data s in
  let skip := bytes_to_skip (resp s) in
  let passed := drop (Z.to_nat skip) data in
  (exists out, fst run = Done (Ret out))
  /\ last_read_length (resp (snd run)) = Z.of_nat (length passed)
  /\ bytes_to_skip (resp (snd run))
     = skip - Z.min (Z.of_nat (length data)) (Z.max 0 skip)
  /\ decoded_input (trace (snd run)) = decoded_input (trace s) ++ passed
  /\ (passed = [] -> trace (snd run) = trace s /\ fst run = Done (Ret []))
  /\ hstat (snd run) = hstat s /\ os (snd run) = os s
  /\ quiet s (snd run)
  /\ (r_decoder (resp s) = None
      -> fst run = Done (Ret passed) /\ r_decoder (resp (snd run)) = None).
Proof.
  cbv zeta. unfold WGHTTPResponse__decode, HTTPResponse__decode, quiet. msimpl.
  destruct (Z.geb_spec (bytes_to_skip (resp s)) (Z.of_nat (length data))) as [Hge|Hlt].
  - msimpl. rewrite drop_ge by lia. cbn.
    rewrite app_nil_r. repeat split; eauto; try lia; try (intros ->; reflexivity).
  - destruct (Z.gtb_spec (bytes_to_skip (resp s)) 0) as [Hpos|Hneg]; msimpl.
    + destruct (drop (Z.to_nat (bytes_to_skip (resp s))) data) as [|b passed] eqn:Hd.
      { apply (f_equal length) in Hd. rewrite length_drop in Hd. cbn in Hd. lia. }
      msimpl. destruct (r_decoder (resp s)) as [d|] eqn:Hdec; msimpl;
        [destruct (decompress d (b :: passed)) as [out d']; msimpl|];
        rewrite decoded_input_app, requests_app, sleeps_app;
        unfold decoded_input at 2; cbn; rewrite !app_nil_r;
        (repeat split; eauto; try lia; try discriminate; try (intros [=]);
         try (intros _; split; [reflexivity|assumption])).
    + replace (Z.to_nat (bytes_to_skip (resp s))) with 0%nat by lia.
      rewrite drop_0. destruct data as [|b data]; msimpl.
      * rewrite app_nil_r. cbn in *. repeat split; eauto; try lia; try (intros ->; reflexivity).
      * destruct (r_decoder (resp s)) as [d|] eqn:Hdec; msimpl;
          [destruct (decompress d (b :: data)) as [out d']; msimpl|];
          rewrite decoded_input_app, requests_app, sleeps_app;
          unfold decoded_input at 2; cbn; rewrite !app_nil_r;
          (repeat split; eauto; try lia; try discriminate; try (intros [=]);
           try (intros _; split; [reflexivity|assumption])).
Qed.

Lemma read_effect (r : Response) (data : list byte) (s : State) :
  let run := HTTPResponse_read r data s in
  let skip := bytes_to_skip (resp s) in
  let passed := drop (Z.to_nat skip) data in
  (exists out, fst run = Done (Ret out))
  /\ last_read_length (resp (snd run)) = Z.of_nat (length passed)
  /\ bytes_to_skip (resp (snd run))
     = skip - Z.min (Z.of_nat (length data)) (Z.max 0 skip)
  /\ decoded_input (trace (snd run)) = decoded_input (trace s) ++ passed
  /\ (passed = [] -> trace (snd run) = trace s /\ fst run = Done (Ret []))
  /\ hstat (snd run) = hstat s /\ os (snd run) = os s
  /\ quiet s (snd run)
  /\ (r_decoder (resp s) = None
      -> init_decoder (headers r !! "Content-Encoding"%string) = None
      -> fst run = Done (Ret passed) /\ r_decoder (resp (snd run)) = None).
Proof.
  cbv zeta. unfold HTTPResponse_read.
  destruct (r_decoder (resp s)) eqn:Hd.
  - replace (bind _ _ s) with (WGHTTPResponse__decode data s)
      by (unfold bind, get_resp; rewrite Hd; reflexivity).
    destruct (decode_effect data s) as (A & B & C & D & E & F & G & H' & _).
    refine (conj A (conj B (conj C (conj D (conj E (conj F (conj G (conj H' _)))))))).
    intros [=].
  - set (s1 := set_resp (set_r_decoder
               (init_decoder (headers r !! "Content-Encoding"%string)) (resp s)) s).
    replace (bind _ _ s) with (WGHTTPResponse__decode data s1)
      by (unfold bind, get_resp; rewrite Hd; reflexivity).
    destruct (decode_effect data s1) as (A & B & C & D & E & F & G & H' & I).
    refine (conj A (conj B (conj C (conj D (conj E (conj F (conj G (conj H' _)))))))).
    intros _ Hinit. apply I. exact Hinit.
Qed.

Lemma raw_write_frame name data (s : State) :
  let run := raw_write name data s in
  hstat (snd run) = hstat s /\ resp (snd run) = resp s /\ trace (snd run) = trace s
  /\ count (snd run) = count s /\ unreachable_hosts (snd run) = unreachable_hosts s.
Proof.
  cbv zeta. unfold raw_write. msimpl.
  destruct (files (os s) !! name) as [[content mode mtime|]|]; msimpl; auto.
Qed.

Lemma file_flush_frame name (s : State) :
  let run := file_flush name s in
  hstat (snd run) = hstat s /\ resp (snd run) = resp s /\ trace (snd run) = trace s
  /\ count (snd run) = count s /\ unreachable_hosts (snd run) = unreachable_hosts s.
Proof.
  cbv zeta. unfold file_flush, raw_write. msimpl. mcases; auto.
Qed.

Lemma file_write_frame name chunk (s : State) :
  let run := file_write name chunk s in
  hstat (snd run) = hstat s /\ resp (snd run) = resp s /\ trace (snd run) = trace s
  /\ count (snd run) = count s /\ unreachable_hosts (snd run) = unreachable_hosts s.
Proof.
  cbv zeta. unfold file_write, file_flush, raw_write. msimpl. mcases; auto.
Qed.

Lemma bind_get_os {A} (k : OS -> M A) (s : State) : bind get_os k s = k (os s) s.
Proof. reflexivity. Qed.

Lemma raw_write_roomy name data d mode mtime (s : State) :
  files (os s) !! name = Some (File d mode mtime) -> disk_free (os s) = None ->
  raw_write name data s
  = (Done (Ret (Z.of_nat (length data))),
     set_os (set_files (<[name := File (d ++ data) mode mtime]> (files (os s)))
               (set_disk_free None (os s))) s).
Proof.
  intros Hd Hfree. unfold raw_write, room_for. rewrite bind_get_os, Hd. msimpl.
  rewrite Hfree, Nat2Z.id, firstn_all. reflexivity.
Qed.

Lemma file_flush_roomy name d buf mode mtime (s : State) :
  files (os s) !! name = Some (File d mode mtime) ->
  buffers (os s) !! name = Some buf ->
  disk_free (os s) = None ->
  exists s',
    file_flush name s = (Done (Ret tt), s')
    /\ files (os s') !! name = Some (File (d ++ buf) mode mtime)
    /\ buffers (os s') !! name = Some []
    /\ disk_free (os s') = None /\ buffer_size (os s') = buffer_size (os s)
    /\ hstat s' = hstat s.
Proof.
  intros Hd Hb Hfree. unfold file_flush. rewrite bind_get_os, Hb.
  destruct buf as [|b buf].
  - exists s. rewrite app_nil_r. repeat split; assumption.
  - rewrite (bind_ret_eq _ _ _ _ _ (raw_write_roomy name (b :: buf) d mode mtime s Hd Hfree)).
    msimpl. rewrite Z.ltb_irrefl. eexists. split; [reflexivity|]. cbn.
    rewrite !lookup_insert_eq, Nat2Z.id.
    change (S (length buf)) with (length (b :: buf)). rewrite skipn_all.
    repeat split.
Qed.

(** A write to the part file while the disk has room: the chunk is in the
    file or in its buffer afterwards. *)
Lemma file_write_roomy pf chunk content (s : State) :
  part_ready pf content s -> disk_free (os s) = None -> 0 < buffer_size (os s) ->
  exists s',
    file_write pf chunk s = (Done (Ret tt), s')
    /\ part_ready pf (content ++ chunk) s'
    /\ disk_free (os s') = None /\ buffer_size (os s') = buffer_size (os s).
Proof.
  intros (Hpf & Hmk & d & buf & Hd & Hb & ->) Hfree Hsize.
  assert (Hready : forall s' d' buf',
            hstat s' = hstat s -> files (os s') !! pf = Some (File d' 384 None) ->
            buffers (os s') !! pf = Some buf' -> d' ++ buf' = (d ++ buf) ++ chunk ->
            part_ready pf ((d ++ buf) ++ chunk) s').
  { intros s' d' buf' E1 E2 E3 E4. unfold part_ready. rewrite E1.
    split; [assumption|]. split; [assumption|]. exists d', buf'. auto. }
  unfold file_write. rewrite bind_get_os, Hb. cbv zeta.
  destruct (_ <=? _) eqn:Hfit.
  - msimpl. eexists. split; [reflexivity|]. split; [|cbn; auto].
    apply (Hready _ d (buf ++ chunk)); cbn;
      [reflexivity|exact Hd|apply lookup_insert_eq|apply app_assoc].
  - destruct (file_flush_roomy pf d buf 384 None s Hd Hb Hfree)
      as (s1 & Hflush & Hd1 & Hb1 & Hfree1 & Hsize1 & Hh1).
    rewrite (bind_ret_eq _ _ _ _ _ Hflush).
    destruct (_ >? _) eqn:Hbig.
    + rewrite (bind_ret_eq _ _ _ _ _ (raw_write_roomy pf chunk _ _ _ s1 Hd1 Hfree1)).
      rewrite Z.sub_diag. replace (0 >? buffer_size (os s)) with false by lia.
      msimpl. eexists. split; [reflexivity|]. cbn. split; [|auto].
      eapply Hready; cbn; [exact Hh1|apply lookup_insert_eq|apply lookup_insert_eq|].
      rewrite Nat2Z.id, skipn_all, app_nil_r. reflexivity.
    + unfold ret at 1. unfold bind at 1. rewrite Z.sub_0_r, Hbig.
      msimpl. eexists. split; [reflexivity|]. cbn. split; [|auto].
      eapply Hready; cbn; [exact Hh1|exact Hd1|apply lookup_insert_eq|].
      reflexivity.
Qed.

Lemma stream_loop_step r data items (s : State) chunk s1 :
  HTTPResponse_read r data s = (Done (Ret chunk), s1) ->
  stream_loop r (SData data :: items) s
  = match chunk with
    | [] => stream_loop r items s1
    | _ =>
        let s2 := set_hstat (set_bytes_read
                               (bytes_read (hstat s1) + last_read_length (resp s1))
                               (hstat s1)) s1 in
        match part_file (hstat s2) with
        | Some name =>
            match file_write name chunk s2 with
            | (Done (Ret _), s3) => stream_loop r items s3
            | (Done (Raise e), s3) => (Done (Raise e), s3)
            | (NoMoreInput, s3) => (NoMoreInput, s3)
            end
        | None => (Done (Raise AttributeError), s2)
        end
    end.
Proof.
  intros Hread. cbn [stream_loop]. rewrite (bind_ret_eq _ _ _ _ _ Hread).
  destruct chunk as [|b chunk]; [reflexivity|].
  munfold. cbn [hstat set_hstat part_file set_bytes_read].
  destruct (part_file (hstat s1)) as [name|]; reflexivity.
Qed.

(** An iteration of the streaming loop is the loop over one block. *)
Lemma stream_loop_cons r data items (s : State) :
  stream_loop r (SData data :: items) s
  = bind (stream_loop r [SData data]) (fun _ => stream_loop r items) s.
Proof.
  destruct (read_effect r data s) as ((chunk & Hout) & _).
  destruct (HTTPResponse_read r data s) as [o s1] eqn:Hread. cbn [fst] in Hout. subst o.
  unfold bind. rewrite !(stream_loop_step _ _ _ _ _ _ Hread).
  destruct chunk as [|b chunk]; [reflexivity|]. cbv zeta.
  destruct (part_file _) as [name|]; [|reflexivity].
  destruct (file_write name (b :: chunk) _) as [[[[]|e]|] s3]; reflexivity.
Qed.

(** The loop over one block: [bytes_read] grows by the number of bytes of
    the block that were not skipped when the block gives a chunk, and stays
    as it is when it gives none, as it does while the block is skipped. *)
Lemma stream_loop_block r data (s : State) :
  let read := HTTPResponse_read r data s in
  let run := stream_loop r [SData data] s in
  let passed := drop (Z.to_nat (bytes_to_skip (resp s))) data in
  exists chunk,
    fst read = Done (Ret chunk)
    /\ bytes_read (hstat (snd run))
       = bytes_read (hstat s) + match chunk with
                                | [] => 0
                                | _ => Z.of_nat (length passed)
                                end
    /\ (passed = [] -> chunk = [])
    /\ (r_decoder (resp s) = None
        -> init_decoder (headers r !! "Content-Encoding"%string) = None
        -> chunk = passed)
    /\ decoded_input (trace (snd run)) = decoded_input (trace s) ++ passed.
Proof.
  cbv zeta.
  destruct (read_effect r data s)
    as ((chunk & Hout) & Hlen & _ & Hdec & Hnil & Hh & _ & _ & Hid).
  destruct (HTTPResponse_read r data s) as [o s1] eqn:Hread. cbn [fst snd] in *.
  subst o. exists chunk. split; [reflexivity|].
  rewrite (stream_loop_step _ _ _ _ _ _ Hread).
  assert (Hempty : drop (Z.to_nat (bytes_to_skip (resp s))) data = [] -> chunk = []).
  { intros Hp. destruct (Hnil Hp) as [_ [=]]. assumption. }
  assert (Hident : r_decoder (resp s) = None
                   -> init_decoder (headers r !! "Content-Encoding"%string) = None
                   -> chunk = drop (Z.to_nat (bytes_to_skip (resp s))) data).
  { intros H1 H2. destruct (Hid H1 H2) as [[=] _]. assumption. }
  destruct chunk as [|b chunk].
  - cbn [stream_loop ret snd]. rewrite Hh, Z.add_0_r. auto.
  - cbv zeta.
    set (s2 := set_hstat _ s1).
    assert (Hb : bytes_read (hstat s2)
                 = bytes_read (hstat s)
                   + Z.of_nat (length (drop (Z.to_nat (bytes_to_skip (resp s))) data))).
    { subst s2. cbn. rewrite Hh, Hlen. reflexivity. }
    destruct (part_file (hstat s2)) as [name|]; [|cbn [snd]; auto].
    destruct (file_write_frame name (b :: chunk) s2) as (F1 & _ & F3 & _).
    destruct (file_write name (b :: chunk) s2) as [[[[]|e]|] s3];
      cbn [fst snd stream_loop] in *; unfold ret; cbn [snd]; rewrite F1, F3; auto.
Qed.

(** The streaming loop over the blocks of a body while the disk has room:
    every block is read, the decoder is handed the blocks less the bytes to
    skip, and [bytes_read] grows by no more than the number of these bytes,
    and by exactly this number when the body has no content coding. *)
Lemma stream_loop_blocks r blocks tail : forall pf content (s : State),
  part_ready pf content s -> disk_free (os s) = None -> 0 < buffer_size (os s) ->
  let skip := bytes_to_skip (resp s) in
  let passed := unskipped skip blocks in
  exists s' content',
    stream_loop r (map SData blocks ++ tail) s = stream_loop r tail s'
    /\ part_ready pf content' s'
    /\ disk_free (os s') = None /\ buffer_size (os s') = buffer_size (os s)
    /\ decoded_input (trace s') = decoded_input (trace s) ++ passed
    /\ bytes_read (hstat s) <= bytes_read (hstat s')
       <= bytes_read (hstat s) + Z.of_nat (length passed)
    /\ restval (hstat s') = restval (hstat s)
    /\ bytes_to_skip (resp s')
       = skip - Z.min (Z.of_nat (length (concat blocks))) (Z.max 0 skip)
    /\ quiet s s'
    /\ (r_decoder (resp s) = None
        -> init_decoder (headers r !! "Content-Encoding"%string) = None
        -> r_decoder (resp s') = None
           /\ bytes_read (hstat s') = bytes_read (hstat s) + Z.of_nat (length passed)
           /\ content' = content ++ passed).
Proof.
  induction blocks as [|data blocks IH]; intros pf content s Hready Hfree Hsize; cbv zeta.
  - exists s, content. unfold unskipped. cbn [concat map app]. rewrite drop_nil.
    cbn [length]. rewrite !app_nil_r, Z.add_0_r.
    repeat split; auto; try apply Hready; cbn; lia.
  - set (skip := bytes_to_skip (resp s)) in *.
    set (passed := drop (Z.to_nat skip) data).
    set (skip' := skip - Z.min (Z.of_nat (length data)) (Z.max 0 skip)).
    assert (Hw : unskipped skip (data :: blocks) = passed ++ unskipped skip' blocks).
    { unfold unskipped, passed, skip'. cbn [concat]. rewrite drop_app. f_equal. f_equal.
      lia. }
    rewrite Hw. rewrite length_app, Nat2Z.inj_add. cbn [map app concat].
    rewrite length_app, Nat2Z.inj_add.
    destruct (read_effect r data s)
      as ((chunk & Hout) & Hlen & Hskip & Hdec & Hnil & Hh & Ho & Hq & Hid).
    destruct (HTTPResponse_read r data s) as [o s1] eqn:Hread. cbn [fst snd] in *.
    subst o. fold skip in Hlen, Hskip, Hdec, Hnil, Hid. fold passed in Hlen, Hdec, Hnil, Hid.
    fold skip' in Hskip.
    rewrite (stream_loop_step _ _ _ _ _ _ Hread).
    assert (Hgo : forall s3 content3 (n : Z),
      part_ready pf content3 s3 -> disk_free (os s3) = None ->
      buffer_size (os s3) = buffer_size (os s) ->
      resp s3 = resp s1 -> trace s3 = trace s1 -> quiet s1 s3 ->
      bytes_read (hstat s3) = bytes_read (hstat s) + n -> 0 <= n <= Z.of_nat (length passed) ->
      restval (hstat s3) = restval (hstat s) ->
      (r_decoder (resp s) = None
       -> init_decoder (headers r !! "Content-Encoding"%string) = None
       -> n = Z.of_nat (length passed) /\ content3 = content ++ passed) ->
      exists s' content',
        stream_loop r (map SData blocks ++ tail) s3 = stream_loop r tail s'
        /\ part_ready pf content' s'
        /\ disk_free (os s') = None /\ buffer_size (os s') = buffer_size (os s)
        /\ decoded_input (trace s')
           = decoded_input (trace s) ++ passed ++ unskipped skip' blocks
        /\ bytes_read (hstat s) <= bytes_read (hstat s')
           <= bytes_read (hstat s)
              + (Z.of_nat (length passed) + Z.of_nat (length (unskipped skip' blocks)))
        /\ restval (hstat s') = restval (hstat s)
        /\ bytes_to_skip (resp s')
           = skip - Z.min (Z.of_nat (length data) + Z.of_nat (length (concat blocks)))
                      (Z.max 0 skip)
        /\ quiet s s'
        /\ (r_decoder (resp s) = None
            -> init_decoder (headers r !! "Content-Encoding"%string) = None
            -> r_decoder (resp s') = None
               /\ bytes_read (hstat s')
                  = bytes_read (hstat s)
                    + (Z.of_nat (length passed)
                       + Z.of_nat (length (unskipped skip' blocks)))
               /\ content' = content ++ passed ++ unskipped skip' blocks)).
    { intros s3 content3 n R3 F3 B3 E3 T3 Q3 N3 Nb V3 I3.
      assert (B3' : 0 < buffer_size (os s3)) by (rewrite B3; exact Hsize).
      pose proof (IH pf content3 s3 R3 F3 B3') as IH'. cbv zeta in IH'.
      rewrite E3, Hskip in IH'.
      destruct IH' as (s' & content' & L & R' & F' & B' & D' & N' & V' & K' & Q' & I').
      exists s', content'. split; [exact L|]. split; [exact R'|].
      split; [exact F'|]. split; [congruence|].
      split; [rewrite D', T3, Hdec, <- app_assoc; reflexivity|].
      split; [lia|]. split; [congruence|]. split; [rewrite K'; unfold skip'; lia|].
      split; [eapply quiet_trans; [exact Hq|]; eapply quiet_trans; eassumption|].
      intros H1 H2. destruct (I3 H1 H2) as [-> ->].
      destruct (Hid H1 H2) as [_ Hr1].
      destruct (I' Hr1 H2) as (A1 & A2 & A3).
      split; [exact A1|]. split; [lia|]. rewrite A3, <- app_assoc. reflexivity. }
    assert (Hready1 : part_ready pf content s1).
    { unfold part_ready. rewrite Hh, Ho. exact Hready. }
    destruct chunk as [|b chunk].
    + apply (Hgo s1 content 0); try reflexivity; try assumption; try congruence.
      * apply quiet_refl.
      * rewrite Hh. lia.
      * lia.
      * intros H1 H2. destruct (Hid H1 H2) as [[=Hp] _]. rewrite <- Hp, app_nil_r.
        split; reflexivity.
    + cbv zeta. set (s2 := set_hstat _ s1).
      assert (Hready2 : part_ready pf content s2) by exact Hready1.
      replace (part_file (hstat s2)) with (Some pf)
        by (symmetry; apply Hready2).
      assert (Hfree2 : disk_free (os s2) = None) by (cbn; congruence).
      assert (Hsize2 : 0 < buffer_size (os s2)) by (cbn; rewrite Ho; exact Hsize).
      destruct (file_write_roomy pf (b :: chunk) content s2 Hready2 Hfree2 Hsize2)
        as (s3 & Hwrite & R3 & F3 & B3).
      destruct (file_write_frame pf (b :: chunk) s2) as (W1 & W2 & W3 & W4 & W5).
      rewrite Hwrite in *. cbn [fst snd] in W1, W2, W3, W4, W5.
      apply (Hgo s3 (content ++ b :: chunk) (Z.of_nat (length passed))); try assumption.
      * cbn in B3. congruence.
      * unfold quiet. rewrite W3, W4, W5. repeat split.
      * rewrite W1. subst s2. cbn. rewrite Hh, Hlen. reflexivity.
      * lia.
      * rewrite W1. cbn. rewrite Hh. reflexivity.
      * intros H1 H2. destruct (Hid H1 H2) as [[=Hp] _]. rewrite Hp. split; reflexivity.
Qed.

End StreamFacts.

Section ProcessorFacts.
Context `{!PyLib}.

Lemma retrokf_set (doctype : Z) : (Z.land (Z.lor doctype RETROKF) RETROKF =? 0) = false.
Proof.
  apply Z.eqb_neq. intros Hz.
  assert (Hb : Z.testbit (Z.land (Z.lor doctype RETROKF) RETROKF) 1 = true).
  { rewrite Z.land_spec, Z.lor_spec. cbn. rewrite orb_true_r. reflexivity. }
  rewrite Hz in Hb. discriminate.
Qed.

(** The state in which [process_response] reaches the status tests. *)
Lemma range_error_unexpected url doctype r crange_parsed (s : State) :
  let contrange := match crange_parsed with Some (first, _, _) => first | None => 0 end in
  let code := default 0 (status r) in
  passes_header_checks r crange_parsed s ->
  200 <= code < 300 -> code <> 204 -> code <> 207 ->
  contrange <> 0 -> contrange <> restval (hstat s) ->
  let run := process_response url doctype r s in
  fst run = Done (Raise (WGRangeError (UnexpectedContentRange (restval (hstat s)) contrange)))
  /\ count (snd run) = count s /\ trace (snd run) = trace s
  /\ os (snd run) = os s /\ unreachable_hosts (snd run) = unreachable_hosts s.
Proof.
  intros contrange code (Hmp & Hparse & Henc) Hcode H204 H207 H0 Hrv run.
  destruct crange_parsed as [[[first last] len]|]; [|contradiction].
  subst run contrange. cbn beta iota in *.
  unfold process_response. rewrite Hmp. rewrite Hparse. msimpl.
  rewrite Henc. msimpl. fold code.
  replace ((200 <=? code) && (code <? 300) && negb (code =? 207)) with true
    by (symmetry; rewrite !andb_true_iff, negb_true_iff; repeat split;
        [apply Z.leb_le|apply Z.ltb_lt|apply Z.eqb_neq]; lia).
  replace (code =? 204) with false by (symmetry; apply Z.eqb_neq; lia).
  rewrite retrokf_set. msimpl.
  replace (code =? 416) with false by (symmetry; apply Z.eqb_neq; lia).
  replace (first =? 0) with false by (symmetry; apply Z.eqb_neq; lia).
  replace (first =? restval (hstat s)) with false by (symmetry; apply Z.eqb_neq; lia).
  rewrite andb_false_l.
  destruct (negb (code =? 200) || _); msimpl; repeat split; reflexivity.
Qed.

Lemma range_error_partial url doctype r crange_parsed (s : State) :
  let contrange := match crange_parsed with Some (first, _, _) => first | None => 0 end in
  passes_header_checks r crange_parsed s ->
  status r = Some 206 -> restval (hstat s) > 0 -> contrange = 0 ->
  let run := process_response url doctype r s in
  fst run = Done (Raise (WGRangeError (PartialContentButRange
                  match headers r !! "Content-Range"%string, crange_parsed with
                  | None, _ => CRNotProvided
                  | Some _, None => CRInvalid
                  | Some _, Some _ => CRZero
                  end)))
  /\ count (snd run) = count s /\ trace (snd run) = trace s
  /\ os (snd run) = os s /\ unreachable_hosts (snd run) = unreachable_hosts s.
Proof.
  intros contrange (Hmp & Hparse & Henc) Hcode Hrv H0 run.
  assert (Hgt : (restval (hstat s) >? 0) = true) by (apply Z.gtb_lt; lia).
  subst run. unfold process_response. rewrite Hmp. rewrite Hparse. msimpl.
  rewrite Henc. msimpl. rewrite Hcode. msimpl. rewrite retrokf_set. msimpl.
  rewrite Hgt.
  destruct crange_parsed as [[[first last] len]|]; cbn beta iota in *.
  - subst contrange. cbn beta iota in H0. subst first. msimpl.
    destruct (headers r !! "Content-Range"%string); msimpl; repeat split; reflexivity.
  - msimpl.
    destruct (headers r !! "Content-Range"%string); msimpl; repeat split; reflexivity.
Qed.

(** An exception of [gethttp] that is neither a urllib3 [HTTPError] nor a
    [WGUnreachableHostError] ends the retrieve loop. *)
Lemma the_loop_fatal att script url doctype rq dest_basename (s s1 : State) e :
  gethttp url doctype att (set_hstat (set_restval (bytes_read (hstat s)) (hstat s)) s)
  = (Done (Raise e), s1) ->
  match e with HTTPError _ | WGUnreachableHostError _ _ => False | _ => True end ->
  the_loop (att :: script) url doctype rq dest_basename s = (Done (Raise e), s1).
Proof.
  intros Hget He. cbn [the_loop]. munfold. rewrite Hget.
  destruct e; try contradiction; reflexivity.
Qed.


End ProcessorFacts.

Section SkipFacts.
Context `{!PyLib}.

#[local] Arguments prepare_stream : simpl never.
#[local] Arguments stream_body : simpl never.

(** [process_response] up to the streaming, for a response that reaches
    it. *)
Lemma process_response_streams url doctype r crange_parsed (s : State) :
  streams r crange_parsed s ->
  process_response url doctype r s
  = bind (prepare_stream (contrange_of crange_parsed))
      (fun _ => bind (stream_body url r)
         (fun _ => bind (modify_hstat (set_decoder None))
            (fun _ => ret (RETRFINISHED, Z.lor doctype RETROKF))))
      (set_hstat (noted r crange_parsed (hstat s)) s).
Proof.
  intros ((Hmp & Hparse & Henc) & Hok & H204 & Hacc).
  unfold range_accepted, shrunk in Hacc.
  apply andb_prop in Hacc as [Hacc H206]. apply andb_prop in Hacc as [Hshr Hrange].
  apply negb_true_iff in Hshr, H206.
  unfold process_response. rewrite Hmp. rewrite Hparse. msimpl.
  rewrite Henc. msimpl. unfold status_ok in Hok. rewrite Hok.
  rewrite (proj2 (Z.eqb_neq _ _) H204). rewrite retrokf_set. msimpl.
  unfold contlen_of, contrange_of in *.
  destruct crange_parsed as [[[first last] len]|]; cbn beta iota in *.
  - rewrite Hshr. msimpl. rewrite Hrange. msimpl. rewrite H206. reflexivity.
  - change (0 =? 0) with true in *. rewrite andb_true_r in H206.
    rewrite Hshr. msimpl. rewrite H206. reflexivity.
Qed.

(** [prepare_stream] sets the skip and makes sure the part file exists. *)
Lemma prepare_stream_ok contrange pf content (s : State) :
  r_decoder (resp s) = None ->
  part_state pf content s ->
  exists s',
    prepare_stream contrange s = (Done (Ret tt), s')
    /\ part_ready pf content s'
    /\ bytes_read (hstat s') = restval (hstat s)
    /\ restval (hstat s') = restval (hstat s)
    /\ bytes_to_skip (resp s')
       = (if (restval (hstat s) >? 0) && (contrange =? 0) then restval (hstat s) else 0)
    /\ r_decoder (resp s') = (if restval (hstat s) >? 0 then decoder (hstat s) else None)
    /\ disk_free (os s') = disk_free (os s)
    /\ buffer_size (os s') = buffer_size (os s)
    /\ trace s' = trace s.
Proof.
  intros Hr [[(pfx & dir_ & Hm & Hname & Hfree) ->]|Hready].
  - unfold prepare_stream, HttpStat_init_part_file, NamedTemporaryFile. msimpl.
    destruct ((restval (hstat s) >? 0) && (contrange =? 0)); msimpl; rewrite Hr; msimpl;
      (destruct (restval (hstat s) >? 0); msimpl; rewrite Hm; msimpl;
       rewrite <- Hname, Hfree; msimpl; eexists; (split; [reflexivity|]);
       cbn; repeat split; try reflexivity; try assumption;
       exists [], []; cbn; rewrite !lookup_insert_eq; repeat split).
  - pose proof Hready as (Hp & Hm & Hf).
    unfold prepare_stream, HttpStat_init_part_file. msimpl.
    destruct ((restval (hstat s) >? 0) && (contrange =? 0)); msimpl; rewrite Hr; msimpl;
      (destruct (restval (hstat s) >? 0); msimpl; rewrite Hm; msimpl;
       eexists; (split; [reflexivity|]);
       cbn; repeat split; try reflexivity; try assumption).
Qed.

(** The [except] clause of the streaming loop hands a urllib3 error on,
    and touches neither the count of bytes nor the files. *)
Lemma stream_error_handler_frame url k (s : State) :
  let run := stream_error_handler url (HTTPError k) s in
  fst run = Done (Raise (HTTPError k))
  /\ bytes_read (hstat (snd run)) = bytes_read (hstat s)
  /\ part_file (hstat (snd run)) = part_file (hstat s)
  /\ _make_part_file (hstat (snd run)) = _make_part_file (hstat s)
  /\ decoded_input (trace (snd run)) = decoded_input (trace s)
  /\ resp (snd run) = resp s
  /\ os (snd run) = os s.
Proof.
  cbv zeta. unfold stream_error_handler, RetryCounter_should_retry, TRY_LIMIT.
  destruct k as [|host port|]; msimpl;
    try (destruct (bytes_read (hstat s) =? restval (hstat s)); msimpl;
         [|destruct (count s <? 20); msimpl;
           [destruct (r_decoder (resp s)); msimpl|]]);
    rewrite ?decoded_input_app; unfold decoded_input; cbn; rewrite ?app_nil_r;
    repeat split; reflexivity.
Qed.

Lemma skip_of_nonneg crange_parsed restval : 0 <= skip_of crange_parsed restval.
Proof.
  unfold skip_of. destruct (Z.gtb_spec restval 0); cbn; [|lia].
  destruct (_ =? _); lia.
Qed.

(** [process_response] on a response that reaches the streaming loop,
    while the disk has room: the decoder is handed the body less its first
    [restval] bytes when the server ignored the range, and the whole body
    otherwise. *)
Lemma process_response_skips url doctype r crange_parsed blocks ending pf content
    (s : State) :
  streams r crange_parsed s ->
  r_decoder (resp s) = None ->
  part_state pf content s ->
  disk_free (os s) = None -> 0 < buffer_size (os s) ->
  body r = body_of blocks ending ->
  let run := process_response url doctype r s in
  let skip := skip_of crange_parsed (restval (hstat s)) in
  let passed := unskipped skip blocks in
  fst run = verdict_of doctype ending
  /\ decoded_input (trace (snd run)) = decoded_input (trace s) ++ passed
  /\ bytes_to_skip (resp (snd run))
     = skip - Z.min (Z.of_nat (length (concat blocks))) skip
  /\ restval (hstat s) <= bytes_read (hstat (snd run))
     <= restval (hstat s) + Z.of_nat (length passed)
  /\ (init_decoder (headers r !! "Content-Encoding"%string) = None ->
      (restval (hstat s) > 0 -> decoder (hstat s) = None) ->
      bytes_read (hstat (snd run)) = restval (hstat s) + Z.of_nat (length passed)
      /\ part_ready pf (content ++ passed) (snd run)).
Proof.
  intros Hstreams Hr Hps Hfree Hsize Hbody run skip0 passed.
  set (s0 := set_hstat (noted r crange_parsed (hstat s)) s).
  assert (Hps0 : part_state pf content s0) by exact Hps.
  destruct (prepare_stream_ok (contrange_of crange_parsed) pf content s0 Hr Hps0)
    as (s1 & Hprep & Hready1 & Hb1 & Hv1 & Hskip1 & Hr1 & Hfree1 & Hsize1 & Ht1).
  change (restval (hstat s0)) with (restval (hstat s)) in *.
  change (decoder (hstat s0)) with (decoder (hstat s)) in *.
  change (os s0) with (os s) in *. change (trace s0) with (trace s) in *.
  fold (skip_of crange_parsed (restval (hstat s))) in Hskip1. fold skip0 in Hskip1.
  pose proof (skip_of_nonneg crange_parsed (restval (hstat s))) as Hnn. fold skip0 in Hnn.
  assert (Hfree1' : disk_free (os s1) = None) by congruence.
  assert (Hsize1' : 0 < buffer_size (os s1)) by (rewrite Hsize1; exact Hsize).
  destruct (stream_loop_blocks r blocks
              (match ending with Some k => [SError k] | None => [] end)
              pf content s1 Hready1 Hfree1' Hsize1')
    as (s2 & content2 & Hloop & Hready2 & _ & _ & Hdec2 & Hb2 & Hv2 & Hskip2 & _ & Hid2).
  rewrite Hskip1 in Hdec2, Hb2, Hskip2, Hid2. rewrite Hb1 in Hb2, Hid2. rewrite Ht1 in Hdec2.
  rewrite Z.max_r in Hskip2 by exact Hnn. fold passed in Hdec2, Hb2, Hid2.
  assert (Hident : init_decoder (headers r !! "Content-Encoding"%string) = None ->
                   (restval (hstat s) > 0 -> decoder (hstat s) = None) ->
                   bytes_read (hstat s2) = restval (hstat s) + Z.of_nat (length passed)
                   /\ content2 = content ++ passed).
  { intros Hinit Hd. apply Hid2; [|exact Hinit]. rewrite Hr1.
    destruct (Z.gtb_spec (restval (hstat s)) 0); [apply Hd; lia|reflexivity]. }
  assert (Hend : exists s3,
            run = (verdict_of doctype ending, s3)
            /\ bytes_read (hstat s3) = bytes_read (hstat s2)
            /\ part_file (hstat s3) = part_file (hstat s2)
            /\ _make_part_file (hstat s3) = _make_part_file (hstat s2)
            /\ decoded_input (trace s3) = decoded_input (trace s2)
            /\ resp s3 = resp s2 /\ os s3 = os s2).
  { subst run. rewrite (process_response_streams _ _ _ _ _ Hstreams). fold s0.
    rewrite (bind_ret_eq _ _ _ _ _ Hprep).
    unfold stream_body, try_except. rewrite Hbody. unfold body_of.
    unfold bind at 1. rewrite Hloop.
    destruct ending as [k|]; cbn [stream_loop verdict_of].
    - unfold raise at 1.
      destruct (stream_error_handler_frame url k s2) as (E1 & E).
      destruct (stream_error_handler url (HTTPError k) s2) as [o s3]. cbn [fst snd] in *.
      subst o. exists s3. split; [reflexivity|exact E].
    - munfold. eexists. split; [reflexivity|]. cbn. repeat split. }
  destruct Hend as (s3 & -> & E2 & E3 & E4 & E5 & E6 & E7). cbn [fst snd].
  rewrite E2, E5, E6.
  split; [reflexivity|]. split; [exact Hdec2|]. split; [exact Hskip2|].
  split; [exact Hb2|].
  intros Hinit Hd. destruct (Hident Hinit Hd) as [A1 A2]. split; [exact A1|].
  subst content2. unfold part_ready. rewrite E3, E4, E7. exact Hready2.
Qed.


End SkipFacts.

Section RegistryFacts.
Context `{!PyLib}.

Lemma grows_ret {A} (a : A) : grows (ret a).
Proof. intros s. reflexivity. Qed.

Lemma grows_raise {A} e : grows (@raise _ A e).
Proof. intros s. reflexivity. Qed.

Lemma grows_no_more_input {A} : grows (@no_more_input _ A).
Proof. intros s. reflexivity. Qed.

Lemma grows_lift {A} (r : result A) : grows (lift r).
Proof. intros s. reflexivity. Qed.

Lemma grows_get : grows get.
Proof. intros s. reflexivity. Qed.

Lemma grows_get_hstat : grows get_hstat.
Proof. intros s. reflexivity. Qed.

Lemma grows_get_resp : grows get_resp.
Proof. intros s. reflexivity. Qed.

Lemma grows_get_os : grows get_os.
Proof. intros s. reflexivity. Qed.

Lemma grows_modify f :
  (forall s : State, unreachable_hosts s ⊆ unreachable_hosts (f s)) -> grows (modify f).
Proof. intros Hf s. apply Hf. Qed.

Lemma grows_modify_hstat f : grows (modify_hstat f).
Proof. intros s. reflexivity. Qed.

Lemma grows_modify_resp f : grows (modify_resp f).
Proof. intros s. reflexivity. Qed.

Lemma grows_modify_os f : grows (modify_os f).
Proof. intros s. reflexivity. Qed.

Lemma grows_emit ev : grows (emit ev).
Proof. intros s. reflexivity. Qed.

Lemma grows_bind {A B} (m : M A) (k : A -> M B) :
  grows m -> (forall a, grows (k a)) -> grows (bind m k).
Proof.
  intros Hm Hk s. unfold bind. specialize (Hm s).
  destruct (m s) as [[[a|e]|] s1]; cbn [snd] in *; [|assumption..].
  etransitivity; [exact Hm|apply Hk].
Qed.

Lemma grows_try_except {A} (m : M A) handler :
  grows m -> (forall e, grows (handler e)) -> grows (try_except m handler).
Proof.
  intros Hm Hh s. unfold try_except. specialize (Hm s).
  destruct (m s) as [[[a|e]|] s1]; cbn [snd] in *; [assumption| |assumption].
  etransitivity; [exact Hm|apply Hh].
Qed.

Lemma grows_try_finally {A} (m : M A) f :
  grows m -> grows f -> grows (try_finally m f).
Proof.
  intros Hm Hf s. unfold try_finally. specialize (Hm s).
  destruct (m s) as [[r|] s1]; cbn [snd] in *; [|assumption].
  specialize (Hf s1). destruct (f s1) as [[[[]|e]|] s2]; cbn [snd] in *;
    (etransitivity; [exact Hm|exact Hf]).
Qed.

End RegistryFacts.

Create HintDb grows.

#[local] Hint Resolve grows_ret grows_raise grows_no_more_input grows_lift grows_get
  grows_get_hstat grows_get_resp grows_get_os grows_modify_hstat grows_modify_resp
  grows_modify_os grows_emit : grows.

(** Goes through a computation built from the monad's operations. *)
Ltac grows_step :=
  match goal with
  | |- grows (bind _ _) => apply grows_bind; [|intros]
  | |- grows (try_except _ _) => apply grows_try_except; [|intros]
  | |- grows (try_finally _ _) => apply grows_try_finally
  | |- grows (match ?x with _ => _ end) => destruct x
  | |- grows (let (_, _) := ?x in _) => destruct x
  | |- grows _ => solve [auto with grows]
  end.

Ltac grows_auto := repeat grows_step.

Section RegistryGrows.
Context `{!PyLib}.

Lemma grows_pool_init scheme host port : grows (WGHTTPConnectionPool_init scheme host port).
Proof. unfold WGHTTPConnectionPool_init. grows_auto. Qed.

Lemma grows_should_retry : grows RetryCounter_should_retry.
Proof. unfold RetryCounter_should_retry. grows_auto. Qed.

Lemma grows_increment args : grows (RetryCounter_increment args).
Proof.
  pose proof grows_should_retry.
  unfold RetryCounter_increment, Logger_warn, Logger_info.
  grows_auto; apply grows_modify; reflexivity.
Qed.

Lemma grows_read r data : grows (HTTPResponse_read r data).
Proof.
  unfold HTTPResponse_read, WGHTTPResponse__decode, HTTPResponse__decode. grows_auto.
Qed.

Lemma grows_raw_write name data : grows (raw_write name data).
Proof. unfold raw_write. grows_auto. Qed.

Lemma grows_file_flush name : grows (file_flush name).
Proof. pose proof grows_raw_write. unfold file_flush. grows_auto. Qed.

Lemma grows_file_write name chunk : grows (file_write name chunk).
Proof.
  pose proof grows_raw_write. pose proof grows_file_flush.
  unfold file_write. cbv zeta. grows_auto.
Qed.

Lemma grows_file_close name : grows (file_close name).
Proof. pose proof grows_file_flush. unfold file_close. grows_auto. Qed.

Lemma grows_init_part_file : grows HttpStat_init_part_file.
Proof. unfold HttpStat_init_part_file, NamedTemporaryFile. grows_auto. Qed.

Lemma grows_stream_loop r items : grows (stream_loop r items).
Proof.
  pose proof grows_read. pose proof grows_file_write.
  induction items as [|[data|k] items IH]; cbn [stream_loop]; grows_auto.
Qed.

Lemma grows_stream_body url r : grows (stream_body url r).
Proof.
  pose proof grows_stream_loop. pose proof grows_should_retry.
  unfold stream_body, stream_error_handler, Logger_warn. grows_auto.
Qed.

Lemma grows_prepare_stream contrange : grows (prepare_stream contrange).
Proof. pose proof grows_init_part_file. unfold prepare_stream. grows_auto. Qed.

Lemma grows_process_response url doctype r : grows (process_response url doctype r).
Proof.
  pose proof grows_increment. pose proof grows_prepare_stream.
  pose proof grows_stream_body.
  unfold process_response. grows_auto.
  apply grows_modify. intros s. cbn. set_solver.
Qed.

Lemma grows_new_pool pool : grows (new_pool pool).
Proof. pose proof grows_pool_init. unfold new_pool. grows_auto. Qed.

Lemma grows_follow range_from hops : grows (follow range_from hops).
Proof.
  pose proof grows_new_pool.
  induction hops as [|hop hops IH]; cbn [follow]; grows_auto.
Qed.

Lemma grows_poolman_request url range_from rt : grows (poolman_request url range_from rt).
Proof.
  pose proof grows_new_pool. pose proof grows_follow.
  unfold poolman_request. grows_auto.
Qed.

Lemma grows_urlopen url range_from att : grows (urlopen url range_from att).
Proof.
  pose proof grows_poolman_request.
  assert (forall outages rt final, grows (urlopen_loop url range_from outages rt final)).
  { induction outages as [|k outages IH]; intros rt final; cbn [urlopen_loop];
      grows_auto.
    apply grows_modify. reflexivity. }
  unfold urlopen. grows_auto.
Qed.

Lemma grows_gethttp url doctype att : grows (gethttp url doctype att).
Proof.
  pose proof grows_urlopen. pose proof grows_process_response.
  unfold gethttp. grows_auto.
Qed.

Lemma grows_finalize url rq dest_basename : grows (finalize url rq dest_basename).
Proof.
  pose proof grows_file_flush. pose proof grows_file_close.
  unfold finalize, file_chmod, Logger_warn, touch, os_replace. grows_auto.
Qed.

Lemma grows_the_loop script : forall url doctype rq dest_basename,
  grows (the_loop script url doctype rq dest_basename).
Proof.
  pose proof grows_gethttp. pose proof grows_increment. pose proof grows_finalize.
  induction script as [|att script IH]; intros url doctype rq b; cbn [the_loop];
    grows_auto; try apply IH.
  apply grows_modify. intros s. cbn. set_solver.
Qed.

Lemma grows_retrieve_loop rq script : grows (_retrieve_loop rq script).
Proof.
  pose proof grows_the_loop.
  unfold _retrieve_loop, os_open, RetryCounter_init. grows_auto.
  apply grows_modify. reflexivity.
Qed.

Lemma grows_call rq script : grows (WgetRetrieveWrapper_call rq script).
Proof.
  pose proof grows_retrieve_loop. pose proof grows_file_close.
  unfold WgetRetrieveWrapper_call, _close_part, os_close, try_unlink.
  grows_auto. apply grows_modify. reflexivity.
Qed.

Lemma run_retrievals_grows calls : forall s : State,
  unreachable_hosts s ⊆ unreachable_hosts (run_retrievals calls s).
Proof.
  induction calls as [|[rq script] calls IH]; intros s; [reflexivity|].
  cbn. etransitivity; [apply grows_call|apply IH].
Qed.

Lemma pool_init_condemned scheme host port (s : State) :
  normalized_host (Some scheme) host port ∈ unreachable_hosts s ->
  WGHTTPConnectionPool_init scheme host port s
  = (Done (Raise (WGUnreachableHostError false (normalized_host (Some scheme) host port))),
     s).
Proof.
  intros Hin. unfold WGHTTPConnectionPool_init. msimpl.
  rewrite bool_decide_eq_true_2 by assumption. reflexivity.
Qed.

Lemma retrieval_condemned rq script (s : State) :
  u_scheme (urlsplit (req_url rq)) ∈ ["http"%string; "https"%string] ->
  normalized_host_from_url (req_url rq) ∈ unreachable_hosts s ->
  WgetRetrieveWrapper_call rq script s
  = (Done (Raise (WGUnreachableHostError true (normalized_host_from_url (req_url rq)))),
     set_hstat HttpStat_init s).
Proof.
  intros Hscheme Hin. unfold WgetRetrieveWrapper_call, _retrieve_loop. munfold.
  rewrite bool_decide_eq_true_2 by assumption. cbn [negb].
  cbn [unreachable_hosts set_hstat].
  rewrite bool_decide_eq_true_2 by assumption.
  reflexivity.
Qed.

(** C6.  No retrieval removes a host from the registry.  Once an authority
    is in the registry it stays there through every later retrieval, and
    from then on the construction of a pool for it raises
    [WGUnreachableHostError] and leaves the state as it is, and a retrieval
    of an http or https URL of that authority raises
    [WGUnreachableHostError] before anything but the new [HttpStat] is
    touched: no request is sent, no file or handle is opened. *)
Theorem condemned_hosts_stay_condemned :
  (forall calls (s : State),
     unreachable_hosts s ⊆ unreachable_hosts (run_retrievals calls s))
  /\ (forall authority calls (s : State),
        authority ∈ unreachable_hosts s ->
        let s' := run_retrievals calls s in
        authority ∈ unreachable_hosts s'
        /\ (forall scheme host port,
              normalized_host (Some scheme) host port = authority ->
              WGHTTPConnectionPool_init scheme host port s'
              = (Done (Raise (WGUnreachableHostError false authority)), s'))
        /\ (forall rq script,
              u_scheme (urlsplit (req_url rq)) ∈ ["http"%string; "https"%string] ->
              normalized_host_from_url (req_url rq) = authority ->
              let run := WgetRetrieveWrapper_call rq script s' in
              fst run = Done (Raise (WGUnreachableHostError true authority))
              /\ trace (snd run) = trace s' /\ os (snd run) = os s'
              /\ unreachable_hosts (snd run) = unreachable_hosts s')).
Proof.
  split; [intros; apply run_retrievals_grows|].
  intros authority calls s Hin s'.
  assert (Hin' : authority ∈ unreachable_hosts s')
    by (apply (run_retrievals_grows calls s), Hin).
  split; [exact Hin'|]. split.
  - intros scheme host port <-. apply pool_init_condemned, Hin'.
  - intros rq script Hscheme <- run. subst run.
    rewrite (retrieval_condemned rq script s' Hscheme Hin').
    repeat split; reflexivity.
Qed.

End RegistryGrows.

Section StreamErrorFacts.
Context `{!PyLib}.

(** What the [except] clause does with a read or write error. *)
Lemma stream_error_handler_spec url e (s : State) :
  stream_error e ->
  let run := stream_error_handler url e s in
  fst run = Done (Raise e)
  /\ count (snd run) = count s
  /\ sleeps (trace (snd run)) = sleeps (trace s)
  /\ os (snd run) = os s
  /\ decoder (hstat (snd run))
     = (if (bytes_read (hstat s) =? restval (hstat s)) || negb (count s <? 20)
        then decoder (hstat s)
        else match r_decoder (resp s) with
             | Some d => Some d
             | None => decoder (hstat s)
             end).
Proof.
  intros He. cbv zeta.
  unfold stream_error_handler, RetryCounter_should_retry, TRY_LIMIT.
  destruct e as [[| |]| | | | | | | | | | |]; try contradiction; msimpl;
    (destruct (bytes_read (hstat s) =? restval (hstat s)); msimpl;
     [|destruct (count s <? 20); msimpl;
       [destruct (r_decoder (resp s)); msimpl|]]);
    rewrite ?sleeps_app; unfold sleeps; cbn; rewrite ?app_nil_r;
    repeat split; reflexivity.
Qed.

(** A urllib3 error of [gethttp] other than a retry limit or a connect
    timeout costs one retry slot, and the loop goes on with the next
    attempt when the slot was not the last. *)
Lemma the_loop_retries att script url doctype rq dest_basename (s : State) :
  let s1 := snd (gethttp url doctype att (attempt_entry s)) in
  let s2 := snd (RetryCounter_increment
                   [VStr url; VHttpStat; VRepr (HTTPError ProtocolError)] s1) in
  fst (gethttp url doctype att (attempt_entry s)) = Done (Raise (HTTPError ProtocolError)) ->
  count s1 + 1 < 20 ->
  the_loop (att :: script) url doctype rq dest_basename s
  = the_loop script (default url (current_url (hstat s1))) doctype rq dest_basename s2
  /\ count s2 = count s1 + 1.
Proof.
  intros s1 s2 Hget Hlt. subst s2.
  split; [|rewrite (increment_below _ _ s1 Hlt); reflexivity].
  cbn [the_loop]. munfold. fold (attempt_entry s).
  rewrite (surjective_pairing (gethttp url doctype att (attempt_entry s))).
  rewrite Hget. fold s1. cbv beta iota.
  rewrite (increment_below _ _ s1 Hlt). reflexivity.
Qed.

Lemma the_loop_gives_up att script url doctype rq dest_basename (s : State) :
  let s1 := snd (gethttp url doctype att (attempt_entry s)) in
  fst (gethttp url doctype att (attempt_entry s)) = Done (Raise (HTTPError ProtocolError)) ->
  20 <= count s1 + 1 ->
  fst (the_loop (att :: script) url doctype rq dest_basename s)
  = Done (Raise WGMaxRetryError).
Proof.
  intros s1 Hget Hge.
  cbn [the_loop]. munfold. fold (attempt_entry s).
  rewrite (surjective_pairing (gethttp url doctype att (attempt_entry s))).
  rewrite Hget. fold s1. cbv beta iota.
  rewrite (increment_exhausted _ _ s1 Hge). reflexivity.
Qed.


End StreamErrorFacts.

Section EntryPointFacts.
Context `{!PyLib}.

(** [part_file.close()]: the file object is closed whether the flush
    fails or not, and the only error is the [OSError] of the flush. *)
Lemma file_close_effect name (s : State) :
  let run := file_close name s in
  hstat (snd run) = hstat s
  /\ open_fds (os (snd run)) = open_fds (os s)
  /\ (buffers (os s) !! name = None -> run = (Done (Ret tt), s))
  /\ (buffers (os s) !! name <> None ->
      (name ∉ open_files (os (snd run))) /\ buffers (os (snd run)) !! name = None)
  /\ (fst run = Done (Ret tt) \/ fst run = Done (Raise OSError)).
Proof.
  cbv zeta. unfold file_close. rewrite bind_get_os.
  destruct (buffers (os s) !! name) as [buf|] eqn:Hb.
  - assert (Hflush : exists r s1,
              file_flush name s = (Done r, s1) /\ hstat s1 = hstat s
              /\ open_fds (os s1) = open_fds (os s)
              /\ (r = Ret tt \/ r = Raise OSError)).
    { unfold file_flush, raw_write. rewrite bind_get_os, Hb.
      destruct buf as [|b buf]; [exists (Ret tt), s; auto|].
      msimpl.
      destruct (files (os s) !! name) as [[content mode mtime|]|]; msimpl;
        try (eexists _, _; split; [reflexivity|]; auto).
      destruct (_ <? _); eexists _, _; (split; [reflexivity|]); auto. }
    unfold try_finally, modify_os, modify.
    destruct Hflush as (r & s1 & -> & Hh & Hfd & Hr).
    cbn [fst snd hstat os set_os open_fds open_files buffers set_open_files set_buffers].
    split; [exact Hh|]. split; [exact Hfd|]. split; [discriminate|].
    split; [|destruct Hr as [-> | ->]; auto].
    intros _. split; [|apply lookup_delete_eq].
    intros [_ Hout]%elem_of_difference. apply Hout, elem_of_singleton. reflexivity.
  - cbn. repeat split; auto; intros []; reflexivity.
Qed.

#[local] Arguments file_close : simpl never.

(** What the [finally] block of the entry point does: whatever the retrieve
    loop did, the directory handle it left open is closed, and the part file
    it left in [hstat.part_file] is closed and, unless closing it fails,
    unlinked.  When closing fails, with the [OSError] of a flush that finds
    the disk full, the retrieval ends with this error and the file is not
    unlinked. *)
Lemma entry_point_cleanup rq script (s : State) :
  let loop := _retrieve_loop rq script (set_hstat HttpStat_init s) in
  let run := WgetRetrieveWrapper_call rq script s in
  fst loop <> NoMoreInput ->
  dest_dir (hstat (snd run)) = None
  /\ part_file (hstat (snd run)) = None
  /\ (forall fd, dest_dir (hstat (snd loop)) = Some fd -> fd ∉ open_fds (os (snd run)))
  /\ (forall name, part_file (hstat (snd loop)) = Some name ->
        (buffers (os (snd loop)) !! name <> None ->
         (name ∉ open_files (os (snd run))) /\ buffers (os (snd run)) !! name = None)
        /\ (files (os (snd run)) !! name = None \/ fst run = Done (Raise OSError))).
Proof.
  cbv zeta. unfold WgetRetrieveWrapper_call, _close_part, os_close, try_unlink. munfold.
  destruct (_retrieve_loop rq script (set_hstat HttpStat_init s)) as [[r|] s1];
    cbn [fst snd]; [intros _|congruence].
  destruct (dest_dir (hstat s1)) as [fd|] eqn:Hd;
    destruct (part_file (hstat s1)) as [name|] eqn:Hp; cbn;
    rewrite ?Hp; cbn; rewrite ?Hp; cbn;
    try match goal with
        | |- context [file_close ?n ?st] =>
            destruct (file_close_effect n st) as (Ch & Cfd & _ & Copen & Cres);
            cbv zeta in Ch, Cfd, Copen, Cres;
            destruct (file_close n st) as [o s3]; cbn [fst snd] in Ch, Cfd, Copen, Cres;
            cbn [hstat os set_hstat set_os open_fds set_open_fds buffers] in Ch, Cfd, Copen;
            destruct Cres as [-> | ->]
        end;
    (destruct r; cbn [fst snd hstat os set_hstat set_os dest_dir part_file set_dest_dir
                      set_part_file files open_fds open_files set_files set_open_fds
                      set_open_files buffers];
     rewrite ?Ch, ?Cfd;
     cbn [fst snd hstat os set_hstat set_os dest_dir part_file set_dest_dir
          set_part_file files open_fds open_files set_files set_open_fds
          set_open_files buffers];
     (split; [first [reflexivity|assumption]|]);
     (split; [first [reflexivity|assumption]|]);
     (split;
      [intros fd' Hfd; simplify_eq;
       intros [_ Hout]%elem_of_difference; apply Hout, elem_of_singleton; reflexivity
      |intros name' Hn; simplify_eq;
       (split; [exact Copen|]);
       first [left; apply lookup_delete_eq|right; reflexivity]])).
Qed.

End EntryPointFacts.

(** * The theorems at concrete inputs *)

Module Scenarios.
Import Fixture.
#[local] Existing Instance ex_lib.
Local Open Scope string_scope.



(** The theorem at a process that condemned [cf:443], after one retrieval
    from another host: a retrieval of [https://cf/e.html] raises
    [WGUnreachableHostError] and sends no request. *)
Lemma condemned_hosts_witness :
  "cf:443" ∈ unreachable_hosts s_condemned
  /\ u_scheme (urlsplit (req_url rq_cf)) ∈ ["http"; "https"]
  /\ normalized_host_from_url (req_url rq_cf) = "cf:443"
  /\ let s' := run_retrievals [(rq, [attempt (response 200 (Some 5) [SData hello])])]
                 s_condemned in
     fst (WgetRetrieveWrapper_call rq_cf [attempt (response 200 None [])] s')
     = Done (Raise (WGUnreachableHostError true "cf:443"))
     /\ trace (snd (WgetRetrieveWrapper_call rq_cf [attempt (response 200 None [])] s'))
        = trace s'.
Proof.
  assert (H1 : "cf:443" ∈ unreachable_hosts s_condemned) by (vm_compute; set_solver).
  assert (H2 : u_scheme (urlsplit (req_url rq_cf)) ∈ ["http"; "https"])
    by (vm_compute; set_solver).
  assert (H3 : normalized_host_from_url (req_url rq_cf) = "cf:443") by reflexivity.
  split; [exact H1|]. split; [exact H2|]. split; [exact H3|].
  destruct condemned_hosts_stay_condemned as [_ H].
  destruct (H "cf:443" [(rq, [attempt (response 200 (Some 5) [SData hello])])]
              s_condemned H1) as (_ & _ & Hcall).
  destruct (Hcall rq_cf [attempt (response 200 None [])] H2 H3) as (Hr & Ht & _).
  split; [exact Hr|exact Ht].
Defined.



(** C1.  The destination [a.bin] is an existing directory.  The download
    succeeds, the part file is closed and [hstat.part_file] reset, then
    [os.replace] fails: the retrieval raises [OSError], the directory handle
    is closed, and the temporary file is still in the directory. *)
Theorem failed_rename_leaves_part_file :
  let run := WgetRetrieveWrapper_call rq [attempt (response 200 (Some 5) [SData hello])]
               s_dest_is_dir in
  fst run = Done (Raise OSError)
  /\ elements (open_fds (os (snd run))) = []
  /\ part_file (hstat (snd run)) = None
  /\ map_to_list (files (os (snd run)))
     = [("a.bin", Directory); (".a.bin.tmp0", File hello 420 None)].
Proof. vm_compute. repeat split; reflexivity. Qed.

(** C2.  A call of [increment] with two arguments raises [TypeError] and
    changes nothing.  So a resumed attempt ([restval] 2) whose response is
    shorter than the restart point, or whose [Content-Encoding] differs,
    sets [restval] to 0 and then raises [TypeError]: no retry slot is
    consumed and no verdict is returned.  A 416 response does not reach
    the shrink test: it raises [WGWrongCodeError].  A retrieval whose second
    attempt finds the file shorter ends with [TypeError]. *)
Theorem restart_raises_type_error :
  (forall a b (s : State), RetryCounter_increment [a; b] s = (Done (Raise TypeError), s))
  /\ (let run := process_response "http://ex/a.bin" 0 (response 200 (Some 1) [SData hello])
                   s_resumed in
      fst run = Done (Raise TypeError)
      /\ restval (hstat (snd run)) = 0 /\ count (snd run) = count s_resumed)
  /\ (let run := process_response "http://ex/a.bin" 0 (encoded "gzip") s_resumed in
      fst run = Done (Raise TypeError)
      /\ restval (hstat (snd run)) = 0 /\ count (snd run) = count s_resumed)
  /\ fst (process_response "http://ex/a.bin" 0 (response 416 (Some 0) []) s_resumed)
     = Done (Raise (WGWrongCodeError 416))
  /\ (let run := WgetRetrieveWrapper_call rq
                   [attempt dropped; attempt (response 200 (Some 3) [SData hello])] s0 in
      fst run = Done (Raise TypeError) /\ map_to_list (files (os (snd run))) = []).
Proof.
  split; [reflexivity|]. vm_compute. repeat split; reflexivity.
Qed.

(** C5.  For a 204 response [process_response] sets [bytes_read] and
    [restval] to 0 and returns [RETRFINISHED] with the OK flag set; it
    returns before the part file is created.  The retrieve loop then fails
    its assertion that the part file exists: the retrieval raises
    [AssertionError] and the directory holds no file. *)
Theorem no_content_fails_assertion :
  (let run := process_response "http://ex/a.bin" 0 (response 204 (Some 0) [])
                (attempt_entry s_armed) in
   fst run = Done (Ret (RETRFINISHED, 2))
   /\ bytes_read (hstat (snd run)) = 0 /\ restval (hstat (snd run)) = 0
   /\ part_file (hstat (snd run)) = None)
  /\ (let run := WgetRetrieveWrapper_call rq [attempt (response 204 (Some 0) [])] s0 in
      fst run = Done (Raise AssertionError)
      /\ map_to_list (files (os (snd run))) = []).
Proof. vm_compute. repeat split; reflexivity. Qed.

End Scenarios.

(** * Further properties of the parser *)

Module CRangeMoreFacts.
Import PyStr CRange CRangeSpec CRangeMore CRangeFacts.

Lemma ascii_plain s : is_ascii s -> plain_digits s.
Proof.
  unfold is_ascii, plain_digits. intros H. eapply Forall_impl; [exact H|].
  intros c Hc. cbv beta in *.
  unfold isdigit, is_decimal. cbv zeta.
  destruct (N.eqb_spec (N_of_ascii c) 178); [lia|].
  destruct (N.eqb_spec (N_of_ascii c) 179); [lia|].
  destruct (N.eqb_spec (N_of_ascii c) 185); [lia|].
  rewrite !orb_false_r. reflexivity.
Qed.

Lemma digits_loop_plain l : forall acc,
  plain_digits l -> exists rest n, digits_loop l acc = Ret (rest, n).
Proof.
  induction l as [|c l IH]; intros acc Hl; simpl; [eauto|].
  inversion Hl as [|? ? Hc Hl']; subst.
  destruct (isdigit c) eqn:Hd; [|eauto].
  rewrite decimal_int by congruence. apply IH, Hl'.
Qed.

Lemma plain_digits_suffix l1 l2 : plain_digits (l1 ++ l2) -> plain_digits l2.
Proof. unfold plain_digits. rewrite Forall_app. tauto. Qed.

Lemma parse_range_spec_plain hdrc :
  plain_digits hdrc -> exists v, parse_range_spec hdrc = Ret v.
Proof.
  intros Hp. unfold parse_range_spec.
  destruct (parse_crange_num hdrc "-") as [[hdrc1 f]|e] eqn:E1.
  2: { apply parse_crange_num_raises in E1 as ->. eauto. }
  destruct (parse_crange_num hdrc1 "/") as [[hdrc2 l]|e] eqn:E2.
  2: { apply parse_crange_num_raises in E2 as ->. eauto. }
  apply parse_crange_num_inv in E1 as (d1 & -> & _ & _).
  apply parse_crange_num_inv in E2 as (d2 & -> & _ & _).
  assert (Hp2 : plain_digits hdrc2).
  { apply plain_digits_suffix in Hp. inversion Hp as [|? ? _ Hp1]; subst.
    apply plain_digits_suffix in Hp1. inversion Hp1; assumption. }
  cbv zeta. destruct (at_char hdrc2 "*").
  - destruct (_ || _); eauto.
  - destruct (digits_loop_plain hdrc2 0 Hp2) as (rest & n & ->).
    destruct (_ || _); eauto.
Qed.

Lemma plain_digits_drop n s : plain_digits s -> plain_digits (skipn n s).
Proof.
  intros H. rewrite <- (take_drop n s) in H. apply plain_digits_suffix in H. exact H.
Qed.

Lemma plain_digits_lstrip s : plain_digits s -> plain_digits (lstrip s).
Proof.
  intros H. destruct (lstrip_split s) as (ws & Hs & _).
  rewrite Hs in H. apply plain_digits_suffix in H. exact H.
Qed.

(** X1.  The parser returns, with a triple or with null, for every header
    that holds none of the three characters U+00B2, U+00B3 and U+00B9: an
    exception needs one of them. *)
Theorem parser_returns_without_superscripts (hdr : string) :
  plain_digits (chars hdr) -> exists v, parse_content_range (Some hdr) = Ret v.
Proof.
  intros Hp. unfold parse_content_range.
  destruct (startswith (chars hdr) (chars "bytes")).
  - destruct (startswith (skipn 5 (chars hdr)) (chars ":"));
      (destruct (lstrip _) as [|c body] eqn:Hl; [eauto|]);
      rewrite <- Hl; apply parse_range_spec_plain, plain_digits_lstrip;
      repeat apply plain_digits_drop; exact Hp.
  - apply parse_range_spec_plain, Hp.
Qed.

(** The theorem at the header [bytes 0-5/10garbage]. *)
Lemma parser_returns_witness :
  plain_digits (chars "bytes 0-5/10garbage")
  /\ exists v, parse_content_range (Some "bytes 0-5/10garbage"%string) = Ret v.
Proof.
  assert (H : plain_digits (chars "bytes 0-5/10garbage")).
  { apply ascii_plain. unfold is_ascii. repeat constructor. }
  split; [exact H|]. exact (parser_returns_without_superscripts _ H).
Defined.

End CRangeMoreFacts.

(** * Further properties of the retrieval *)

Section CalmFacts.
Context `{!PyLib}.

Lemma calm_ret {A} (a : A) : calm (ret a).
Proof. intros s. split; [reflexivity|discriminate]. Qed.

Lemma calm_raise {A} e : calm (@raise _ A e).
Proof. intros s. split; [reflexivity|discriminate]. Qed.

Lemma calm_lift {A} (r : result A) : calm (lift r).
Proof. intros s. split; [reflexivity|discriminate]. Qed.

Lemma calm_get : calm get.
Proof. intros s. split; [reflexivity|discriminate]. Qed.

Lemma calm_get_hstat : calm get_hstat.
Proof. intros s. split; [reflexivity|discriminate]. Qed.

Lemma calm_get_resp : calm get_resp.
Proof. intros s. split; [reflexivity|discriminate]. Qed.

Lemma calm_get_os : calm get_os.
Proof. intros s. split; [reflexivity|discriminate]. Qed.

Lemma calm_modify f : (forall s : State, count (f s) = count s) -> calm (modify f).
Proof. intros Hf s. split; [apply Hf|discriminate]. Qed.

Lemma calm_modify_hstat f : calm (modify_hstat f).
Proof. intros s. split; [reflexivity|discriminate]. Qed.

Lemma calm_modify_resp f : calm (modify_resp f).
Proof. intros s. split; [reflexivity|discriminate]. Qed.

Lemma calm_modify_os f : calm (modify_os f).
Proof. intros s. split; [reflexivity|discriminate]. Qed.

Lemma calm_emit ev : calm (emit ev).
Proof. intros s. split; [reflexivity|discriminate]. Qed.

Lemma calm_bind {A B} (m : M A) (k : A -> M B) :
  calm m -> (forall a, calm (k a)) -> calm (bind m k).
Proof.
  intros Hm Hk s. unfold bind. destruct (Hm s) as [Hc Hn].
  destruct (m s) as [[[a|e]|] s1]; cbn [fst snd] in *.
  - destruct (Hk a s1) as [Hc' Hn']. split; [congruence|assumption].
  - split; [assumption|discriminate].
  - congruence.
Qed.

Lemma calm_try_except {A} (m : M A) handler :
  calm m -> (forall e, calm (handler e)) -> calm (try_except m handler).
Proof.
  intros Hm Hh s. unfold try_except. destruct (Hm s) as [Hc Hn].
  destruct (m s) as [[[a|e]|] s1]; cbn [fst snd] in *.
  - split; [assumption|discriminate].
  - destruct (Hh e s1) as [Hc' Hn']. split; [congruence|assumption].
  - congruence.
Qed.

Lemma calm_try_finally {A} (m : M A) f : calm m -> calm f -> calm (try_finally m f).
Proof.
  intros Hm Hf s. unfold try_finally. destruct (Hm s) as [Hc Hn].
  destruct (m s) as [[r|] s1]; cbn [fst snd] in *; [|congruence].
  destruct (Hf s1) as [Hc' Hn'].
  destruct (f s1) as [[[[]|e]|] s2]; cbn [fst snd] in *;
    (split; [congruence|first [discriminate|congruence]]).
Qed.

(** The call with two arguments of the restart sites. *)
Lemma calm_increment_two a b : calm (RetryCounter_increment [a; b]).
Proof. intros s. split; [reflexivity|discriminate]. Qed.

End CalmFacts.

Create HintDb calm.

#[local] Hint Resolve calm_ret calm_raise calm_lift calm_get calm_get_hstat calm_get_resp
  calm_get_os calm_modify_hstat calm_modify_resp calm_modify_os calm_emit
  calm_increment_two : calm.

(** Goes through a computation built from the monad's operations. *)
Ltac calm_step :=
  match goal with
  | |- calm (bind _ _) => apply calm_bind; [|intros]
  | |- calm (try_except _ _) => apply calm_try_except; [|intros]
  | |- calm (try_finally _ _) => apply calm_try_finally
  | |- calm (match ?x with _ => _ end) => destruct x
  | |- calm (let (_, _) := ?x in _) => destruct x
  | |- calm _ => solve [auto with calm]
  end.

Ltac calm_auto := repeat calm_step.

Section CalmOperations.
Context `{!PyLib}.

Lemma calm_pool_init scheme host port : calm (WGHTTPConnectionPool_init scheme host port).
Proof. unfold WGHTTPConnectionPool_init. calm_auto. Qed.

Lemma calm_should_retry : calm RetryCounter_should_retry.
Proof. unfold RetryCounter_should_retry. calm_auto. Qed.

Lemma calm_read r data : calm (HTTPResponse_read r data).
Proof.
  unfold HTTPResponse_read, WGHTTPResponse__decode, HTTPResponse__decode. calm_auto.
Qed.

Lemma calm_raw_write name data : calm (raw_write name data).
Proof. unfold raw_write. calm_auto. Qed.

Lemma calm_file_flush name : calm (file_flush name).
Proof. pose proof calm_raw_write. unfold file_flush. calm_auto. Qed.

Lemma calm_file_write name chunk : calm (file_write name chunk).
Proof.
  pose proof calm_raw_write. pose proof calm_file_flush.
  unfold file_write. cbv zeta. calm_auto.
Qed.

Lemma calm_file_close name : calm (file_close name).
Proof. pose proof calm_file_flush. unfold file_close. calm_auto. Qed.

Lemma calm_init_part_file : calm HttpStat_init_part_file.
Proof. unfold HttpStat_init_part_file, NamedTemporaryFile. calm_auto. Qed.

Lemma calm_stream_loop r items : calm (stream_loop r items).
Proof.
  pose proof calm_read. pose proof calm_file_write.
  induction items as [|[data|k] items IH]; cbn [stream_loop]; calm_auto.
Qed.

Lemma calm_stream_body url r : calm (stream_body url r).
Proof.
  pose proof calm_stream_loop. pose proof calm_should_retry.
  unfold stream_body, stream_error_handler, Logger_warn. calm_auto.
Qed.

Lemma calm_prepare_stream contrange : calm (prepare_stream contrange).
Proof. pose proof calm_init_part_file. unfold prepare_stream. calm_auto. Qed.

Lemma calm_process_response url doctype r : calm (process_response url doctype r).
Proof.
  pose proof calm_prepare_stream. pose proof calm_stream_body.
  unfold process_response. calm_auto.
  apply calm_modify. reflexivity.
Qed.

Lemma calm_new_pool pool : calm (new_pool pool).
Proof. pose proof calm_pool_init. unfold new_pool. calm_auto. Qed.

Lemma calm_follow range_from hops : calm (follow range_from hops).
Proof.
  pose proof calm_new_pool.
  induction hops as [|hop hops IH]; cbn [follow]; calm_auto.
Qed.

Lemma calm_poolman_request url range_from rt : calm (poolman_request url range_from rt).
Proof.
  pose proof calm_new_pool. pose proof calm_follow.
  unfold poolman_request. calm_auto.
Qed.

Lemma calm_urlopen url range_from att : calm (urlopen url range_from att).
Proof.
  pose proof calm_poolman_request.
  assert (forall outages rt final, calm (urlopen_loop url range_from outages rt final)).
  { induction outages as [|k outages IH]; intros rt final; cbn [urlopen_loop];
      calm_auto.
    apply calm_modify. reflexivity. }
  unfold urlopen. calm_auto.
Qed.

Lemma calm_gethttp url doctype att : calm (gethttp url doctype att).
Proof.
  pose proof calm_urlopen. pose proof calm_process_response.
  unfold gethttp. calm_auto.
Qed.

Lemma calm_finalize url rq dest_basename : calm (finalize url rq dest_basename).
Proof.
  pose proof calm_file_flush. pose proof calm_file_close.
  unfold finalize, file_chmod, Logger_warn, touch, os_replace. calm_auto.
Qed.

End CalmOperations.

Section VerdictFacts.
Context `{!PyLib}.

#[local] Arguments prepare_stream : simpl never.
#[local] Arguments stream_body : simpl never.

Lemma process_response_verdict url doctype r (s s' : State) v d :
  process_response url doctype r s = (Done (Ret (v, d)), s') -> v = RETRFINISHED.
Proof.
  unfold process_response. msimpl. mcases; intros [= <-]; reflexivity.
Qed.

Lemma gethttp_verdict url doctype att (s s' : State) v d :
  gethttp url doctype att s = (Done (Ret (v, d)), s') -> v = RETRFINISHED.
Proof.
  unfold gethttp. munfold.
  destruct (urlopen _ _ att _) as [[[r|e]|] s1]; try discriminate.
  destruct (process_response _ _ r _) as [[[[v' d']|e]|] s2] eqn:Hp; try discriminate.
  intros [= <- <- <-]. eapply process_response_verdict, Hp.
Qed.

End VerdictFacts.

Section LoopEnds.
Context `{!PyLib}.

(** One iteration of the retrieve loop, by the outcome of its fetch. *)
Lemma the_loop_unfold att script url doctype rq dest_basename (s : State) :
  the_loop (att :: script) url doctype rq dest_basename s
  = match gethttp url doctype att (attempt_entry s) with
    | (Done (Ret (v, d)), s1) =>
        let url' := default url (current_url (hstat s1)) in
        match v with
        | RETRINCOMPLETE => the_loop script url' d rq dest_basename s1
        | RETRUNNEEDED => (Done (Ret tt), s1)
        | RETRFINISHED =>
            if match contlen (hstat s1) with
               | Some len => bytes_read (hstat s1) <? len
               | None => false
               end
            then
              bind (RetryCounter_increment
                      [VStr url'; VHttpStat;
                       VStr "Server closed connection before Content-Length was reached."])
                   (fun _ => the_loop script url' d rq dest_basename) s1
            else if negb (bool_decide (contlen (hstat s1) = None)
                          || bool_decide (contlen (hstat s1) = Some (bytes_read (hstat s1))))
            then (Done (Raise AssertionError), s1)
            else finalize url' rq dest_basename s1
        end
    | (Done (Raise e), s1) =>
        match e with
        | HTTPError MaxRetryError => (Done (Raise WGMaxRetryError), s1)
        | HTTPError (ConnectTimeoutError conn_host conn_port) =>
            (Done (Raise (WGUnreachableHostError true
                            (normalized_host None conn_host conn_port))),
             set_unreachable_hosts
               ({[normalized_host None conn_host conn_port]} ∪ unreachable_hosts s1) s1)
        | HTTPError ProtocolError =>
            bind (RetryCounter_increment [VStr url; VHttpStat; VRepr e])
                 (fun _ s2 => the_loop script (default url (current_url (hstat s2)))
                                doctype rq dest_basename s2) s1
        | WGUnreachableHostError _ host =>
            (Done (Raise (WGUnreachableHostError true host)), s1)
        | _ => (Done (Raise e), s1)
        end
    | (NoMoreInput, s1) => (NoMoreInput, s1)
    end.
Proof.
  cbn [the_loop]. munfold. fold (attempt_entry s).
  destruct (gethttp url doctype att (attempt_entry s)) as [[[[v d]|e]|] s1];
    [destruct v| |]; try reflexivity.
  - cbv beta iota zeta. destruct (match contlen (hstat s1) with
                                  | Some len => bytes_read (hstat s1) <? len
                                  | None => false
                                  end); [reflexivity|].
    destruct (negb _); reflexivity.
  - destruct e as [[| |]| | | | | | | | | | |]; try reflexivity.
    cbv beta iota zeta.
    destruct (RetryCounter_increment _ s1) as [[[[]|e]|] s2]; reflexivity.
Qed.

(** A call of [increment] in the loop either ends the loop with an
    exception or leaves a count that is still below the limit. *)
Lemma increment_then url cause (s : State) {A} (k : unit -> M A) :
  0 <= count s < 20 ->
  (exists e s', bind (RetryCounter_increment [url; VHttpStat; cause]) k s
                = (Done (Raise e), s')
                /\ count s' = count s + 1)
  \/ (exists s', bind (RetryCounter_increment [url; VHttpStat; cause]) k s = k tt s'
                 /\ count s' = count s + 1 /\ count s' < 20).
Proof.
  intros Hs. destruct (Z.lt_ge_cases (count s + 1) 20) as [Hlt|Hge].
  - right. eexists. rewrite (bind_ret_eq _ _ _ _ _ (increment_below url cause s Hlt)).
    split; [reflexivity|]. cbn. lia.
  - left. do 2 eexists.
    rewrite (bind_raise_eq _ _ _ _ _ (increment_exhausted url cause s Hge)).
    split; reflexivity.
Qed.

(** With as many attempts in the script as retry slots are left, the loop
    ends by itself, and the counter ends within the limit. *)
Lemma the_loop_ends script : forall url doctype rq dest_basename (s : State),
  0 <= count s < 20 ->
  let run := the_loop script url doctype rq dest_basename s in
  count s <= count (snd run) <= 20
  /\ (20 - count s <= Z.of_nat (length script) -> fst run <> NoMoreInput).
Proof.
  induction script as [|att script IH]; intros url doctype rq b s Hs; cbv zeta.
  - cbn. split; [lia|]. intros Hlen. lia.
  - cbn [length]. rewrite Nat2Z.inj_succ.
    rewrite the_loop_unfold.
    destruct (calm_gethttp url doctype att (attempt_entry s)) as [Hc Hn].
    change (count (attempt_entry s)) with (count s) in Hc.
    destruct (gethttp url doctype att (attempt_entry s)) as [[[[v d]|e]|] s1] eqn:Hg;
      cbn [fst snd] in *; [| |congruence].
    + apply gethttp_verdict in Hg as ->. cbv zeta.
      destruct (match contlen (hstat s1) with
                | Some len => bytes_read (hstat s1) <? len
                | None => false
                end).
      * destruct (increment_then
                    (VStr (default url (current_url (hstat s1))))
                    (VStr "Server closed connection before Content-Length was reached.")
                    s1
                    (fun _ => the_loop script (default url (current_url (hstat s1))) d rq b))
          as [(e & s' & -> & Hc')|(s' & -> & Hc' & Hlt)]; [lia| |].
        { cbn [fst snd]. split; [lia|discriminate]. }
        destruct (IH (default url (current_url (hstat s1))) d rq b s') as [IH1 IH2];
          [lia|]. split; [lia|]. intros Hlen. apply IH2. lia.
      * destruct (negb _); cbn [fst snd]; [split; [lia|discriminate]|].
        destruct (calm_finalize (default url (current_url (hstat s1))) rq b s1)
          as [Hf1 Hf2].
        split; [lia|]. intros _. exact Hf2.
    + destruct e as [[| |]| | | | | | | | | | |]; cbn [fst snd count set_unreachable_hosts];
        try (split; [lia|discriminate]).
      destruct (increment_then (VStr url) (VRepr (HTTPError ProtocolError)) s1
                  (fun _ s2 => the_loop script (default url (current_url (hstat s2)))
                                 doctype rq b s2))
        as [(e & s' & -> & Hc')|(s' & -> & Hc' & Hlt)]; [lia| |].
      { cbn [fst snd]. split; [lia|discriminate]. }
      destruct (IH (default url (current_url (hstat s'))) doctype rq b s') as [IH1 IH2];
        [lia|]. split; [lia|]. intros Hlen. apply IH2. lia.
Qed.

Lemma retrieve_loop_ends rq script (s : State) :
  let run := _retrieve_loop rq script s in
  (fst run = Done (Raise WGBadProtocolError)
   \/ (exists host, fst run = Done (Raise (WGUnreachableHostError true host)))
   \/ 0 <= count (snd run) <= 20)
  /\ ((20 <= length script)%nat -> fst run <> NoMoreInput).
Proof.
  cbv zeta. unfold _retrieve_loop.
  destruct (negb _); [split; [left; reflexivity|discriminate]|].
  munfold.
  destruct (bool_decide _);
    [split; [right; left; eexists; reflexivity|discriminate]|].
  destruct (path_split (req_file rq)) as [dest_dirname dest_basename].
  unfold os_open, RetryCounter_init. munfold.
  destruct posix; cbv beta iota;
    match goal with
    | |- context [the_loop script ?u ?d rq ?b ?s0] =>
        destruct (the_loop_ends script u d rq b s0) as [H1 H2]; [cbn; lia|];
          cbn [count set_count] in H1, H2
    end;
    (split; [right; right; lia|intros Hlen; apply H2; lia]).
Qed.

Lemma calm_close_part : calm _close_part.
Proof.
  pose proof calm_file_close. unfold _close_part, try_unlink. calm_auto.
Qed.

(** X2.  A retrieval makes at most 20 network attempts: given a script of
    20 attempts or more, the entry point ends with a result or an exception
    of its own, whatever the network does and whatever state the process is
    in. *)
Theorem retrieval_ends_within_twenty_attempts rq script (s : State) :
  (20 <= length script)%nat ->
  exists r s', WgetRetrieveWrapper_call rq script s = (Done r, s').
Proof.
  intros Hlen.
  destruct (retrieve_loop_ends rq script (set_hstat HttpStat_init s)) as [_ Hn].
  specialize (Hn Hlen).
  assert (Hfin : calm (bind get_hstat (fun h =>
            bind match dest_dir h with
                 | Some fd => bind (os_close fd) (fun _ => modify_hstat (set_dest_dir None))
                 | None => ret tt
                 end
              (fun _ => bind get_hstat (fun h =>
                 match part_file h with
                 | Some _ => _close_part
                 | None => ret tt
                 end))))).
  { pose proof calm_close_part. unfold os_close. calm_auto. }
  unfold WgetRetrieveWrapper_call. unfold bind at 1, modify at 1. unfold bind at 1.
  unfold try_finally at 1.
  destruct (_retrieve_loop rq script (set_hstat HttpStat_init s)) as [[r|] s1];
    cbn [fst] in Hn; [|congruence].
  destruct (Hfin s1) as [_ Hret].
  match goal with
  | |- context [let (o, s'') := ?f s1 in _] => change (f s1) with (bind get_hstat (fun h =>
            bind match dest_dir h with
                 | Some fd => bind (os_close fd) (fun _ => modify_hstat (set_dest_dir None))
                 | None => ret tt
                 end
              (fun _ => bind get_hstat (fun h =>
                 match part_file h with
                 | Some _ => _close_part
                 | None => ret tt
                 end))) s1)
  end.
  destruct (bind get_hstat _ s1) as [[[[]|e]|] s2]; cbn [fst] in Hret;
    [|eauto|congruence].
  unfold get_hstat. destruct r; eauto.
Qed.

End LoopEnds.

Section SetupFacts.
Context `{!PyLib}.

(** X3.  [init_part_file] creates the part file once: the first call with
    a supplier creates an empty file of mode 0600 under the supplier's
    prefix, open with an empty buffer, and drops the supplier, and a call
    that follows another does nothing, so the part file of an earlier
    attempt is the one later attempts write to. *)
Theorem init_part_file_once (s : State) :
  let run := HttpStat_init_part_file s in
  (forall pfx dir_,
     _make_part_file (hstat s) = Some (pfx, dir_) ->
     files (os s) !! (pfx +:+ tmp_suffix (os s)) = None ->
     fst run = Done (Ret tt)
     /\ part_file (hstat (snd run)) = Some (pfx +:+ tmp_suffix (os s))
     /\ _make_part_file (hstat (snd run)) = None
     /\ files (os (snd run))
        = <[pfx +:+ tmp_suffix (os s) := File [] 384 None]> (files (os s))
     /\ buffers (os (snd run)) !! (pfx +:+ tmp_suffix (os s)) = Some [])
  /\ (_make_part_file (hstat s) = None -> run = (Done (Ret tt), s))
  /\ bind HttpStat_init_part_file (fun _ => HttpStat_init_part_file) s = run.
Proof.
  cbv zeta. unfold HttpStat_init_part_file, NamedTemporaryFile. split; [|split].
  - intros pfx dir_ Hm Hf. msimpl. rewrite Hm. msimpl. rewrite Hf. msimpl.
    repeat split; try reflexivity. apply lookup_insert_eq.
  - intros Hm. msimpl. rewrite Hm. reflexivity.
  - msimpl. destruct (_make_part_file (hstat s)) as [[pfx dir_]|] eqn:Hm; msimpl.
    + destruct (files (os s) !! (pfx +:+ tmp_suffix (os s))); msimpl; reflexivity.
    + rewrite Hm. reflexivity.
Qed.

(** X4.  A URL whose scheme is neither [http] nor [https] is refused
    before anything is done: the entry point raises [WGBadProtocolError],
    and apart from the new [HttpStat] the process is as it was; no
    directory was opened, no request was sent. *)
Theorem other_protocols_refused rq script (s : State) :
  u_scheme (urlsplit (req_url rq)) ∉ ["http"%string; "https"%string] ->
  WgetRetrieveWrapper_call rq script s
  = (Done (Raise WGBadProtocolError), set_hstat HttpStat_init s).
Proof.
  intros Hs. unfold WgetRetrieveWrapper_call, _retrieve_loop. munfold.
  rewrite bool_decide_eq_false_2 by exact Hs. reflexivity.
Qed.

(** X5.  The key under which the retrieve loop looks a URL up in the
    registry is the key under which the pool constructor looks up the pool
    of the URL's scheme, host and port, a URL without a scheme counting as
    [http]: a host condemned by the one is refused by the other. *)
Theorem host_keys_agree url scheme host port :
  urlsplit url = {| u_scheme := scheme; u_hostname := Some host; u_port := port |} ->
  normalized_host_from_url url
  = normalized_host (Some (if bool_decide (scheme = EmptyString) then "http"%string
                           else scheme)) host port.
Proof.
  intros Hu. unfold normalized_host_from_url, normalized_host. rewrite Hu. cbn.
  destruct port as [p|]; [reflexivity|].
  destruct (bool_decide (scheme = EmptyString)); [reflexivity|].
  destruct (decide (scheme = "http"%string)) as [->|Hne].
  - reflexivity.
  - rewrite !bool_decide_eq_false_2; [reflexivity|congruence|assumption].
Qed.

End SetupFacts.

Section FetchFacts.
Context `{!PyLib}.

Lemma set_trace_twice a b (s : State) : set_trace a (set_trace b s) = set_trace a s.
Proof. reflexivity. Qed.

Lemma new_pool_admitted pool (s : State) :
  (forall scheme host port, pool = Some (scheme, host, port) ->
     normalized_host (Some scheme) host port ∉ unreachable_hosts s) ->
  new_pool pool s = (Done (Ret tt), s).
Proof.
  intros Hp. unfold new_pool, WGHTTPConnectionPool_init.
  destruct pool as [[[scheme host] port]|]; [|reflexivity]. munfold.
  rewrite bool_decide_eq_false_2 by (apply Hp; reflexivity). reflexivity.
Qed.

Lemma follow_spec range_from hops : forall evs (s : State),
  (forall scheme host port, (scheme, host, port) ∈ omap hop_new_pool hops ->
     normalized_host (Some scheme) host port ∉ unreachable_hosts s) ->
  follow range_from hops (set_trace (trace s ++ evs) s)
  = (Done (Ret tt),
     set_trace (trace s ++ evs ++ map (fun u => EvRequest u range_from) (map hop_url hops))
       s).
Proof.
  induction hops as [|hop hops IH]; intros evs s Hp.
  - cbn. rewrite app_nil_r. reflexivity.
  - cbn [follow map].
    assert (Hhop : forall scheme host port, hop_new_pool hop = Some (scheme, host, port) ->
              normalized_host (Some scheme) host port
              ∉ unreachable_hosts (set_trace (trace s ++ evs) s)).
    { intros scheme host port E. apply Hp. cbn. rewrite E.
      apply elem_of_cons. left. reflexivity. }
    rewrite (bind_ret_eq _ _ _ _ _ (new_pool_admitted (hop_new_pool hop) _ Hhop)).
    unfold bind at 1, emit at 1, modify at 1. cbn [trace set_trace].
    rewrite set_trace_twice, <- app_assoc.
    rewrite IH.
    + rewrite <- app_assoc. reflexivity.
    + intros scheme host port E. apply Hp. cbn.
      destruct (hop_new_pool hop); [apply elem_of_cons; right|]; exact E.
Qed.

(** One call of [poolman.request] whose pools are admitted. *)
Lemma poolman_request_spec url range_from rt (s : State) :
  (forall scheme host port, (scheme, host, port) ∈ pools_of rt ->
     normalized_host (Some scheme) host port ∉ unreachable_hosts s) ->
  poolman_request url range_from rt s
  = (Done (Ret tt), set_trace (trace s ++ route_events url range_from rt) s).
Proof.
  intros Hp. unfold poolman_request.
  assert (Hrt : forall scheme host port, rt_new_pool rt = Some (scheme, host, port) ->
            normalized_host (Some scheme) host port ∉ unreachable_hosts s).
  { intros scheme host port E. apply Hp. unfold pools_of. rewrite E.
    apply elem_of_app. left. apply list_elem_of_singleton. reflexivity. }
  rewrite (bind_ret_eq _ _ _ _ _ (new_pool_admitted (rt_new_pool rt) _ Hrt)).
  unfold bind at 1, emit at 1, modify at 1.
  rewrite (follow_spec range_from (rt_redirects rt) [EvRequest url range_from] s).
  - reflexivity.
  - intros scheme host port E. apply Hp. unfold pools_of. apply elem_of_app.
    right. exact E.
Qed.

Lemma urlopen_loop_spec url range_from outages rt final : forall s : State,
  (forall o scheme host port, o ∈ outages ++ [rt] -> (scheme, host, port) ∈ pools_of o ->
     normalized_host (Some scheme) host port ∉ unreachable_hosts s) ->
  urlopen_loop url range_from outages rt final s
  = (match final with
     | NetResponse r => Done (Ret r)
     | NetError k => Done (Raise (HTTPError k))
     end,
     set_trace (trace s
                ++ flat_map (fun o => route_events url range_from o ++ [EvNoInternet]) outages
                ++ route_events url range_from rt)
       (match final with
        | NetResponse _ => set_resp WGHTTPResponse_init s
        | NetError _ => s
        end)).
Proof.
  induction outages as [|o outages IH]; intros s Hp.
  - cbn [urlopen_loop flat_map app].
    assert (Hrt : forall scheme host port, (scheme, host, port) ∈ pools_of rt ->
              normalized_host (Some scheme) host port ∉ unreachable_hosts s).
    { intros scheme host port E. apply (Hp rt); [|exact E].
      apply list_elem_of_singleton. reflexivity. }
    rewrite (bind_ret_eq _ _ _ _ _ (poolman_request_spec url range_from rt s Hrt)).
    destruct final; reflexivity.
  - cbn [urlopen_loop flat_map].
    assert (Ho : forall scheme host port, (scheme, host, port) ∈ pools_of o ->
              normalized_host (Some scheme) host port ∉ unreachable_hosts s).
    { intros scheme host port E. apply (Hp o); [|exact E].
      apply elem_of_cons. left. reflexivity. }
    rewrite (bind_ret_eq _ _ _ _ _ (poolman_request_spec url range_from o s Ho)).
    unfold bind at 1, emit at 1, modify at 1. cbn [trace set_trace].
    rewrite set_trace_twice, IH.
    + cbn [trace set_trace]. rewrite <- !app_assoc. destruct final; reflexivity.
    + intros o' scheme host port Ho' E. apply (Hp o'); [|exact E].
      apply elem_of_cons. right. exact Ho'.
Qed.

(** The closed form of [urlopen] when its pools are admitted. *)
Lemma urlopen_spec url range_from att (s : State) :
  pool_admitted att s ->
  urlopen url range_from att s
  = (match att_outcome att with
     | NetResponse r => Done (Ret r)
     | NetError k => Done (Raise (HTTPError k))
     end,
     set_trace (trace s ++ urlopen_events url range_from att)
       (match att_outcome att with
        | NetResponse _ => set_resp WGHTTPResponse_init s
        | NetError _ => s
        end)).
Proof.
  intros Hp. unfold urlopen. apply urlopen_loop_spec. exact Hp.
Qed.

Lemma requests_route_events url range_from rt :
  requests (route_events url range_from rt) = route_urls url rt.
Proof.
  unfold route_events. induction (route_urls url rt) as [|u us IH]; [reflexivity|].
  cbn [map]. change (requests (EvRequest u range_from :: ?l)) with (u :: requests l).
  rewrite IH. reflexivity.
Qed.

Lemma requests_urlopen_events url range_from att :
  requests (urlopen_events url range_from att)
  = concat (map (route_urls url) (att_outages att ++ [att_route att])).
Proof.
  unfold urlopen_events. induction (att_outages att) as [|o outages IH].
  - cbn. rewrite app_nil_r. apply requests_route_events.
  - cbn [flat_map app map concat]. rewrite <- app_assoc, requests_app, IH.
    rewrite requests_app, requests_route_events. cbn. rewrite app_nil_r. reflexivity.
Qed.

(** X6.  [urlopen] repeats [poolman.request] for each call that fails while
    DNS is down and once more, and each call sends the request for the URL
    and then the requests of the redirects it follows; the outcome of the
    last request is the result, a urllib3 error included.  [urlopen]
    consumes no retry slot and leaves the [HttpStat], the registry and the
    files as they are. *)
Theorem urlopen_repeats_during_outage url range_from att (s : State) :
  pool_admitted att s ->
  let run := urlopen url range_from att s in
  fst run = match att_outcome att with
            | NetResponse r => Done (Ret r)
            | NetError k => Done (Raise (HTTPError k))
            end
  /\ requests (trace (snd run))
     = requests (trace s) ++ concat (map (route_urls url) (att_outages att ++ [att_route att]))
  /\ count (snd run) = count s /\ hstat (snd run) = hstat s
  /\ unreachable_hosts (snd run) = unreachable_hosts s /\ os (snd run) = os s.
Proof.
  intros Hp. cbv zeta. rewrite (urlopen_spec _ _ _ _ Hp). cbn [fst snd trace set_trace].
  rewrite requests_app, requests_urlopen_events.
  destruct (att_outcome att); repeat split; reflexivity.
Qed.

(** A redirect to a condemned host: the request for the URL has been sent
    when the pool of the redirect is refused. *)
Lemma redirect_to_condemned url range_from scheme host port target hops (s : State) :
  normalized_host (Some scheme) host port ∈ unreachable_hosts s ->
  let rt := {| rt_new_pool := None;
               rt_redirects := {| hop_url := target;
                                  hop_new_pool := Some (scheme, host, port) |} :: hops |} in
  poolman_request url range_from rt s
  = (Done (Raise (WGUnreachableHostError false (normalized_host (Some scheme) host port))),
     set_trace (trace s ++ [EvRequest url range_from]) s).
Proof.
  intros Hin. cbv zeta. unfold poolman_request, new_pool. munfold. cbn.
  unfold WGHTTPConnectionPool_init. munfold. cbn [unreachable_hosts set_trace].
  rewrite bool_decide_eq_true_2 by exact Hin. reflexivity.
Qed.

(** A fetch whose request fails: the error of the request is the error of
    the fetch, and the fetch has reset the byte count. *)
Lemma gethttp_request_fails url doctype att k (s : State) :
  pool_admitted att s ->
  att_outcome att = NetError k ->
  gethttp url doctype att s
  = (Done (Raise (HTTPError k)),
     set_trace (trace s ++ urlopen_events (default url (current_url (hstat s)))
                             (range_of s) att)
       (set_hstat (set_remote_time None (set_contlen None (set_bytes_read 0 (hstat s))))
          s)).
Proof.
  intros Hp Hk. unfold gethttp. munfold.
  rewrite urlopen_spec by exact Hp. rewrite Hk. reflexivity.
Qed.

End FetchFacts.

Section RequestErrorFacts.
Context `{!PyLib}.

(** The loop after a request that failed with a connect timeout. *)
Lemma the_loop_connect_timeout att script url doctype rq dest_basename host port
    (s : State) :
  pool_admitted att s ->
  att_outcome att = NetError (ConnectTimeoutError host port) ->
  let run := the_loop (att :: script) url doctype rq dest_basename s in
  fst run = Done (Raise (WGUnreachableHostError true (normalized_host None host port)))
  /\ unreachable_hosts (snd run)
     = {[normalized_host None host port]} ∪ unreachable_hosts s
  /\ count (snd run) = count s /\ os (snd run) = os s.
Proof.
  intros Hp Hk. cbv zeta. rewrite the_loop_unfold.
  rewrite (gethttp_request_fails url doctype att _ (attempt_entry s) Hp Hk). repeat split; reflexivity.
Qed.

(** The loop after a request on which urllib3 reached its retry limit. *)
Lemma the_loop_max_retry att script url doctype rq dest_basename (s : State) :
  pool_admitted att s ->
  att_outcome att = NetError MaxRetryError ->
  let run := the_loop (att :: script) url doctype rq dest_basename s in
  fst run = Done (Raise WGMaxRetryError)
  /\ unreachable_hosts (snd run) = unreachable_hosts s
  /\ count (snd run) = count s /\ os (snd run) = os s.
Proof.
  intros Hp Hk. cbv zeta. rewrite the_loop_unfold.
  rewrite (gethttp_request_fails url doctype att _ (attempt_entry s) Hp Hk). repeat split; reflexivity.
Qed.

(** The loop after a request that failed with another urllib3 error. *)
Lemma the_loop_request_fails att script url doctype rq dest_basename (s : State) :
  pool_admitted att s ->
  att_outcome att = NetError ProtocolError ->
  count s + 1 < 20 ->
  exists s2,
    the_loop (att :: script) url doctype rq dest_basename s
    = the_loop script (default url (current_url (hstat s))) doctype rq dest_basename s2
    /\ bytes_read (hstat s2) = 0
    /\ part_file (hstat s2) = part_file (hstat s)
    /\ _make_part_file (hstat s2) = _make_part_file (hstat s)
    /\ current_url (hstat s2) = current_url (hstat s)
    /\ os s2 = os s /\ count s2 = count s + 1
    /\ unreachable_hosts s2 = unreachable_hosts s.
Proof.
  intros Hp Hk Hlt. rewrite the_loop_unfold.
  rewrite (gethttp_request_fails url doctype att _ (attempt_entry s) Hp Hk). cbv beta iota.
  match goal with
  | |- context [bind (RetryCounter_increment [?u; VHttpStat; ?c]) _ ?s1] =>
      rewrite (bind_ret_eq _ _ _ _ _ (increment_below u c s1 Hlt))
  end.
  eexists. repeat split; reflexivity.
Qed.

(** X7.  How the retrieve loop answers an error of the request.  A connect
    timeout condemns the host of the connection, under the key
    [normalized_host(None, host, port)], and ends the retrieval with
    [WGUnreachableHostError]; a retry limit of urllib3 ends it with
    [WGMaxRetryError]; neither consumes a retry slot nor touches a file.
    Any other urllib3 error consumes one slot, and the next attempt starts
    with [bytes_read] 0, whatever had been read before, while the part file
    is kept as it is. *)
Theorem loop_answers_request_errors att script url doctype rq dest_basename (s : State) :
  pool_admitted att s ->
  let run := the_loop (att :: script) url doctype rq dest_basename s in
  (forall host port,
     att_outcome att = NetError (ConnectTimeoutError host port) ->
     fst run = Done (Raise (WGUnreachableHostError true (normalized_host None host port)))
     /\ unreachable_hosts (snd run)
        = {[normalized_host None host port]} ∪ unreachable_hosts s
     /\ count (snd run) = count s /\ os (snd run) = os s)
  /\ (att_outcome att = NetError MaxRetryError ->
      fst run = Done (Raise WGMaxRetryError)
      /\ unreachable_hosts (snd run) = unreachable_hosts s
      /\ count (snd run) = count s /\ os (snd run) = os s)
  /\ (att_outcome att = NetError ProtocolError ->
      count s + 1 < 20 ->
      exists s2,
        run = the_loop script (default url (current_url (hstat s))) doctype rq
                dest_basename s2
        /\ bytes_read (hstat s2) = 0
        /\ part_file (hstat s2) = part_file (hstat s)
        /\ os s2 = os s /\ count s2 = count s + 1).
Proof.
  intros Hp run. subst run. split; [|split].
  - intros host port Hk. apply the_loop_connect_timeout; assumption.
  - intros Hk. apply the_loop_max_retry; assumption.
  - intros Hk Hlt.
    destruct (the_loop_request_fails att script url doctype rq dest_basename s Hp Hk Hlt)
      as (s2 & H1 & H2 & H3 & _ & _ & H4 & H5 & _).
    exists s2. repeat split; assumption.
Qed.

End RequestErrorFacts.

Section WrongCodeFacts.
Context `{!PyLib}.

Lemma try_finally_emit {A} (m : M A) ev (s : State) :
  fst (m s) <> NoMoreInput ->
  try_finally m (emit ev) s
  = (fst (m s), set_trace (trace (snd (m s)) ++ [ev]) (snd (m s))).
Proof.
  unfold try_finally. munfold. destruct (m s) as [[r|] s1]; cbn [fst snd]; congruence.
Qed.

(** The fetch of an attempt whose request gets a response. *)
Lemma gethttp_response url doctype att r (s : State) :
  pool_admitted att s ->
  att_outcome att = NetResponse r ->
  gethttp url doctype att s
  = try_finally
      (process_response (fetched_url url r s) (Z.land doctype (Z.lnot RETROKF)) r)
      (emit EvReleaseConn) (fetched url att r s).
Proof.
  intros Hp Hr. unfold gethttp. munfold.
  rewrite urlopen_spec by exact Hp. rewrite Hr. reflexivity.
Qed.

Lemma retrokf_cleared (doctype : Z) : Z.land (Z.land doctype (Z.lnot RETROKF)) RETROKF = 0.
Proof.
  rewrite <- Z.land_assoc. change (Z.land (Z.lnot RETROKF) RETROKF) with 0.
  apply Z.land_0_r.
Qed.

(** [process_response] on a response whose status is no success. *)
Lemma process_response_wrong_code url doctype r crange_parsed (s : State) :
  let code := default 0 (status r) in
  let host := normalized_host_from_url url in
  passes_header_checks r crange_parsed s ->
  Z.land doctype RETROKF = 0 ->
  status_ok code = false ->
  process_response url doctype r s
  = (Done (Raise (if cloudflare_down r then WGUnreachableHostError true host
                  else WGWrongCodeError code)),
     set_unreachable_hosts
       (if cloudflare_down r then {[host]} ∪ unreachable_hosts s else unreachable_hosts s)
       (set_hstat
          (set_statcode code
             (set_enc_is_identity
                (Some (encoding_is_identity (headers r !! "Content-Encoding"%string)))
                (set_remote_encoding (headers r !! "Content-Encoding"%string)
                   (set_remote_time
                      (match match headers r !! "Last-Modified"%string with
                             | Some v => Some v
                             | None => headers r !! "X-Archive-Orig-last-modified"%string
                             end with
                       | None => None
                       | Some v => parsedate v
                       end)
                      (set_last_modified
                         (match headers r !! "Last-Modified"%string with
                          | Some v => Some v
                          | None => headers r !! "X-Archive-Orig-last-modified"%string
                          end) (hstat s)))))) s)).
Proof.
  intros code host (Hmp & Hparse & Henc) Hdt Hcode.
  unfold process_response. rewrite Hmp. rewrite Hparse. msimpl.
  rewrite Henc. msimpl. fold code. unfold status_ok in Hcode. rewrite Hcode.
  assert (H204 : (code =? 204) = false).
  { apply Z.eqb_neq. intros E. rewrite E in Hcode. discriminate. }
  rewrite H204, Hdt. msimpl. unfold cloudflare_down. fold code.
  destruct (bool_decide _ && bool_decide _); reflexivity.
Qed.


End WrongCodeFacts.

(** * Further properties at concrete inputs *)

Module MoreScenarios.
Import Fixture.
#[local] Existing Instance ex_lib.
Local Open Scope string_scope.

(** The theorem at a script of twenty attempts whose connections all drop
    after five bytes. *)
Lemma retrieval_ends_witness :
  (20 <= length (repeat (attempt dropped) 20))%nat
  /\ exists r s', WgetRetrieveWrapper_call rq (repeat (attempt dropped) 20) s0 = (Done r, s').
Proof.
  assert (H : (20 <= length (repeat (attempt dropped) 20))%nat) by (vm_compute; lia).
  split; [exact H|]. exact (retrieval_ends_within_twenty_attempts rq _ s0 H).
Defined.

(** The theorem at the URL [ftp://ex/a.bin]. *)
Lemma other_protocols_witness :
  (u_scheme (urlsplit (req_url rq_ftp)) ∉ ["http"; "https"])
  /\ WgetRetrieveWrapper_call rq_ftp [] s0
     = (Done (Raise WGBadProtocolError), set_hstat HttpStat_init s0).
Proof.
  assert (H : u_scheme (urlsplit (req_url rq_ftp)) ∉ ["http"; "https"]).
  { change (u_scheme (urlsplit (req_url rq_ftp))) with EmptyString.
    rewrite !not_elem_of_cons. repeat split; try discriminate. apply not_elem_of_nil. }
  split; [exact H|]. exact (other_protocols_refused rq_ftp [] s0 H).
Defined.

(** The theorem at the URL [https://cf/e.html]: both keys are [cf:443]. *)
Lemma host_keys_witness :
  urlsplit "https://cf/e.html"
  = {| u_scheme := "https"; u_hostname := Some "cf"; u_port := None |}
  /\ normalized_host_from_url "https://cf/e.html" = normalized_host (Some "https") "cf" None.
Proof.
  assert (H : urlsplit "https://cf/e.html"
              = {| u_scheme := "https"; u_hostname := Some "cf"; u_port := None |})
    by reflexivity.
  split; [exact H|]. exact (host_keys_agree _ _ _ _ H).
Defined.

Lemma redirected_admitted outcome : pool_admitted (redirected outcome) s0.
Proof. intros rt scheme host port _ _. apply not_elem_of_empty. Qed.

(** The theorem at an attempt with one outage and one redirect: three
    requests are sent. *)
Lemma urlopen_witness :
  pool_admitted (redirected (NetError ProtocolError)) s0
  /\ fst (urlopen "http://ex/a.bin" None (redirected (NetError ProtocolError)) s0)
     = Done (Raise (HTTPError ProtocolError))
  /\ requests (trace (snd (urlopen "http://ex/a.bin" None
                             (redirected (NetError ProtocolError)) s0)))
     = ["http://ex/a.bin"; "http://ex/a.bin"; "https://cf/a.bin"].
Proof.
  pose proof (redirected_admitted (NetError ProtocolError)) as H.
  split; [exact H|].
  destruct (urlopen_repeats_during_outage "http://ex/a.bin" None _ s0 H) as (H1 & H2 & _).
  split; [exact H1|exact H2].
Defined.

(** The theorem at a first attempt whose request ends with a connect
    timeout of the host [ex]. *)
Lemma request_errors_witness :
  let att := redirected (NetError (ConnectTimeoutError "ex" None)) in
  let run := the_loop [att] "http://ex/a.bin" 0 rq "a.bin" s_armed in
  pool_admitted att s_armed
  /\ fst run = Done (Raise (WGUnreachableHostError true "ex:443"))
  /\ unreachable_hosts (snd run) = {[ "ex:443" ]} ∪ unreachable_hosts s_armed.
Proof.
  cbv zeta.
  pose proof (redirected_admitted (NetError (ConnectTimeoutError "ex" None))) as H.
  split; [exact H|].
  destruct (loop_answers_request_errors _ [] "http://ex/a.bin" 0 rq "a.bin" s_armed H)
    as (H1 & _).
  destruct (H1 "ex" None eq_refl) as (R1 & R2 & _).
  split; [exact R1|exact R2].
Defined.


(** X9.  The body comes in two blocks of five bytes and the disk has room
    for seven bytes.  The two writes of the streaming loop stay in the
    buffer of the part file and do not fail; nothing is logged, and
    [process_response] returns.  The flush of the finalization writes seven
    bytes and fails: the retrieval ends with [OSError].  The [finally] block
    of the entry point closes the part file, which fails again, and the
    temporary file is not unlinked: it stays in the directory with the seven
    bytes. *)
Theorem full_disk_leaves_part_file :
  let run := WgetRetrieveWrapper_call rq [attempt two_blocks] s_tiny_disk in
  fst run = Done (Raise OSError)
  /\ logs (trace (snd run)) = []
  /\ bytes_read (hstat (snd run)) = 10
  /\ part_file (hstat (snd run)) = None
  /\ elements (open_files (os (snd run))) = []
  /\ map_to_list (files (os (snd run)))
     = [(".a.bin.tmp0", File (abcde ++ ["h"; "e"]%byte) 420 None)].
Proof. vm_compute. repeat split; reflexivity. Qed.

End MoreScenarios.
